(** * Browser notepad: document session and enrichment layer

    A shallow embedding of the session layer of the browser notepad
    (the revision of the script that has [StorageManager] with write
    batching, [HistoryManager], [TabManager] and [SectionManager]), and
    the properties of that layer checked against the code.

    Conventions.  A JavaScript string is a [string], one character for one
    code unit, and its [length] is [String.length].  The code units are
    those below 256; only [trim] depends on which characters there are.
    An array is a [list] with index 0 at
    the head: [push x] is [l ++ [x]], [pop] takes [last l] and leaves
    [removelast l], [shift] leaves [tail l] and [unshift x] is [x :: l].
    A plain object or [Map] keyed by strings is a [gmap string _], except
    the pending-write [Map], which is kept as an association list in
    insertion order because [forEach] visits it in that order.  The DOM is
    reduced to the text of the elements the code reads and writes.

    What the browser and the service decide is a parameter: whether
    [localStorage.setItem] accepts a write, the SHA-256 digest,
    [JSON.stringify], [JSON.parse], [parseInt] and the answers of the
    service.  A method that can throw returns a [completion].  An [async]
    method runs from call to return with nothing in between, and a timer
    that fires is an event of its own. *)

From Stdlib Require Import Ascii String ZArith Lia.
From stdpp Require Import gmap strings list pretty.
From Equations.Prop Require Import Equations Logic.

Local Open Scope string_scope.
Local Open Scope list_scope.
Local Open Scope Z_scope.

(** ** JavaScript values that cross the storage interface *)

Module Js.

(** The values passed as [defaultValue] and returned by
    [getFromLocalStorage]: [null], a string, or a number. *)
Inductive value :=
| VNull
| VStr (s : string)
| VNum (n : Z).

(** [ToBoolean] on those values. *)
Definition truthy (v : value) : bool :=
  match v with
  | VNull => false
  | VStr s => negb (String.eqb s "")
  | VNum n => negb (n =? 0)
  end.

(** [a || b]. *)
Definition or (a b : value) : value := if truthy a then a else b.

(** [String(v)], the coercion applied when a value is assigned to
    [innerText]. *)
Definition toString (v : value) : string :=
  match v with
  | VNull => "null"
  | VStr s => s
  | VNum n => pretty n
  end.

(** The result of [localStorage.getItem]: the string, or [null]. *)
Definition ofItem (o : option string) : value :=
  match o with
  | Some s => VStr s
  | None => VNull
  end.

End Js.

(** ** HistoryManager: undo and redo stacks with a size limit *)

Module HistoryManager.

Record t := mk {
  past : list string;
  future : list string;
  current : string;
  isNavigating : bool
}.

(** [this.maxHistorySize = 50]: assigned once by the constructor and
    never written again. *)
Definition maxHistorySize : nat := 50.

(** [constructor()]. *)
Definition new : t :=
  {| past := []; future := []; current := ""; isNavigating := false |}.

(** [Math.abs(a.length - b.length)]. *)
Definition lengthDelta (a b : string) : Z :=
  Z.abs (Z.of_nat (String.length a) - Z.of_nat (String.length b)).

(** The guard of the recording branch of [pushState]. *)
Definition records (h : t) (newState : string) : bool :=
  negb (String.eqb (current h) "")
  && negb (String.eqb (current h) newState)
  && (5 <? lengthDelta (current h) newState).

(** [this.past.push(this.current)] followed by the bound check, which
    shifts one entry off the bottom. *)
Definition pushBounded (p : list string) (x : string) : list string :=
  let p' := p ++ [x] in
  if (maxHistorySize <? length p')%nat then tail p' else p'.

Definition pushState (newState : string) (h : t) : t :=
  if isNavigating h then
    {| past := past h; future := future h; current := current h;
       isNavigating := false |}
  else
    {| past := if records h newState
               then pushBounded (past h) (current h)
               else past h;
       future := [];
       current := newState;
       isNavigating := false |}.

(** [undo()]: the new state and the returned text ([None] is [null]). *)
Definition undo (h : t) : t * option string :=
  match last (past h) with
  | Some top =>
      ({| past := removelast (past h);
          future := current h :: future h;
          current := top;
          isNavigating := true |}, Some top)
  | None => (h, None)
  end.

(** [redo()]. *)
Definition redo (h : t) : t * option string :=
  match future h with
  | next :: rest =>
      ({| past := past h ++ [current h];
          future := rest;
          current := next;
          isNavigating := true |}, Some next)
  | [] => (h, None)
  end.

(** The calls a client can make on a history. *)
Inductive call :=
| PushState (newState : string)
| Undo
| Redo.

Definition exec (c : call) (h : t) : t :=
  match c with
  | PushState s => pushState s h
  | Undo => fst (undo h)
  | Redo => fst (redo h)
  end.

(** States reached from a fresh history by any calls. *)
Inductive reachable : t -> Prop :=
| reach_new : reachable new
| reach_call c h : reachable h -> reachable (exec c h).

(** States reached by [pushState] alone, each new text differing from
    the current one by more than the length threshold. *)
Inductive pushed : t -> Prop :=
| pushed_new : pushed new
| pushed_push s h :
    pushed h -> 5 < lengthDelta (current h) s -> pushed (pushState s h).

End HistoryManager.

(** ** Completions of code that can throw *)

(** How a call ends: it returns, or it throws; either way with the state
    the program is left in. *)
Inductive completion (S : Type) :=
| Returns (s : S)
| Throws (s : S).
Arguments Returns {S} s.
Arguments Throws {S} s.

Definition stateOf {S : Type} (c : completion S) : S :=
  match c with
  | Returns s => s
  | Throws s => s
  end.

Definition returned {S : Type} (c : completion S) : bool :=
  match c with
  | Returns _ => true
  | Throws _ => false
  end.

(** ** StorageManager: batched writes to localStorage *)

Module StorageManager.

(** The two static fields, and the browser's [localStorage] they sit on.
    [writeTimeout] records whether the timer handle is non-null. *)
Record t := mk {
  pendingWrites : list (string * Js.value);
  writeTimeout : bool;
  localStorage : gmap string string
}.

Definition empty : t :=
  {| pendingWrites := []; writeTimeout := false; localStorage := ∅ |}.

(** [Map.prototype.get], [undefined] being [None]. *)
Fixpoint mapGet (key : string) (m : list (string * Js.value)) : option Js.value :=
  match m with
  | [] => None
  | (k, v) :: m' => if String.eqb k key then Some v else mapGet key m'
  end.

(** [Map.prototype.has]. *)
Definition mapHas (key : string) (m : list (string * Js.value)) : bool :=
  match mapGet key m with
  | Some _ => true
  | None => false
  end.

(** [Map.prototype.set]: an existing key keeps its place, a new one goes
    last. *)
Fixpoint mapSet (key : string) (v : Js.value) (m : list (string * Js.value))
  : list (string * Js.value) :=
  match m with
  | [] => [(key, v)]
  | (k, w) :: m' =>
      if String.eqb k key then (k, v) :: m' else (k, w) :: mapSet key v m'
  end.

(** [Map.prototype.delete]. *)
Definition mapDelete (key : string) (m : list (string * Js.value))
  : list (string * Js.value) :=
  filter (fun kv => negb (String.eqb (fst kv) key) = true) m.

(** [saveToLocalStorage(key, value)]: queue the write and (re)arm the
    100 ms timer. *)
Definition saveToLocalStorage (key : string) (value : Js.value) (s : t) : t :=
  {| pendingWrites := mapSet key value (pendingWrites s);
     writeTimeout := true;
     localStorage := localStorage s |}.

(** [getFromLocalStorage(key, defaultValue)]. *)
Definition getFromLocalStorage (key : string) (defaultValue : Js.value) (s : t)
  : Js.value :=
  if mapHas key (pendingWrites s) then
    match mapGet key (pendingWrites s) with
    | Some v => v
    | None => Js.VNull
    end
  else Js.or (Js.ofItem (localStorage s !! key)) defaultValue.

(** [removeFromLocalStorage(key)]. *)
Definition removeFromLocalStorage (key : string) (s : t) : t :=
  {| pendingWrites := mapDelete key (pendingWrites s);
     writeTimeout := writeTimeout s;
     localStorage := delete key (localStorage s) |}.

Section Flush.

(** Whether the browser accepts [localStorage.setItem(key, value)] on
    the given contents; when it does not, [setItem] throws (the quota
    is exceeded, or storage is unavailable). *)
Variable accepts : gmap string string -> string -> string -> bool.

(** The [forEach] of [flushWrites]: the writes in insertion order, up
    to the first one that throws. *)
Fixpoint setItems (ls : gmap string string) (ws : list (string * Js.value))
  : completion (gmap string string) :=
  match ws with
  | [] => Returns ls
  | (key, value) :: ws' =>
      if accepts ls key (Js.toString value)
      then setItems (<[key := Js.toString value]> ls) ws'
      else Throws ls
  end.

(** [flushWrites()].  There is no handler around the loop: when a
    write throws, the two statements after the loop are not reached. *)
Definition flushWrites (s : t) : completion t :=
  match setItems (localStorage s) (pendingWrites s) with
  | Returns ls =>
      Returns {| pendingWrites := []; writeTimeout := false; localStorage := ls |}
  | Throws ls =>
      Throws {| pendingWrites := pendingWrites s;
                writeTimeout := writeTimeout s;
                localStorage := ls |}
  end.

End Flush.

(** [key] is held neither in the pending map nor in [localStorage]. *)
Definition absent (key : string) (s : t) : Prop :=
  mapGet key (pendingWrites s) = None /\ localStorage s !! key = None.

End StorageManager.

(** ** Strings *)

(** The code units [String.prototype.trim] strips (white space and line
    terminators): of the code units below 256 these are tab, line feed,
    vertical tab, form feed and carriage return (9 to 13), space (32) and
    the no-break space (160).  The others (U+1680, U+2000 to U+200A,
    U+2028, U+2029, U+202F, U+205F, U+3000 and U+FEFF) lie above 255, and
    a text that holds one is not among the texts modelled. *)
Definition isSpace (c : ascii) : bool :=
  let n := nat_of_ascii c in
  ((9 <=? n) && (n <=? 13) || (n =? 32) || (n =? 160))%nat.

Fixpoint trimStart (s : string) : string :=
  match s with
  | String c s' => if isSpace c then trimStart s' else s
  | EmptyString => EmptyString
  end.

Fixpoint trimEnd (s : string) : string :=
  match s with
  | String c s' =>
      let r := trimEnd s' in
      if isSpace c && String.eqb r "" then "" else String c r
  | EmptyString => EmptyString
  end.

Definition trim (s : string) : string := trimEnd (trimStart s).

(** A string, or [null] or [undefined], tested as a condition. *)
Definition nonEmpty (o : option string) : bool :=
  match o with
  | Some s => negb (String.eqb s "")
  | None => false
  end.

(** A string or [null] interpolated into a template literal. *)
Definition interpolate (o : option string) : string :=
  match o with
  | Some s => s
  | None => "null"
  end.

(** ** The enrichment service, as [callSharpApi] sees it *)

Module Api.

Inductive method := GET | POST.

Record requestBody := mkBody {
  content : string;
  language : option string
}.

Record request := mkRequest {
  meth : method;
  url : string;
  bearer : string;
  body : option requestBody
}.

(** The outcome of an awaited call: a value, or an exception with its
    [message]. *)
Inductive fetched (A : Type) :=
| Returned (a : A)
| Threw (message : string).
Arguments Returned {A} a.
Arguments Threw {A} message.

(** [JSON.parse(attributes.result)]: an object with string fields, or
    an array of strings. *)
Inductive parsed :=
| PObject (fields : gmap string string)
| PArray (items : list string).

(** [response.data.attributes]; [result] is what parsing it gives, and
    an absent [message] is the empty string. *)
Record attributes := mkAttributes {
  status : string;
  result : fetched parsed;
  message : string
}.

(** The JSON the service answers with; absent string fields are empty,
    and [data_attributes] throws when [response.data] is missing. *)
Record json := mkJson {
  errorMessage : string;
  status_url : string;
  data_attributes : fetched attributes
}.

(** What [fetch] resolves to, with its body already read as JSON. *)
Record reply := mkReply {
  ok : bool;
  httpStatus : Z;
  payload : json
}.

(** The service and the network: the answer to a request, given the
    requests made before it.  [Threw] is a rejected [fetch] or a body
    that is not JSON. *)
Definition server : Type := list request -> request -> fetched reply.

Definition endpoint (path : string) : string :=
  if String.prefix "http" path then path
  else "https://sharpapi.com/api" +:+ path.

(** [callSharpApi(method, path, apiKey, body)] over the log of requests:
    the extended log and the JSON returned or the error thrown. *)
Definition callSharpApi (srv : server) (m : method) (path apiKey : string)
    (b : option requestBody) (log : list request)
  : list request * fetched json :=
  let req := mkRequest m (endpoint path) apiKey b in
  (log ++ [req],
   match srv log req with
   | Threw msg => Threw msg
   | Returned r =>
       if negb (ok r) && negb (httpStatus r =? 202) then
         Threw (if String.eqb (errorMessage (payload r)) ""
                then "API call failed with status " +:+ pretty (httpStatus r)
                else errorMessage (payload r))
       else Returned (payload r)
   end).

(** [result.field || fallback] on a parsed result. *)
Definition fieldOr (r : parsed) (field fallback : string) : string :=
  match r with
  | PObject fields =>
      match fields !! field with
      | Some s => if String.eqb s "" then fallback else s
      | None => fallback
      end
  | PArray _ => fallback
  end.

(** [items.join(', ')]. *)
Definition join (items : list string) : string := String.concat ", " items.

End Api.

(** ** The state of the page *)

(** A poll scheduled with [setTimeout]: the arguments of the
    [pollForStatus] call it will make. *)
Record Job := mkJob {
  statusUrl : string;
  jobApiKey : string;
  jobCacheKey : string;
  retries : nat
}.

(** The fields of [SectionManager].  An [.ai-note] element is named by the
    section whose panel holds it.  [translationManager] is [None] until
    [setTranslationManager], then the language its [select] shows.
    [pollingTimeout] is the poll whose timer is registered under the
    handle the field holds and is still to fire.  As the calls of
    [handleAiWrite] and [pollForStatus] run one after the other, each
    from call to return, this is the only timer there is: the field
    describes one chain of polls, and a second chain started while a
    call of the first is still waiting for an answer is not modelled. *)
Record SectionState := mkSection {
  currentSectionElement : option string;
  currentNoteId : option string;
  activeSection : option string;
  translationManager : option string;
  apiCache : gmap string string;
  pollingTimeout : option Job
}.

Record Tab := mkTab {
  id : string;
  title : string
}.

(** The fields of [TabManager]. *)
Record TabState := mkTabs {
  tabs : list Tab;
  tabHistories : gmap string HistoryManager.t;
  currentTabIndex : Z
}.

(** Everything the session layer reads and writes: the storage manager,
    the text of the note element, the text of the [.ai-note] element of
    each section that has one, the requests sent so far, and the two
    managers. *)
Record World := mkWorld {
  storage : StorageManager.t;
  noteText : string;
  panels : gmap string string;
  requests : list Api.request;
  section : SectionState;
  tabState : TabState
}.

Definition withStorage (f : StorageManager.t -> StorageManager.t) (w : World) : World :=
  mkWorld (f (storage w)) (noteText w) (panels w) (requests w) (section w) (tabState w).

Definition withNoteText (s : string) (w : World) : World :=
  mkWorld (storage w) s (panels w) (requests w) (section w) (tabState w).

Definition withPanels (f : gmap string string -> gmap string string) (w : World) : World :=
  mkWorld (storage w) (noteText w) (f (panels w)) (requests w) (section w) (tabState w).

Definition withRequests (l : list Api.request) (w : World) : World :=
  mkWorld (storage w) (noteText w) (panels w) l (section w) (tabState w).

Definition withSection (f : SectionState -> SectionState) (w : World) : World :=
  mkWorld (storage w) (noteText w) (panels w) (requests w) (f (section w)) (tabState w).

Definition withTabState (f : TabState -> TabState) (w : World) : World :=
  mkWorld (storage w) (noteText w) (panels w) (requests w) (section w) (f (tabState w)).

(** ** SectionManager: the enrichment panels *)

Module SectionManager.

(** [constructor()]. *)
Definition new : SectionState :=
  mkSection None None None None ∅ None.

Definition maxRetries : nat := 10.

(** [document.querySelector(`.rightTabContent#${section} .ai-note`)]. *)
Definition querySelector (sec : string) (w : World) : option string :=
  match panels w !! sec with
  | Some _ => Some sec
  | None => None
  end.

(** [element.innerText]. *)
Definition innerText (element : string) (w : World) : string :=
  default "" (panels w !! element).

(** [element.innerText = text]; a [TypeError] when [element] is [null]. *)
Definition setInnerText (element : option string) (text : string) (w : World)
  : completion World :=
  match element with
  | Some e => Returns (withPanels <[e := text]> w)
  | None => Throws w
  end.

(** [setContent(element, newText)]: focus, select all, delete, insert. *)
Definition setContent (element : option string) (newText : string) (w : World)
  : completion World :=
  setInnerText element newText w.

(** The storage key of a section's result, as [saveSectionContent] and
    [loadSectionContent] both compute it. *)
Definition sectionKey (noteId : option string) (sec : string) (w : World) : string :=
  match translationManager (section w) with
  | Some lang =>
      if String.eqb sec "translation"
      then interpolate noteId +:+ "-" +:+ sec +:+ "-" +:+ lang
      else interpolate noteId +:+ "-" +:+ sec
  | None => interpolate noteId +:+ "-" +:+ sec
  end.

Definition saveSectionContent (w : World) : World :=
  match currentSectionElement (section w), activeSection (section w) with
  | Some element, Some sec =>
      if nonEmpty (currentNoteId (section w)) && nonEmpty (Some sec) then
        let key := sectionKey (currentNoteId (section w)) sec w in
        let content := innerText element w in
        withStorage (StorageManager.saveToLocalStorage key (Js.VStr content)) w
      else w
  | _, _ => w
  end.

Definition loadSectionContent (sec : option string) (w : World) : World :=
  match sec with
  | Some s =>
      if nonEmpty (currentNoteId (section w)) && nonEmpty sec then
        let key := sectionKey (currentNoteId (section w)) s w in
        let content :=
          StorageManager.getFromLocalStorage key (Js.VStr "") (storage w) in
        match querySelector s w with
        | Some element => withPanels <[element := Js.toString content]> w
        | None => w
        end
      else w
  | None => w
  end.

Definition setNoteId (noteId : string) (w : World) : World :=
  let w1 :=
    withSection (fun s =>
      mkSection (currentSectionElement s) (Some noteId) (activeSection s)
                (translationManager s) (apiCache s) (pollingTimeout s)) w in
  loadSectionContent (activeSection (section w1)) w1.

Definition setTranslationManager (lang : string) (w : World) : World :=
  withSection (fun s =>
    mkSection (currentSectionElement s) (currentNoteId s) (activeSection s)
              (Some lang) (apiCache s) (pollingTimeout s)) w.

Definition switchSection (sec : string) (w : World) : World :=
  let w1 :=
    withSection (fun s =>
      mkSection (currentSectionElement s) (currentNoteId s) (Some sec)
                (translationManager s) (apiCache s) (pollingTimeout s)) w in
  match querySelector sec w1 with
  | None => w1
  | Some element =>
      let w2 :=
        withSection (fun s =>
          mkSection (Some element) (currentNoteId s) (activeSection s)
                    (translationManager s) (apiCache s) (pollingTimeout s)) w1 in
      loadSectionContent (Some sec) w2
  end.

Definition clearContent (noteId : string) (w : World) : World :=
  match currentNoteId (section w), currentSectionElement (section w) with
  | Some n, Some element =>
      if String.eqb n noteId then withPanels <[element := ""]> w else w
  | _, _ => w
  end.

Definition setPollingTimeout (j : option Job) (w : World) : World :=
  withSection (fun s =>
    mkSection (currentSectionElement s) (currentNoteId s) (activeSection s)
              (translationManager s) (apiCache s) j) w.

Definition setApiCache (key value : string) (w : World) : World :=
  withSection (fun s =>
    mkSection (currentSectionElement s) (currentNoteId s) (activeSection s)
              (translationManager s) (<[key := value]> (apiCache s))
              (pollingTimeout s)) w.

Section Enrichment.

(** The service, and [crypto.subtle.digest('SHA-256', _)] rendered as
    lower-case hexadecimal. *)
Variable srv : Api.server.
Variable sha256Hex : string -> string.

(** [generateCacheKey(content)]; [None] is the [TypeError] of asking a
    missing translation manager for its language. *)
Definition generateCacheKey (content : string) (w : World) : option string :=
  let hashHex := sha256Hex content in
  let sec := activeSection (section w) in
  let stem :=
    interpolate sec +:+ "-" +:+ interpolate (currentNoteId (section w))
    +:+ "-" +:+ String.substring 0 16 hashHex +:+ "-" in
  if bool_decide (sec = Some "translation") then
    match translationManager (section w) with
    | Some lang => Some (stem +:+ lang)
    | None => None
    end
  else Some stem.

(** The text shown for a completed job, chosen by the section active
    when the answer arrives. *)
Definition finalResult (r : Api.parsed) (w : World) : string :=
  match activeSection (section w) with
  | Some "summary" => Api.fieldOr r "summary" "No summary found."
  | Some "translation" => Api.fieldOr r "content" "No translation found."
  | Some "grammar" => Api.fieldOr r "proofread" "No proofread result found."
  | Some "rewriting" => Api.fieldOr r "paraphrase" "No rewritten text found."
  | Some "keywords" =>
      match r with
      | Api.PArray items => Api.join items
      | Api.PObject _ => "No keywords found."
      end
  | _ => "No result found."
  end.

(** The [catch] clause of [pollForStatus]. *)
Definition pollingFailed (msg : string) (w : World) : completion World :=
  setInnerText (currentSectionElement (section w)) ("Polling failed: " +:+ msg) w.

(** One call of [pollForStatus(statusUrl, apiKey, cacheKey, retries)].
    When the panel element is [null], the [TypeError] raised inside
    [try] is raised again by the [catch] clause, so the call throws. *)
Definition pollForStatus (j : Job) (w : World) : completion World :=
  if (maxRetries <=? retries j)%nat then
    setInnerText (currentSectionElement (section w))
                 "Job timed out. Please try again." w
  else
    let '(log, response) :=
      Api.callSharpApi srv Api.GET (statusUrl j) (jobApiKey j) None (requests w) in
    let w1 := withRequests log w in
    match response with
    | Api.Threw msg => pollingFailed msg w1
    | Api.Returned js =>
        match Api.data_attributes js with
        | Api.Threw msg => pollingFailed msg w1
        | Api.Returned a =>
            if String.eqb (Api.status a) "completed"
               || String.eqb (Api.status a) "success" then
              match Api.result a with
              | Api.Threw msg => pollingFailed msg w1
              | Api.Returned r =>
                  let final := finalResult r w1 in
                  match setContent (currentSectionElement (section w1)) final w1 with
                  | Throws w2 => Throws w2
                  | Returns w2 =>
                      Returns (saveSectionContent (setApiCache (jobCacheKey j) final w2))
                  end
              end
            else if String.eqb (Api.status a) "failed" then
              setInnerText (currentSectionElement (section w1))
                ("Job failed: " +:+
                 (if String.eqb (Api.message a) "" then "Unknown error"
                  else Api.message a)) w1
            else
              Returns (setPollingTimeout
                         (Some (mkJob (statusUrl j) (jobApiKey j) (jobCacheKey j)
                                      (retries j + 1))) w1)
        end
    end.

(** The endpoint of a section; [None] is the [default] case. *)
Definition apiPath (sec : string) : option string :=
  match sec with
  | "summary" => Some "/v1/content/summarize"
  | "translation" => Some "/v1/content/translate"
  | "grammar" => Some "/v1/content/proofread"
  | "rewriting" => Some "/v1/content/paraphrase"
  | "keywords" => Some "/v1/content/keywords"
  | _ => None
  end.

(** [handleAiWrite()], run up to the answer to the first status read.
    [showModal] and [alert] change nothing that is modelled.  The
    [pollForStatus] call is not awaited: whatever it does, the handler
    itself returns. *)
Definition handleAiWrite (w : World) : completion World :=
  match activeSection (section w) with
  | None => Returns w
  | Some sec =>
      let w0 := setPollingTimeout None w in
      let apiKey :=
        StorageManager.getFromLocalStorage "apiKey" (Js.VStr "") (storage w0) in
      if negb (Js.truthy apiKey) then Returns w0
      else
        let noteContent := trim (noteText w0) in
        if String.eqb noteContent "" then Returns w0
        else
          match generateCacheKey noteContent w0 with
          | None => Throws w0
          | Some cacheKey =>
              let element := currentSectionElement (section w0) in
              if nonEmpty (apiCache (section w0) !! cacheKey) then
                match setContent element
                        (default "" (apiCache (section w0) !! cacheKey)) w0 with
                | Throws w1 => Throws w1
                | Returns w1 => Returns (saveSectionContent w1)
                end
              else
                match setInnerText element "Loading..." w0 with
                | Throws w1 => Throws w1
                | Returns w1 =>
                    match apiPath sec with
                    | None =>
                        setInnerText element
                          "Function not implemented for this section." w1
                    | Some path =>
                        let requestBody :=
                          Api.mkBody noteContent
                            (if String.eqb sec "translation"
                             then translationManager (section w1) else None) in
                        let '(log, response) :=
                          Api.callSharpApi srv Api.POST path (Js.toString apiKey)
                                           (Some requestBody) (requests w1) in
                        let w2 := withRequests log w1 in
                        match response with
                        | Api.Threw msg =>
                            setInnerText element ("Error: " +:+ msg) w2
                        | Api.Returned js =>
                            if String.eqb (Api.status_url js) "" then Returns w2
                            else
                              match setInnerText element
                                      "Job accepted. Waiting for result..." w2 with
                              | Throws w3 => Throws w3
                              | Returns w3 =>
                                  Returns (stateOf (pollForStatus
                                    (mkJob (Api.status_url js) (Js.toString apiKey)
                                           cacheKey 0) w3))
                              end
                        end
                    end
                end
          end
  end.

(** The bound on the polls still to come: none when no timer is
    pending, else one more than the retries the pending poll has left. *)
Definition pollsLeft (w : World) : nat :=
  match pollingTimeout (section w) with
  | Some j => S (maxRetries - retries j)
  | None => 0
  end.

(** The pending poll's timer fires, and so does every timer that poll
    and its successors set, until a poll sets none.  Nothing else
    happens in between. *)
Equations? awaitPolling (w : World) : completion World by wf (pollsLeft w) lt :=
  awaitPolling w with Logic.inspect (pollingTimeout (section w)) := {
    | exist _ None _ => Returns w
    | exist _ (Some j) _
        with Logic.inspect (pollForStatus j (setPollingTimeout None w)) := {
        | exist _ (Returns w') _ => awaitPolling w'
        | exist _ (Throws w') _ => Throws w' } }.
Proof.
  unfold pollsLeft. rewrite e. clear e awaitPolling.
  revert e0.
  unfold pollForStatus, pollingFailed, setContent, setInnerText,
    saveSectionContent.
  destruct (Nat.leb_spec maxRetries (retries j));
    repeat case_match; intros [= <-]; simpl in *;
    repeat case_match; simplify_eq/=; lia.
Qed.

(** A [pollForStatus] call made while no timer is pending, and all
    the polls that follow from it. *)
Definition pollToEnd (j : Job) (w : World) : completion World :=
  awaitPolling (setPollingTimeout (Some j) w).

(** [handleAiWrite()] and, when it has started a job, the polls that
    follow until none is scheduled. *)
Definition runEnrichment (w : World) : completion World :=
  match handleAiWrite w with
  | Returns w1 => awaitPolling w1
  | Throws w1 => Throws w1
  end.

End Enrichment.

Arguments finalResult : simpl never.
Arguments apiPath : simpl never.

End SectionManager.

(** ** TabManager: the documents of the session *)

Module TabManager.

(** The fields as the constructor first sets them. *)
Definition new : TabState := mkTabs [] ∅ (-1).

(** [this.tabs[index]], [undefined] being [None]. *)
Definition tabAt (index : Z) (w : World) : option Tab :=
  if index <? 0 then None else tabs (tabState w) !! Z.to_nat index.

(** [this.tabs.length]. *)
Definition tabCount (w : World) : Z := Z.of_nat (length (tabs (tabState w))).

(** [this.tabs.splice(index, 1)]: a negative index counts from the end,
    and an index past the end removes nothing. *)
Definition spliceOne (index : Z) (l : list Tab) : list Tab :=
  let start :=
    if index <? 0 then Z.max (Z.of_nat (length l) + index) 0 else index in
  delete (Z.to_nat start) l.

Definition setCurrentTabIndex (index : Z) (w : World) : World :=
  withTabState (fun t => mkTabs (tabs t) (tabHistories t) index) w.

Definition setTabs (l : list Tab) (w : World) : World :=
  withTabState (fun t => mkTabs l (tabHistories t) (currentTabIndex t)) w.

Definition setHistories (f : gmap string HistoryManager.t -> gmap string HistoryManager.t)
    (w : World) : World :=
  withTabState (fun t => mkTabs (tabs t) (f (tabHistories t)) (currentTabIndex t)) w.

(** The sections whose result keys [closeTab] removes. *)
Definition closedSections : list string :=
  ["summary"; "translation"; "grammar"; "rewriting"; "keywords"].

Section Session.

(** [JSON.stringify(this.tabs)]. *)
Variable stringify : list Tab -> string.

Definition saveTabsToStorage (w : World) : World :=
  withStorage
    (fun s =>
       StorageManager.saveToLocalStorage "currentTabIndex"
         (Js.VNum (currentTabIndex (tabState w)))
         (StorageManager.saveToLocalStorage "tabs"
            (Js.VStr (stringify (tabs (tabState w)))) s)) w.

(** [saveCurrentTabContent()].  A missing tab or history is a
    [TypeError]; the write to storage comes before the history is
    looked up. *)
Definition saveCurrentTabContent (w : World) : completion World :=
  if currentTabIndex (tabState w) =? -1 then Returns w
  else
    match tabAt (currentTabIndex (tabState w)) w with
    | None => Throws w
    | Some currentTab =>
        let currentContent := noteText w in
        let w1 :=
          withStorage (StorageManager.saveToLocalStorage (id currentTab)
                         (Js.VStr currentContent)) w in
        match tabHistories (tabState w1) !! id currentTab with
        | None => Throws w1
        | Some h =>
            Returns (setHistories
                       <[id currentTab := HistoryManager.pushState currentContent h]> w1)
        end
    end.

(** The content [switchTab] loads for a document:
    [historyManager.current || getFromLocalStorage(id, '')].  Only
    [saveCurrentTabContent] writes under a document id, and it writes the
    text of the note element, so the value is a string and [Js.toString]
    leaves it as it is. *)
Definition loadedContent (tabId : string) (h : HistoryManager.t) (w : World) : string :=
  Js.toString
    (Js.or (Js.VStr (HistoryManager.current h))
           (StorageManager.getFromLocalStorage tabId (Js.VStr "") (storage w))).

Definition switchTab (index : Z) (w : World) : completion World :=
  if currentTabIndex (tabState w) =? index then Returns w
  else
    match saveCurrentTabContent w with
    | Throws w1 => Throws w1
    | Returns w1 =>
        let w2 := setCurrentTabIndex index w1 in
        match tabAt index w2 with
        | None => Throws w2
        | Some currentTab =>
            match tabHistories (tabState w2) !! id currentTab with
            | None => Throws w2
            | Some historyManager =>
                let newContent := loadedContent (id currentTab) historyManager w2 in
                let w3 := withNoteText newContent w2 in
                let w4 :=
                  setHistories
                    <[id currentTab :=
                        HistoryManager.mk (HistoryManager.past historyManager)
                          (HistoryManager.future historyManager) newContent
                          (HistoryManager.isNavigating historyManager)]> w3 in
                let w5 := SectionManager.setNoteId (id currentTab) w4 in
                Returns (saveTabsToStorage w5)
            end
        end
    end.

(** [createNewTab()], with the value [Date.now()] returns. *)
Definition createNewTab (now : Z) (w : World) : completion World :=
  match (if currentTabIndex (tabState w) =? -1 then Returns w
         else saveCurrentTabContent w) with
  | Throws w1 => Throws w1
  | Returns w1 =>
      let tabId := "note-" +:+ pretty now in
      let tab := mkTab tabId ("Note " +:+ pretty (tabCount w1 + 1)) in
      let w2 := setTabs (tabs (tabState w1) ++ [tab]) w1 in
      let w3 := setHistories <[tabId := HistoryManager.new]> w2 in
      switchTab (tabCount w3 - 1) w3
  end.

(** The cascade of removals in [closeTab]. *)
Definition removeTabKeys (tabId : string) (s : StorageManager.t) : StorageManager.t :=
  foldl (fun s sec => StorageManager.removeFromLocalStorage (tabId +:+ "-" +:+ sec) s)
        (StorageManager.removeFromLocalStorage tabId s)
        closedSections.

Definition closeTab (index : Z) (w : World) : completion World :=
  if tabCount w <=? 1 then Returns w
  else
    let tabToClose := tabAt index w in
    let wasActiveTab := index =? currentTabIndex (tabState w) in
    let w1 := setTabs (spliceOne index (tabs (tabState w))) w in
    match tabToClose with
    | None => Throws w1
    | Some closed =>
        let w2 := setHistories (delete (id closed)) w1 in
        let w3 := withStorage (removeTabKeys (id closed)) w2 in
        let w4 :=
          if wasActiveTab then
            setCurrentTabIndex
              (if tabCount w3 <=? index then tabCount w3 - 1 else index) w3
          else if index <? currentTabIndex (tabState w3) then
            setCurrentTabIndex (currentTabIndex (tabState w3) - 1) w3
          else w3 in
        let w5 := saveTabsToStorage w4 in
        if wasActiveTab then
          switchTab (if tabCount w5 <=? index then tabCount w5 - 1 else index)
                    (setCurrentTabIndex (-1) w5)
        else Returns w5
    end.

(** [undo()] and [redo()] of the tab manager. *)
Definition navigate (step : HistoryManager.t -> HistoryManager.t * option string)
    (w : World) : completion World :=
  if currentTabIndex (tabState w) =? -1 then Returns w
  else
    match tabAt (currentTabIndex (tabState w)) w with
    | None => Throws w
    | Some currentTab =>
        match tabHistories (tabState w) !! id currentTab with
        | None => Throws w
        | Some historyManager =>
            let '(h', state) := step historyManager in
            let w1 := setHistories <[id currentTab := h']> w in
            Returns match state with
                    | Some text => withNoteText text w1
                    | None => w1
                    end
        end
    end.

Definition undo : World -> completion World := navigate HistoryManager.undo.
Definition redo : World -> completion World := navigate HistoryManager.redo.

(** What the constructor needs of the host: [JSON.parse] on the saved
    tab list and [parseInt] on the saved index ([None] when the first
    throws and when the second gives [NaN]). *)
Variable parseTabs : string -> option (list Tab).
Variable parseInt : string -> option Z.

(** The history the constructor gives a restored tab. *)
Definition restoredHistory (w : World) (tab : Tab) : HistoryManager.t :=
  HistoryManager.mk [] []
    (Js.toString (StorageManager.getFromLocalStorage (id tab) (Js.VStr "") (storage w)))
    false.

(** [constructor(...)], from the fields' first values on. *)
Definition constructor (now : Z) (w0 : World) : completion World :=
  let w := withTabState (fun _ => new) w0 in
  let savedTabs := StorageManager.getFromLocalStorage "tabs" Js.VNull (storage w) in
  let savedTabIndex :=
    StorageManager.getFromLocalStorage "currentTabIndex" (Js.VNum (-1)) (storage w) in
  if Js.truthy savedTabs then
    match parseTabs (Js.toString savedTabs) with
    | None => Throws w
    | Some saved =>
        let w1 := setTabs saved w in
        let w2 :=
          foldl (fun acc tab =>
                   setHistories <[id tab := restoredHistory acc tab]> acc)
                w1 saved in
        match parseInt (Js.toString savedTabIndex) with
        | Some index =>
            if (0 <=? index) && (index <? tabCount w2)
            then switchTab index w2 else switchTab 0 w2
        | None => switchTab 0 w2
        end
    end
  else createNewTab now w.

End Session.

End TabManager.

(** ** The session as a whole *)

(** What the browser and the service supply. *)
Record Host := mkHost {
  accepts : gmap string string -> string -> string -> bool;
  srv : Api.server;
  sha256Hex : string -> string;
  stringify : list Tab -> string;
  parseTabs : string -> option (list Tab);
  parseInt : string -> option Z
}.

(** The events the layer reacts to once the page is up. *)
Inductive event :=
| CreateNewTab (now : Z)
| SwitchTab (index : Z)
| CloseTab (index : Z)
| SaveCurrentTabContent
| Undo
| Redo
| EditNote (text : string)
| EditPanel (text : string)
| FlushTimer
| HandleAiWrite
| PollTimer
| SwitchSection (sec : string)
| SelectLanguage (lang : string)
| SaveApiKey (key : string).

Definition run (h : Host) (e : event) (w : World) : completion World :=
  match e with
  | CreateNewTab now => TabManager.createNewTab (stringify h) now w
  | SwitchTab index => TabManager.switchTab (stringify h) index w
  | CloseTab index => TabManager.closeTab (stringify h) index w
  | SaveCurrentTabContent => TabManager.saveCurrentTabContent w
  | Undo => TabManager.undo w
  | Redo => TabManager.redo w
  | EditNote text => Returns (withNoteText text w)
  | EditPanel text =>
      match SectionManager.setInnerText (currentSectionElement (section w)) text w with
      | Returns w1 => Returns (SectionManager.saveSectionContent w1)
      | Throws w1 => Returns w
      end
  | FlushTimer =>
      match StorageManager.flushWrites (accepts h) (storage w) with
      | Returns s => Returns (withStorage (fun _ => s) w)
      | Throws s => Throws (withStorage (fun _ => s) w)
      end
  | HandleAiWrite => SectionManager.handleAiWrite (srv h) (sha256Hex h) w
  | PollTimer =>
      match pollingTimeout (section w) with
      | Some j =>
          SectionManager.pollForStatus (srv h) j (SectionManager.setPollingTimeout None w)
      | None => Returns w
      end
  | SwitchSection sec => Returns (SectionManager.switchSection sec w)
  | SelectLanguage lang =>
      let w1 := SectionManager.setTranslationManager lang w in
      let w2 :=
        withStorage (StorageManager.saveToLocalStorage "translationLanguage"
                       (Js.VStr lang)) w1 in
      Returns (SectionManager.loadSectionContent (Some "translation") w2)
  | SaveApiKey key =>
      Returns (if String.eqb (trim key) "" then w
               else withStorage (StorageManager.saveToLocalStorage "apiKey"
                                   (Js.VStr (trim key))) w)
  end.

(** The states of a session: the tab manager's constructor has returned,
    and any events have followed; an event that throws leaves the state
    it had reached. *)
Inductive reachable (h : Host) : World -> Prop :=
| reach_constructor now w0 w :
    TabManager.constructor (stringify h) (parseTabs h) (parseInt h) now w0 = Returns w ->
    reachable h w
| reach_event e w :
    reachable h w -> reachable h (stateOf (run h e w)).

(** * Auxiliary notions and sample states *)

(** A history with one recorded entry: "ABCDEF" typed into a fresh
    history, then "ABCDEFGHIJKLM". *)
Definition twoPushes : HistoryManager.t :=
  HistoryManager.pushState "ABCDEFGHIJKLM"
    (HistoryManager.pushState "ABCDEF" HistoryManager.new).

(** Fifty-one edits that alternate between a short and a long text: all
    but the first are recorded, which fills [past]. *)
Definition alternatingEdits (n : nat) : list HistoryManager.call :=
  map (fun i => HistoryManager.PushState (if Nat.even i then "x" else "xxxxxxx"))
      (seq 0 n).

(** The history after those edits: 50 entries in [past], current text
    ["x"]. *)
Definition fullHistory : HistoryManager.t :=
  foldl (fun h c => HistoryManager.exec c h) HistoryManager.new (alternatingEdits 51).

(** A history just after an undo (flag set), and the same history once
    the flag is clear. *)
Definition suppressedHistory : HistoryManager.t :=
  HistoryManager.mk ["first draft"] ["a later draft"] "second draft" true.

Definition editedHistory : HistoryManager.t :=
  HistoryManager.mk ["first draft"] ["a later draft"] "second draft" false.

(** A store with a queued empty note, a saved language and a saved but
    empty font size. *)
Definition sampleStorage : StorageManager.t :=
  StorageManager.mk [("note-1", Js.VStr "")] true
    {[ "note-1" := "older text"; "translationLanguage" := "de"; "fontSize" := "" ]}.

(** A browser whose storage takes values of at most eight characters. *)
Definition smallQuota (ls : gmap string string) (key value : string) : bool :=
  (String.length value <=? 8)%nat.

(** Two queued writes that fit that quota, and two of which the second
    does not. *)
Definition shortWrites : StorageManager.t :=
  StorageManager.mk [("fontSize", Js.VStr "14px"); ("currentTabIndex", Js.VNum 0)]
                    true ∅.

Definition longWrite : StorageManager.t :=
  StorageManager.mk [("fontSize", Js.VStr "14px"); ("note-1", Js.VStr "a longer note")]
                    true ∅.

(** A service whose status endpoint never reports a terminal status: every
    status read is answered, with a status other than [completed],
    [success] and [failed]. *)
Definition alwaysPending (srv : Api.server) : Prop :=
  forall log req,
    Api.meth req = Api.GET ->
    exists r a,
      srv log req = Api.Returned r
      /\ (Api.ok r = true \/ Api.httpStatus r = 202)
      /\ Api.data_attributes (Api.payload r) = Api.Returned a
      /\ Api.status a <> "completed"
      /\ Api.status a <> "success"
      /\ Api.status a <> "failed".

(** The request a poll of job [j] sends, the job its next poll carries,
    and the message shown when the retries are used up. *)
Definition statusRead (j : Job) : Api.request :=
  Api.mkRequest Api.GET (Api.endpoint (statusUrl j)) (jobApiKey j) None.

Definition retry (j : Job) : Job :=
  mkJob (statusUrl j) (jobApiKey j) (jobCacheKey j) (retries j + 1).

Definition timedOut : string := "Job timed out. Please try again.".

(** A page with two documents, the second one active, the summary panel
    showing, an API key saved and some text in the note. *)
Definition sampleSection : SectionState :=
  mkSection (Some "summary") (Some "note-2") (Some "summary") (Some "es") ∅ None.

Definition sampleTabs : TabState :=
  mkTabs [mkTab "note-1" "Note 1"; mkTab "note-2" "Note 2"]
         {[ "note-1" := HistoryManager.mk [] [] "first note" false;
            "note-2" := HistoryManager.mk [] [] "" false ]}
         1.

Definition samplePanels : gmap string string :=
  {[ "summary" := ""; "translation" := ""; "grammar" := "";
     "rewriting" := ""; "keywords" := "" ]}.

Definition sampleWorld : World :=
  mkWorld
    (StorageManager.mk [] false
       {[ "apiKey" := "secret"; "note-1" := "first note";
          "note-1-summary" := "a summary"; "note-1-translation-es" := "una nota";
          "note-2" := "second note" ]})
    "  some text to enrich " samplePanels [] sampleSection sampleTabs.

(** A service that accepts every job and never finishes it. *)
Definition stalledService : Api.server :=
  fun log req =>
    Api.Returned
      (Api.mkReply true 200
         (Api.mkJson "" "https://sharpapi.com/api/v1/job/status/7"
            (Api.Returned (Api.mkAttributes "pending" (Api.Threw "no result") "")))).

(** A stand-in for the digest, good enough to tell the sample texts
    apart. *)
Definition sampleDigest (content : string) : string :=
  pretty (Z.of_nat (String.length content)) +:+ "c0ffee0123456789abcdef".

(** A service that takes the job, answers the first status read with
    [pending] and every later one with the finished summary. *)
Definition summaryService : Api.server :=
  fun log req =>
    match Api.meth req with
    | Api.POST =>
        Api.Returned
          (Api.mkReply true 202
             (Api.mkJson "" "https://sharpapi.com/api/v1/job/status/7"
                         (Api.Threw "no data")))
    | Api.GET =>
        Api.Returned
          (Api.mkReply true 200
             (Api.mkJson "" ""
                (Api.Returned
                   (if (length log <? 2)%nat
                    then Api.mkAttributes "pending" (Api.Threw "no result") ""
                    else Api.mkAttributes "success"
                           (Api.Returned
                              (Api.PObject {[ "summary" := "A short summary." ]}))
                           ""))))
    end.

(** The sample page after one enrichment run against that service. *)
Definition afterSummary : World :=
  stateOf (SectionManager.runEnrichment summaryService sampleDigest sampleWorld).

(** The same page with the keywords panel showing. *)
Definition keywordsWorld : World :=
  SectionManager.switchSection "keywords" sampleWorld.

(** A service that finishes every job at once, with an empty list. *)
Definition noKeywordsService : Api.server :=
  fun log req =>
    match Api.meth req with
    | Api.POST =>
        Api.Returned
          (Api.mkReply true 202
             (Api.mkJson "" "https://sharpapi.com/api/v1/job/status/8"
                         (Api.Threw "no data")))
    | Api.GET =>
        Api.Returned
          (Api.mkReply true 200
             (Api.mkJson "" ""
                (Api.Returned
                   (Api.mkAttributes "success" (Api.Returned (Api.PArray [])) ""))))
    end.

(** The keywords page after one enrichment run against that service. *)
Definition afterKeywords : World :=
  stateOf (SectionManager.runEnrichment noKeywordsService sampleDigest keywordsWorld).

(** Whether a key contains a hyphen, as every section key does. *)
Fixpoint hasDash (s : string) : bool :=
  match s with
  | EmptyString => false
  | String c s' => Ascii.eqb c "-" || hasDash s'
  end.

(** A key other than the two under which the session itself is saved. *)
Definition keptBySession (key : string) : Prop :=
  "tabs" <> key /\ "currentTabIndex" <> key.

(** A stand-in for [JSON.stringify]: the ids, separated by commas. *)
Definition sampleStringify (l : list Tab) : string :=
  String.concat "," (map id l).

(** A browser with nothing stored, and the stand-ins above. *)
Definition sampleHost : Host :=
  mkHost smallQuota stalledService sampleDigest sampleStringify
         (fun _ => None) (fun _ => None).

(** The page before the tab manager is constructed. *)
Definition blankPage : World :=
  mkWorld StorageManager.empty "" samplePanels [] SectionManager.new TabManager.new.

(** The session the constructor sets up on first load, and the session
    after a second document was created and the first one closed. *)
Definition firstLoad : World :=
  stateOf (TabManager.constructor sampleStringify (fun _ => None) (fun _ => None)
             1700000000000 blankPage).

Definition backToOne : World :=
  stateOf (run sampleHost (CloseTab 0)
             (stateOf (run sampleHost (CreateNewTab 1700000000001) firstLoad))).

(** The sample page with the first document active and its text in the
    note element. *)
Definition onFirstTab : World :=
  withNoteText "first note" (TabManager.setCurrentTabIndex 0 sampleWorld).

(** ** Notions used for the further properties *)

(** A note that holds white space only: a no-break space (code unit
    160), a tab, a space and another no-break space. *)
Definition blankNote : string :=
  String "160" (String "009" (String " " (String "160" ""))).

(** The texts a history holds, oldest first: [past], then [current], then
    [future]. *)
Definition timeline (h : HistoryManager.t) : list string :=
  HistoryManager.past h ++ HistoryManager.current h :: HistoryManager.future h.

(** [n] calls of [undo()] in a row, and [n] calls of [redo()]. *)
Definition undoTimes (n : nat) (h : HistoryManager.t) : HistoryManager.t :=
  Nat.iter n (fun h => fst (HistoryManager.undo h)) h.

Definition redoTimes (n : nat) (h : HistoryManager.t) : HistoryManager.t :=
  Nat.iter n (fun h => fst (HistoryManager.redo h)) h.

(** The calls that move through the history without editing it. *)
Definition isNavigation (c : HistoryManager.call) : bool :=
  match c with
  | HistoryManager.PushState _ => false
  | _ => true
  end.

(** A burst of [saveToLocalStorage] calls, oldest first. *)
Definition saveAll (ws : list (string * Js.value)) (s : StorageManager.t)
  : StorageManager.t :=
  foldl (fun s kv => StorageManager.saveToLocalStorage (fst kv) (snd kv) s) s ws.

(** The value the latest call of a burst gave for [key], if any did. *)
Definition lastWrite (key : string) (ws : list (string * Js.value)) : option Js.value :=
  StorageManager.mapGet key (rev ws).

(** The calls made on the storage manager, and the flush timer firing; a
    flush that throws leaves the state it had reached. *)
Inductive storageCall :=
| Save (key : string) (value : Js.value)
| Remove (key : string)
| Flush.

Definition storageStep (accepts : gmap string string -> string -> string -> bool)
    (s : StorageManager.t) (c : storageCall) : StorageManager.t :=
  match c with
  | Save key value => StorageManager.saveToLocalStorage key value s
  | Remove key => StorageManager.removeFromLocalStorage key s
  | Flush => stateOf (StorageManager.flushWrites accepts s)
  end.

(** The keys of the pending map, in its order. *)
Definition pendingKeys (s : StorageManager.t) : list string :=
  map fst (StorageManager.pendingWrites s).

(** A service that reports the job as failed, without a message; and a
    network that is down. *)
Definition failingService : Api.server :=
  fun log req =>
    Api.Returned
      (Api.mkReply true 200
         (Api.mkJson "" ""
            (Api.Returned (Api.mkAttributes "failed" (Api.Threw "no result") "")))).

Definition offlineService : Api.server :=
  fun log req => Api.Threw "Failed to fetch".

(** The sample page with an old poll still scheduled. *)
Definition pollScheduled : World :=
  SectionManager.setPollingTimeout
    (Some (mkJob "https://sharpapi.com/api/v1/job/status/3" "secret" "old-key" 5))
    sampleWorld.

(** The sample page with the translation panel showing a translation. *)
Definition translating : World :=
  withPanels <["translation" := "alguna nota"]>
    (SectionManager.switchSection "translation" sampleWorld).

(** A session in good order: the documents have different ids, none of
    them one of the two keys the session is saved under; each has a
    history; and the active index points at one of them. *)
Definition wellFormed (w : World) : Prop :=
  NoDup (map id (tabs (tabState w)))
  /\ (forall tab, tab ∈ tabs (tabState w) ->
        keptBySession (id tab) /\ is_Some (tabHistories (tabState w) !! id tab))
  /\ 0 <= currentTabIndex (tabState w) < TabManager.tabCount w.

(** The calls the page makes on the tab manager, with the arguments the
    page can pass: an index of a rendered tab, and for a new tab a time
    stamp that gives an id not yet in use. *)
Definition validTabEvent (w : World) (e : event) : Prop :=
  match e with
  | CreateNewTab now => ("note-" +:+ pretty now) ∉ map id (tabs (tabState w))
  | SwitchTab index | CloseTab index => 0 <= index < TabManager.tabCount w
  | SaveCurrentTabContent | Undo | Redo | EditNote _ => True
  | _ => False
  end.

(** The document that is active, if the index points at one. *)
Definition activeTab (w : World) : option Tab :=
  TabManager.tabAt (currentTabIndex (tabState w)) w.

(** The state [switchTab] returns once the incoming document and its
    history are found. *)
Definition switched (stringify : list Tab -> string) (index : Z) (tab : Tab) (h : HistoryManager.t) (w1 : World) : World :=
  let w2 := TabManager.setCurrentTabIndex index w1 in
  let newContent := TabManager.loadedContent (id tab) h w2 in
  TabManager.saveTabsToStorage stringify
    (SectionManager.setNoteId (id tab)
       (TabManager.setHistories
          <[id tab := HistoryManager.mk (HistoryManager.past h) (HistoryManager.future h)
                        newContent (HistoryManager.isNavigating h)]>
          (withNoteText newContent w2))).

(** The state [closeTab] has reached when it has removed the document at
    [index], its history and its storage keys. *)
Definition afterRemoval (index : Z) (closed : Tab) (w : World) : World :=
  withStorage (TabManager.removeTabKeys (id closed))
    (TabManager.setHistories (delete (id closed))
       (TabManager.setTabs (delete (Z.to_nat index) (tabs (tabState w))) w)).

(** The index [closeTab] makes active after closing a tab that was not
    active, and the one it switches to after closing the active tab. *)
Definition indexAfterClosing (index : Z) (w : World) : Z :=
  if index <? currentTabIndex (tabState w)
  then currentTabIndex (tabState w) - 1
  else currentTabIndex (tabState w).

Definition successorIndex (index : Z) (w : World) : Z :=
  if TabManager.tabCount w - 1 <=? index then TabManager.tabCount w - 2 else index.

(** The sample page with the first document active and a longer text
    typed into the note element than the history holds. *)
Definition draftWorld : World :=
  withNoteText "first note, with more words" onFirstTab.

(** The index the constructor activates when it restores a saved session
    of [count] documents: the saved one when [parseInt] reads it as an
    index into the list, the first document otherwise. *)
Definition restoredIndex (parseInt : string -> option Z) (count : Z)
    (s : StorageManager.t) : Z :=
  match parseInt (Js.toString
                    (StorageManager.getFromLocalStorage "currentTabIndex"
                       (Js.VNum (-1)) s)) with
  | Some index => if (0 <=? index) && (index <? count) then index else 0
  | None => 0
  end.

(** The text stored for a document, as the note element shows it. *)
Definition storedText (tabId : string) (s : StorageManager.t) : string :=
  Js.toString (StorageManager.getFromLocalStorage tabId (Js.VStr "") s).

(** Stand-ins for [JSON.parse] and [parseInt] that read what
    [sampleStringify] writes for the two sample documents, and a browser
    that takes every write. *)
Definition sampleParseTabs (js : string) : option (list Tab) :=
  if String.eqb js "note-1,note-2"
  then Some [mkTab "note-1" "Note 1"; mkTab "note-2" "Note 2"]
  else None.

Definition sampleParseInt (s : string) : option Z :=
  if String.eqb s "0" then Some 0
  else if String.eqb s "1" then Some 1
  else None.

Definition roomyHost : Host :=
  mkHost (fun _ _ _ => true) stalledService sampleDigest sampleStringify
         sampleParseTabs sampleParseInt.

(** The sample page reloaded after its session was saved and the writes
    were flushed: the pending map is gone with the page, [localStorage]
    is what the flush left. *)
Definition reloadedPage : World :=
  mkWorld
    (StorageManager.mk [] false
       (StorageManager.localStorage
          (stateOf (StorageManager.flushWrites (accepts roomyHost)
                      (storage (TabManager.saveTabsToStorage sampleStringify
                                  sampleWorld))))))
    "" samplePanels [] SectionManager.new TabManager.new.

(** The events that talk to the enrichment service. *)
Definition isEnrichment (e : event) : bool :=
  match e with
  | HandleAiWrite | PollTimer => true
  | _ => false
  end.

(** What the enrichment keeps between events: the requests sent, the
    result cache and the scheduled poll. *)
Definition enrichmentState (w : World)
  : list Api.request * gmap string string * option Job :=
  (requests w, apiCache (section w), pollingTimeout (section w)).

(** A service that reports every job as completed, with a summary; and a
    browser that talks to it. *)
Definition finishedService : Api.server :=
  fun log req =>
    Api.Returned
      (Api.mkReply true 200
         (Api.mkJson "" ""
            (Api.Returned
               (Api.mkAttributes "completed"
                  (Api.Returned (Api.PObject {[ "summary" := "A short summary." ]}))
                  "")))).

Definition finishedHost : Host :=
  mkHost (fun _ _ _ => true) finishedService sampleDigest sampleStringify
         sampleParseTabs sampleParseInt.

(** The store holds the session as it is: the document list and the
    active index read back as [saveTabsToStorage] wrote them. *)
Definition sessionSaved (stringify : list Tab -> string) (w : World) : Prop :=
  StorageManager.getFromLocalStorage "tabs" Js.VNull (storage w)
  = Js.VStr (stringify (tabs (tabState w)))
  /\ StorageManager.getFromLocalStorage "currentTabIndex" (Js.VNum (-1)) (storage w)
     = Js.VNum (currentTabIndex (tabState w)).

(** * Properties *)

(** ** HistoryManager *)

Section HistoryFacts.

Import HistoryManager.

Lemma eqb_false_iff (a b : string) : String.eqb a b = false <-> a <> b.
Proof.
  destruct (String.eqb_spec a b); split; congruence.
Qed.

(** The guard of the recording branch, read as a proposition. *)
Lemma records_spec h s :
  records h s = true <->
  current h <> "" /\ current h <> s /\ 5 < lengthDelta (current h) s.
Proof.
  unfold records.
  rewrite !andb_true_iff, !negb_true_iff, !eqb_false_iff, Z.ltb_lt.
  tauto.
Qed.

Lemma pushBounded_length p x :
  (length p <= maxHistorySize)%nat ->
  (length (pushBounded p x) <= maxHistorySize)%nat.
Proof.
  intros Hp. unfold pushBounded.
  destruct (Nat.ltb_spec maxHistorySize (length (p ++ [x]))) as [Hlt|Hge].
  - destruct p; simpl in *; [lia|]. rewrite length_app in *. simpl in *. lia.
  - exact Hge.
Qed.

Lemma pushBounded_below p x :
  (length p < maxHistorySize)%nat -> pushBounded p x = p ++ [x].
Proof.
  intros Hp. unfold pushBounded.
  destruct (Nat.ltb_spec maxHistorySize (length (p ++ [x]))) as [Hlt|Hge];
    [|reflexivity].
  rewrite length_app in Hlt. simpl in Hlt. lia.
Qed.

Lemma pushBounded_full p x :
  (maxHistorySize <= length p)%nat -> pushBounded p x = tail p ++ [x].
Proof.
  intros Hp. unfold pushBounded.
  destruct (Nat.ltb_spec maxHistorySize (length (p ++ [x]))) as [Hlt|Hge].
  - destruct p; [simpl in Hp; unfold maxHistorySize in Hp; lia | reflexivity].
  - rewrite length_app in Hge. simpl in Hge. lia.
Qed.

Lemma pushBounded_last p x : last (pushBounded p x) = Some x.
Proof.
  destruct (Nat.lt_ge_cases (length p) maxHistorySize) as [Hlt|Hge].
  - rewrite pushBounded_below by exact Hlt. apply last_snoc.
  - rewrite pushBounded_full by exact Hge. apply last_snoc.
Qed.

(** [undo] takes the top of [past] and [redo] puts it back. *)
Lemma undo_redo h :
  past h <> [] ->
  redo (fst (undo h))
  = (mk (past h) (future h) (current h) true, Some (current h)).
Proof.
  intros Hne. unfold undo.
  destruct (past h) as [|x p] eqn:Hp using rev_ind; [congruence|].
  rewrite last_snoc, removelast_last. reflexivity.
Qed.

(** Entries only move between the two stacks, and a push that records
    has emptied [future]: together they never hold more than the bound. *)
Lemma stacks_bounded h :
  reachable h -> (length (past h) + length (future h) <= maxHistorySize)%nat.
Proof.
  induction 1 as [|c h Hr IH].
  - simpl. unfold maxHistorySize. lia.
  - destruct c as [s| |]; simpl.
    + unfold pushState. destruct (isNavigating h); simpl; [exact IH|].
      destruct (records h s); simpl.
      * pose proof (pushBounded_length (past h) (current h)). lia.
      * lia.
    + unfold undo.
      destruct (last (past h)) as [top|] eqn:Hlast; [|exact IH].
      simpl. apply last_Some in Hlast as [p Hp]. rewrite Hp in *.
      rewrite removelast_last. rewrite length_app in IH. simpl in IH. lia.
    + unfold redo. destruct (future h) as [|x f] eqn:Hf; simpl.
      * rewrite Hf. exact IH.
      * simpl in IH. rewrite length_app. simpl. lia.
Qed.

Lemma reachable_calls (cs : list call) :
  reachable (foldl (fun h c => exec c h) new cs).
Proof.
  induction cs as [|c cs IH] using rev_ind.
  - constructor.
  - rewrite foldl_app. simpl. constructor. exact IH.
Qed.

End HistoryFacts.

(** C1.  In a history built by [pushState] calls alone, each new text
    differing in length from the current one by more than 5, with [past]
    non-empty: [undo()] followed at once by [redo()] leaves [current] as it
    was before the undo (and [past] and [future] with it), and [redo]
    returns that text. *)
Theorem undo_then_redo_restores_current (h : HistoryManager.t) :
  HistoryManager.pushed h ->
  HistoryManager.past h <> [] ->
  let h1 := fst (HistoryManager.undo h) in
  let h2 := fst (HistoryManager.redo h1) in
  HistoryManager.current h2 = HistoryManager.current h
  /\ HistoryManager.past h2 = HistoryManager.past h
  /\ HistoryManager.future h2 = HistoryManager.future h
  /\ snd (HistoryManager.redo h1) = Some (HistoryManager.current h).
Proof.
  intros _ Hne. simpl. rewrite (undo_redo h Hne). simpl. auto.
Qed.

Lemma undo_then_redo_restores_current_witness :
  HistoryManager.current
    (fst (HistoryManager.redo (fst (HistoryManager.undo twoPushes))))
  = "ABCDEFGHIJKLM".
Proof.
  assert (Hp : HistoryManager.pushed twoPushes).
  { unfold twoPushes.
    apply HistoryManager.pushed_push; [apply HistoryManager.pushed_push|].
    - apply HistoryManager.pushed_new.
    - vm_compute. reflexivity.
    - vm_compute. reflexivity. }
  assert (Hne : HistoryManager.past twoPushes <> []).
  { vm_compute. discriminate. }
  exact (proj1 (undo_then_redo_restores_current twoPushes Hp Hne)).
Defined.

(** C2.  In every history reached from a fresh one by [pushState],
    [undo] and [redo] calls, [past] holds at most 50 entries, and still
    does after a further [pushState]; a [pushState] that records while
    [past] already holds 50 drops the oldest entry and puts the old
    [current] on top. *)
Theorem past_never_exceeds_bound (h : HistoryManager.t) (s : string) :
  HistoryManager.reachable h ->
  (length (HistoryManager.past h) <= 50)%nat
  /\ (length (HistoryManager.past (HistoryManager.pushState s h)) <= 50)%nat
  /\ (length (HistoryManager.past h) = 50%nat ->
      HistoryManager.isNavigating h = false ->
      HistoryManager.current h <> "" ->
      HistoryManager.current h <> s ->
      5 < HistoryManager.lengthDelta (HistoryManager.current h) s ->
      HistoryManager.past (HistoryManager.pushState s h)
      = tail (HistoryManager.past h) ++ [HistoryManager.current h]).
Proof.
  intros Hr.
  pose proof (stacks_bounded h Hr) as Hb.
  pose proof (stacks_bounded _ (HistoryManager.reach_call (HistoryManager.PushState s) h Hr))
    as Hb'.
  unfold HistoryManager.maxHistorySize in *. simpl in Hb'.
  split; [lia|]. split; [lia|].
  intros Hfull Hnav Hne Hdiff Hdelta.
  unfold HistoryManager.pushState. rewrite Hnav. simpl.
  rewrite (proj2 (records_spec h s)) by auto.
  apply pushBounded_full. unfold HistoryManager.maxHistorySize. lia.
Qed.

Lemma past_never_exceeds_bound_witness :
  length (HistoryManager.past fullHistory) = 50%nat
  /\ (length (HistoryManager.past (HistoryManager.pushState "xxxxxxx" fullHistory)) <= 50)%nat
  /\ HistoryManager.past (HistoryManager.pushState "xxxxxxx" fullHistory)
     = tail (HistoryManager.past fullHistory) ++ ["x"].
Proof.
  pose proof (past_never_exceeds_bound fullHistory "xxxxxxx"
                (reachable_calls (alternatingEdits 51))) as [_ [Hle Hevict]].
  split; [vm_compute; reflexivity|]. split; [exact Hle|].
  apply Hevict.
  - vm_compute. reflexivity.
  - vm_compute. reflexivity.
  - vm_compute. discriminate.
  - vm_compute. discriminate.
  - vm_compute. reflexivity.
Defined.

(** C3.  [pushState(newText)] on any history.  With the suppression flag
    set it clears the flag and leaves [past], [future] and [current] as
    they are.  Otherwise it sets [current] to [newText], empties [future]
    and leaves the flag clear; and it puts the old [current] on top of
    [past] exactly when the old [current] is non-empty, differs from
    [newText] and differs from it in length by more than 5 (below the
    bound of 50 nothing else changes in [past]; at the bound the oldest
    entry goes).  When one of the three conditions fails, [past] is
    unchanged. *)
Theorem pushState_spec (h : HistoryManager.t) (newText : string) :
  (HistoryManager.isNavigating h = true ->
   HistoryManager.pushState newText h
   = HistoryManager.mk (HistoryManager.past h) (HistoryManager.future h)
                       (HistoryManager.current h) false)
  /\ (HistoryManager.isNavigating h = false ->
      let h' := HistoryManager.pushState newText h in
      let qualifies :=
        HistoryManager.current h <> ""
        /\ HistoryManager.current h <> newText
        /\ 5 < Z.abs (Z.of_nat (String.length (HistoryManager.current h))
                      - Z.of_nat (String.length newText)) in
      HistoryManager.current h' = newText
      /\ HistoryManager.future h' = []
      /\ HistoryManager.isNavigating h' = false
      /\ (qualifies ->
          last (HistoryManager.past h') = Some (HistoryManager.current h)
          /\ ((length (HistoryManager.past h) < 50)%nat ->
              HistoryManager.past h'
              = HistoryManager.past h ++ [HistoryManager.current h])
          /\ ((50 <= length (HistoryManager.past h))%nat ->
              HistoryManager.past h'
              = tail (HistoryManager.past h) ++ [HistoryManager.current h]))
      /\ (~ qualifies -> HistoryManager.past h' = HistoryManager.past h)).
Proof.
  split; intros Hnav; unfold HistoryManager.pushState; rewrite Hnav;
    [reflexivity|].
  simpl. repeat split.
  - rewrite (proj2 (records_spec h newText)) by assumption.
    apply pushBounded_last.
  - intros Hlt. rewrite (proj2 (records_spec h newText)) by assumption.
    apply pushBounded_below. exact Hlt.
  - intros Hge. rewrite (proj2 (records_spec h newText)) by assumption.
    apply pushBounded_full. exact Hge.
  - intros Hnot. destruct (HistoryManager.records h newText) eqn:Hrec;
      [|reflexivity].
    apply records_spec in Hrec. contradiction.
Qed.

Lemma pushState_spec_witness :
  HistoryManager.pushState "typed" suppressedHistory = editedHistory
  /\ HistoryManager.pushState "second draft, with much more text" editedHistory
     = HistoryManager.mk ["first draft"; "second draft"] []
         "second draft, with much more text" false.
Proof.
  split.
  - exact (proj1 (pushState_spec suppressedHistory "typed") eq_refl).
  - pose proof (proj2 (pushState_spec editedHistory
                         "second draft, with much more text") eq_refl)
      as [Hcur [Hfut [Hnav [Hrec _]]]].
    assert (Hq : HistoryManager.current editedHistory <> ""
                 /\ HistoryManager.current editedHistory
                    <> "second draft, with much more text"
                 /\ 5 < Z.abs (Z.of_nat (String.length
                                  (HistoryManager.current editedHistory))
                               - Z.of_nat (String.length
                                  "second draft, with much more text"))).
    { vm_compute. repeat split; discriminate || reflexivity. }
    destruct (Hrec Hq) as [_ [Hbelow _]].
    assert (Hlt : (length (HistoryManager.past editedHistory) < 50)%nat).
    { vm_compute. lia. }
    specialize (Hbelow Hlt).
    destruct (HistoryManager.pushState "second draft, with much more text"
                editedHistory) as [p f c n].
    simpl in *. subst. reflexivity.
Defined.

(** ** StorageManager *)

(** C8, as far as it holds.  [getFromLocalStorage(key, default)] returns
    the pending value whenever the pending map holds [key], an empty
    string included; otherwise the durable value when there is one and it
    is not the empty string; otherwise, with no durable value or an empty
    one, [default]. *)
Theorem read_prefers_pending_then_durable
    (s : StorageManager.t) (key : string) (defaultValue : Js.value) :
  (forall v, StorageManager.mapGet key (StorageManager.pendingWrites s) = Some v ->
             StorageManager.getFromLocalStorage key defaultValue s = v)
  /\ (StorageManager.mapGet key (StorageManager.pendingWrites s) = None ->
      forall x, StorageManager.localStorage s !! key = Some x -> x <> "" ->
                StorageManager.getFromLocalStorage key defaultValue s = Js.VStr x)
  /\ (StorageManager.mapGet key (StorageManager.pendingWrites s) = None ->
      StorageManager.localStorage s !! key = None
      \/ StorageManager.localStorage s !! key = Some "" ->
      StorageManager.getFromLocalStorage key defaultValue s = defaultValue).
Proof.
  unfold StorageManager.getFromLocalStorage, StorageManager.mapHas.
  split; [|split].
  - intros v ->. reflexivity.
  - intros -> x -> Hx. unfold Js.or. simpl.
    apply eqb_false_iff in Hx. rewrite Hx. reflexivity.
  - intros -> [-> | ->]; reflexivity.
Qed.

Lemma read_prefers_pending_then_durable_witness :
  StorageManager.getFromLocalStorage "note-1" (Js.VStr "none") sampleStorage = Js.VStr ""
  /\ StorageManager.getFromLocalStorage "translationLanguage" (Js.VStr "en") sampleStorage
     = Js.VStr "de"
  /\ StorageManager.getFromLocalStorage "tabs" Js.VNull sampleStorage = Js.VNull.
Proof.
  split; [|split].
  - apply (proj1 (read_prefers_pending_then_durable sampleStorage "note-1" (Js.VStr "none"))).
    reflexivity.
  - apply (proj1 (proj2 (read_prefers_pending_then_durable sampleStorage
                           "translationLanguage" (Js.VStr "en")))).
    + reflexivity.
    + vm_compute. reflexivity.
    + discriminate.
  - apply (proj2 (proj2 (read_prefers_pending_then_durable sampleStorage
                           "tabs" Js.VNull))).
    + reflexivity.
    + left. vm_compute. reflexivity.
Defined.

(** C8 as stated fails: with nothing pending under ["fontSize"] and the
    empty string stored durably under it, a read with default ["16px"]
    returns the default, not the durable value. *)
Lemma read_empty_durable_value_counterexample :
  StorageManager.mapGet "fontSize" (StorageManager.pendingWrites sampleStorage) = None
  /\ StorageManager.localStorage sampleStorage !! "fontSize" = Some ""
  /\ StorageManager.getFromLocalStorage "fontSize" (Js.VStr "16px") sampleStorage
     = Js.VStr "16px"
  /\ StorageManager.getFromLocalStorage "fontSize" (Js.VStr "16px") sampleStorage
     <> Js.VStr "".
Proof.
  repeat split; try (vm_compute; reflexivity).
  vm_compute. discriminate.
Qed.

(** C9, as far as it holds.  When every [setItem] of the flush is
    accepted, [flushWrites] returns with the pending map empty and the
    timer handle reset; a browser that accepts every write always gets
    there.  When a [setItem] throws, [flushWrites] throws with it, and the
    pending map and the timer handle are as they were before the flush. *)
Theorem flush_clears_pending_on_success
    (accepts : gmap string string -> string -> string -> bool)
    (s : StorageManager.t) :
  let c := StorageManager.flushWrites accepts s in
  (returned c = true ->
   StorageManager.pendingWrites (stateOf c) = []
   /\ StorageManager.writeTimeout (stateOf c) = false)
  /\ (returned c = false ->
      StorageManager.pendingWrites (stateOf c) = StorageManager.pendingWrites s
      /\ StorageManager.pendingWrites s <> []
      /\ StorageManager.writeTimeout (stateOf c) = StorageManager.writeTimeout s)
  /\ ((forall ls k v, accepts ls k v = true) -> returned c = true).
Proof.
  unfold StorageManager.flushWrites. simpl.
  destruct (StorageManager.setItems accepts (StorageManager.localStorage s)
              (StorageManager.pendingWrites s)) as [ls|ls] eqn:Hset; simpl.
  - split; [auto|]. split; [discriminate|]. reflexivity.
  - split; [discriminate|]. split.
    + intros _. repeat split.
      destruct (StorageManager.pendingWrites s); [discriminate Hset|discriminate].
    + intros Hall. exfalso. revert Hset.
      generalize (StorageManager.localStorage s).
      induction (StorageManager.pendingWrites s) as [|[k v] ws IH]; intros ls0; simpl.
      * discriminate.
      * rewrite Hall. apply IH.
Qed.

Lemma flush_clears_pending_on_success_witness :
  StorageManager.pendingWrites (stateOf (StorageManager.flushWrites smallQuota shortWrites))
  = []
  /\ StorageManager.pendingWrites (stateOf (StorageManager.flushWrites smallQuota longWrite))
     = StorageManager.pendingWrites longWrite.
Proof.
  split.
  - apply (proj1 (flush_clears_pending_on_success smallQuota shortWrites)).
    vm_compute. reflexivity.
  - apply (proj1 (proj2 (flush_clears_pending_on_success smallQuota longWrite))).
    vm_compute. reflexivity.
Defined.

(** C9 as stated fails: when the browser refuses the second write of a
    flush, [flushWrites] throws and both queued writes are still pending,
    though the first has reached [localStorage]. *)
Lemma flush_failure_keeps_pending_counterexample :
  returned (StorageManager.flushWrites smallQuota longWrite) = false
  /\ StorageManager.pendingWrites
       (stateOf (StorageManager.flushWrites smallQuota longWrite))
     = [("fontSize", Js.VStr "14px"); ("note-1", Js.VStr "a longer note")]
  /\ StorageManager.localStorage
       (stateOf (StorageManager.flushWrites smallQuota longWrite)) !! "fontSize"
     = Some "14px"
  /\ StorageManager.pendingWrites
       (stateOf (StorageManager.flushWrites smallQuota longWrite)) <> [].
Proof.
  repeat split; try (vm_compute; reflexivity).
  vm_compute. discriminate.
Qed.

(** ** SectionManager: polling *)

Section PollingFacts.

Import SectionManager.

Variable srv : Api.server.

Lemma awaitPolling_unfold w :
  awaitPolling srv w =
  match pollingTimeout (section w) with
  | None => Returns w
  | Some j =>
      match pollForStatus srv j (setPollingTimeout None w) with
      | Returns w' => awaitPolling srv w'
      | Throws w' => Throws w'
      end
  end.
Proof.
  funelim (awaitPolling srv w);
    repeat match goal with
           | E : pollingTimeout _ = _ |- _ => rewrite E
           | E : pollForStatus _ _ _ = _ |- _ => rewrite E
           end; reflexivity.
Qed.

(** Below the retry bound a non-terminal answer costs one status read
    and schedules the next poll. *)
Lemma poll_pending j w :
  alwaysPending srv ->
  (retries j < maxRetries)%nat ->
  pollForStatus srv j w
  = Returns (setPollingTimeout (Some (retry j))
               (withRequests (requests w ++ [statusRead j]) w)).
Proof.
  intros Hsrv Hlt. unfold pollForStatus.
  destruct (Nat.leb_spec maxRetries (retries j)) as [Hle|_]; [lia|].
  unfold Api.callSharpApi.
  destruct (Hsrv (requests w) (statusRead j) eq_refl)
    as (r & a & Hr & Hok & Ha & Hc & Hs & Hf).
  fold (statusRead j). rewrite Hr.
  assert (negb (Api.ok r) && negb (Api.httpStatus r =? 202) = false) as ->.
  { destruct Hok as [-> | ->]; [reflexivity|].
    rewrite Z.eqb_refl. apply andb_false_r. }
  rewrite Ha.
  apply eqb_false_iff in Hc, Hs, Hf. rewrite Hc, Hs, Hf. reflexivity.
Qed.

(** At the bound no status read is made and the panel reports the
    timeout. *)
Lemma poll_exhausted j w e :
  (maxRetries <= retries j)%nat ->
  currentSectionElement (section w) = Some e ->
  pollForStatus srv j w = Returns (withPanels <[e := timedOut]> w).
Proof.
  intros Hle He. unfold pollForStatus.
  destruct (Nat.leb_spec maxRetries (retries j)) as [_|Hlt]; [|lia].
  rewrite He. reflexivity.
Qed.

Lemma polls_until_bound n : forall j w e,
  alwaysPending srv ->
  (retries j + n = maxRetries)%nat ->
  currentSectionElement (section w) = Some e ->
  pollToEnd srv j w
  = Returns (withPanels <[e := timedOut]>
               (withRequests (requests w ++ replicate n (statusRead j))
                  (setPollingTimeout None w))).
Proof.
  induction n as [|n IH]; intros j w e Hsrv Hn He; unfold pollToEnd.
  - rewrite awaitPolling_unfold. simpl.
    rewrite (poll_exhausted j _ e) by (simpl; auto; lia).
    rewrite awaitPolling_unfold. simpl.
    rewrite app_nil_r. destruct w. reflexivity.
  - rewrite awaitPolling_unfold. simpl.
    rewrite poll_pending by (auto; lia).
    specialize (IH (retry j)
                   (withRequests (requests w ++ [statusRead j]) w) e Hsrv).
    unfold pollToEnd in IH. simpl in IH.
    etransitivity; [|etransitivity; [apply IH|]].
    + reflexivity.
    + lia.
    + exact He.
    + unfold retry, statusRead. simpl. rewrite <- app_assoc. reflexivity.
Qed.

End PollingFacts.

(** C6.  Against a status endpoint that answers every read with a
    non-terminal status, the polling started by [pollForStatus] at retry
    count 0 returns after exactly 10 status reads with the timeout
    message in the panel and no poll left scheduled: at each retry count
    below 10 one read is made and the next poll is scheduled with the
    count plus one, and at count 10 the timeout is reported without a
    read. *)
Theorem polling_stops_after_ten_reads
    (srv : Api.server) (statusUrl apiKey cacheKey element : string) (w : World) :
  alwaysPending srv ->
  currentSectionElement (section w) = Some element ->
  let job := mkJob statusUrl apiKey cacheKey in
  let read := Api.mkRequest Api.GET (Api.endpoint statusUrl) apiKey None in
  let c := SectionManager.pollToEnd srv (job 0%nat) w in
  returned c = true
  /\ requests (stateOf c) = requests w ++ replicate 10 read
  /\ panels (stateOf c) !! element = Some "Job timed out. Please try again."
  /\ pollingTimeout (section (stateOf c)) = None
  /\ (forall (n : nat) w', (n < 10)%nat ->
        SectionManager.pollForStatus srv (job n) w'
        = Returns (SectionManager.setPollingTimeout (Some (job (n + 1)%nat))
                     (withRequests (requests w' ++ [read]) w')))
  /\ (forall w', currentSectionElement (section w') = Some element ->
        SectionManager.pollForStatus srv (job 10%nat) w'
        = Returns (withPanels <[element := "Job timed out. Please try again."]> w')).
Proof.
  intros Hsrv He. simpl.
  rewrite (polls_until_bound srv 10 (mkJob statusUrl apiKey cacheKey 0) w element Hsrv eq_refl He).
  simpl.
  repeat split.
  - apply lookup_insert_eq.
  - intros n w' Hn. apply (poll_pending srv (mkJob statusUrl apiKey cacheKey n) w' Hsrv).
    simpl. unfold SectionManager.maxRetries. lia.
  - intros w' He'. apply poll_exhausted; [simpl; reflexivity|exact He'].
Qed.

Lemma polling_stops_after_ten_reads_witness :
  let c := SectionManager.pollToEnd stalledService
             (mkJob "https://sharpapi.com/api/v1/job/status/7" "secret" "key" 0)
             sampleWorld in
  length (requests (stateOf c)) = 10%nat
  /\ panels (stateOf c) !! "summary" = Some "Job timed out. Please try again.".
Proof.
  assert (Hsrv : alwaysPending stalledService).
  { intros log req _. eexists. eexists.
    repeat split; try reflexivity; try (left; reflexivity); discriminate. }
  pose proof (polling_stops_after_ten_reads stalledService
                "https://sharpapi.com/api/v1/job/status/7" "secret" "key" "summary"
                sampleWorld Hsrv eq_refl) as (_ & Hreq & Hpanel & _).
  simpl in *. split; [|exact Hpanel].
  rewrite Hreq. reflexivity.
Defined.

(** ** SectionManager: the result cache *)

Lemma mapGet_mapSet key v m :
  StorageManager.mapGet key (StorageManager.mapSet key v m) = Some v.
Proof.
  induction m as [|[k w] m IH]; simpl.
  - rewrite String.eqb_refl. reflexivity.
  - destruct (String.eqb k key) eqn:Hk; simpl; rewrite Hk; [reflexivity|exact IH].
Qed.

Lemma mapGet_mapSet_ne key key' v m :
  key <> key' ->
  StorageManager.mapGet key' (StorageManager.mapSet key v m)
  = StorageManager.mapGet key' m.
Proof.
  intros Hne. induction m as [|[k w] m IH]; simpl.
  - apply eqb_false_iff in Hne. rewrite Hne. reflexivity.
  - destruct (String.eqb k key) eqn:Hk; simpl.
    + apply String.eqb_eq in Hk. subst k.
      apply eqb_false_iff in Hne. rewrite Hne. reflexivity.
    + rewrite IH. reflexivity.
Qed.

(** A completed job puts the text it shows into the cache under the key
    the poll carries. *)
Lemma completed_poll_populates_cache srv j w r a reply element :
  (retries j < SectionManager.maxRetries)%nat ->
  srv (requests w)
      (Api.mkRequest Api.GET (Api.endpoint (statusUrl j)) (jobApiKey j) None)
  = Api.Returned reply ->
  Api.ok reply = true ->
  Api.data_attributes (Api.payload reply) = Api.Returned a ->
  Api.status a = "completed" \/ Api.status a = "success" ->
  Api.result a = Api.Returned r ->
  currentSectionElement (section w) = Some element ->
  exists w',
    SectionManager.pollForStatus srv j w = Returns w'
    /\ apiCache (section w') !! jobCacheKey j = Some (SectionManager.finalResult r w)
    /\ panels w' !! element = Some (SectionManager.finalResult r w)
    /\ pollingTimeout (section w') = pollingTimeout (section w).
Proof.
  intros Hlt Hsrv Hok Ha Hst Hr He.
  unfold SectionManager.pollForStatus.
  destruct (Nat.leb_spec SectionManager.maxRetries (retries j)) as [Hle|_]; [lia|].
  unfold Api.callSharpApi. rewrite Hsrv, Hok. simpl. rewrite Ha.
  assert (String.eqb (Api.status a) "completed" || String.eqb (Api.status a) "success"
          = true) as ->.
  { destruct Hst as [-> | ->]; reflexivity. }
  rewrite Hr. simpl. rewrite He. simpl.
  eexists. split; [reflexivity|].
  unfold SectionManager.saveSectionContent. simpl. rewrite He.
  destruct (activeSection (section w)) as [sec|]; simpl.
  - destruct (nonEmpty _ && _); simpl;
      (split; [apply lookup_insert_eq|split; [apply lookup_insert_eq|reflexivity]]).
  - split; [apply lookup_insert_eq|split; [apply lookup_insert_eq|reflexivity]].
Qed.

(** X30.  A non-empty cached result is served from the cache.  In a
    state where a section is active, an API key is configured, the note
    has text, and the cache holds a non-empty result under the key
    computed from the active section, the document, the language and the
    text: [handleAiWrite] returns without sending a request, shows the
    cached result in the panel and queues it for storage under the
    document's key for that section. *)
Theorem cached_result_needs_no_request
    (srv : Api.server) (sha256Hex : string -> string) (w : World)
    (sec doc element key cached : string) :
  activeSection (section w) = Some sec ->
  sec <> "" ->
  currentNoteId (section w) = Some doc ->
  doc <> "" ->
  currentSectionElement (section w) = Some element ->
  Js.truthy (StorageManager.getFromLocalStorage "apiKey" (Js.VStr "") (storage w)) = true ->
  trim (noteText w) <> "" ->
  SectionManager.generateCacheKey sha256Hex (trim (noteText w)) w = Some key ->
  apiCache (section w) !! key = Some cached ->
  cached <> "" ->
  let c := SectionManager.handleAiWrite srv sha256Hex w in
  returned c = true
  /\ requests (stateOf c) = requests w
  /\ panels (stateOf c) !! element = Some cached
  /\ StorageManager.getFromLocalStorage
       (SectionManager.sectionKey (Some doc) sec w) (Js.VStr "") (storage (stateOf c))
     = Js.VStr cached.
Proof.
  intros Hsec Hsec' Hdoc Hdoc' He Hkey Htext Hck Hcache Hcached.
  unfold SectionManager.handleAiWrite. rewrite Hsec. simpl.
  rewrite Hkey. simpl.
  apply eqb_false_iff in Htext. rewrite Htext.
  assert (SectionManager.generateCacheKey sha256Hex (trim (noteText w))
            (SectionManager.setPollingTimeout None w) = Some key) as ->.
  { exact Hck. }
  rewrite Hcache. simpl.
  apply eqb_false_iff in Hcached. rewrite Hcached. simpl.
  rewrite He. simpl.
  unfold SectionManager.saveSectionContent. simpl. rewrite He, Hsec, Hdoc. simpl.
  apply eqb_false_iff in Hdoc', Hsec'. rewrite Hdoc', Hsec'. simpl.
  repeat split.
  - apply lookup_insert_eq.
  - unfold StorageManager.getFromLocalStorage, StorageManager.mapHas,
      SectionManager.innerText. simpl.
    rewrite lookup_insert_eq. simpl.
    unfold SectionManager.sectionKey. simpl.
    rewrite !mapGet_mapSet. reflexivity.
Qed.

Lemma cached_result_needs_no_request_witness :
  length (requests afterSummary) = 3%nat
  /\ apiCache (section afterSummary) !! "summary-note-2-19c0ffee01234567-"
     = Some "A short summary."
  /\ (let c := SectionManager.handleAiWrite summaryService sampleDigest afterSummary in
      requests (stateOf c) = requests afterSummary
      /\ panels (stateOf c) !! "summary" = Some "A short summary."
      /\ StorageManager.getFromLocalStorage "note-2-summary" (Js.VStr "")
           (storage (stateOf c))
         = Js.VStr "A short summary.").
Proof.
  split; [vm_compute; reflexivity|]. split; [vm_compute; reflexivity|].
  pose proof (cached_result_needs_no_request summaryService sampleDigest afterSummary
                "summary" "note-2" "summary" "summary-note-2-19c0ffee01234567-"
                "A short summary.") as H.
  simpl in H. apply H; clear H.
  - vm_compute. reflexivity.
  - discriminate.
  - vm_compute. reflexivity.
  - discriminate.
  - vm_compute. reflexivity.
  - vm_compute. reflexivity.
  - vm_compute. discriminate.
  - vm_compute. reflexivity.
  - vm_compute. reflexivity.
  - discriminate.
Defined.

(** C7 fails on the code.  On the sample page with the keywords panel
    showing, against a service that completes the job with an empty
    list: the first enrichment run returns after two requests and has put
    the result, the empty string that joining no keywords gives, into the
    cache under the key of the call.  A second [handleAiWrite] on the same
    section, document, language and text computes the same key, finds the
    cached entry falsy, and submits the job again: it sends two more
    requests. *)
Theorem empty_cached_result_is_requested_again :
  returned (SectionManager.runEnrichment noKeywordsService sampleDigest keywordsWorld)
  = true
  /\ length (requests afterKeywords) = 2%nat
  /\ SectionManager.generateCacheKey sampleDigest (trim (noteText afterKeywords))
       afterKeywords
     = Some "keywords-note-2-19c0ffee01234567-"
  /\ SectionManager.generateCacheKey sampleDigest (trim (noteText keywordsWorld))
       keywordsWorld
     = Some "keywords-note-2-19c0ffee01234567-"
  /\ apiCache (section afterKeywords) !! "keywords-note-2-19c0ffee01234567-" = Some ""
  /\ length (requests (stateOf (SectionManager.handleAiWrite noKeywordsService
                                  sampleDigest afterKeywords))) = 4%nat.
Proof.
  repeat split; vm_compute; reflexivity.
Qed.

(** ** TabManager *)

Section SessionFacts.

Import TabManager.

Variable stringify : list Tab -> string.

(** Unfold the section manager's methods and split on every branch. *)
Ltac frame :=
  unfold SectionManager.setNoteId, SectionManager.loadSectionContent,
    SectionManager.saveSectionContent, SectionManager.switchSection,
    SectionManager.setTranslationManager, SectionManager.setContent,
    SectionManager.setInnerText, SectionManager.querySelector in *;
  simpl in *; repeat case_match; simplify_eq/=; try reflexivity.

Lemma setNoteId_frame noteId w :
  tabState (SectionManager.setNoteId noteId w) = tabState w
  /\ noteText (SectionManager.setNoteId noteId w) = noteText w
  /\ storage (SectionManager.setNoteId noteId w) = storage w.
Proof. repeat split; frame. Qed.

Lemma saveCurrent_tabs w :
  tabs (tabState (stateOf (saveCurrentTabContent w))) = tabs (tabState w)
  /\ currentTabIndex (tabState (stateOf (saveCurrentTabContent w)))
     = currentTabIndex (tabState w)
  /\ noteText (stateOf (saveCurrentTabContent w)) = noteText w.
Proof.
  unfold saveCurrentTabContent. repeat split; repeat case_match; reflexivity.
Qed.

Lemma tabAt_tabs index w w' :
  tabs (tabState w') = tabs (tabState w) -> tabAt index w' = tabAt index w.
Proof. unfold tabAt. intros ->. reflexivity. Qed.

Lemma switchTab_tabs index w :
  tabs (tabState (stateOf (switchTab stringify index w))) = tabs (tabState w).
Proof.
  unfold switchTab.
  destruct (currentTabIndex (tabState w) =? index); [reflexivity|].
  pose proof (saveCurrent_tabs w) as [Ht _].
  destruct (saveCurrentTabContent w) as [w1|w1]; simpl in Ht; [|exact Ht].
  repeat case_match; simpl; try exact Ht.
  unfold saveTabsToStorage. simpl.
  rewrite (proj1 (setNoteId_frame _ _)). simpl. exact Ht.
Qed.

(** A [switchTab] to another index returns only when there is a tab at
    that index. *)
Lemma switchTab_returns index w w' :
  currentTabIndex (tabState w) <> index ->
  switchTab stringify index w = Returns w' ->
  is_Some (tabAt index w).
Proof.
  intros Hne. unfold switchTab.
  destruct (Z.eqb_spec (currentTabIndex (tabState w)) index) as [|_]; [contradiction|].
  pose proof (saveCurrent_tabs w) as [Ht _].
  destruct (saveCurrentTabContent w) as [w1|w1]; simpl in Ht; [|discriminate].
  rewrite (tabAt_tabs index w (setCurrentTabIndex index w1)) by (simpl; exact Ht).
  destruct (tabAt index w); [eauto|discriminate].
Qed.

Lemma delete_length_ge {A} (i : nat) (l : list A) :
  (length l - 1 <= length (delete i l))%nat.
Proof.
  revert i. induction l as [|x l IH]; intros [|i]; simpl; try lia.
  specialize (IH i). lia.
Qed.

Lemma createNewTab_nonempty now w :
  tabs (tabState (stateOf (createNewTab stringify now w))) <> []
  \/ (tabs (tabState (stateOf (createNewTab stringify now w))) = tabs (tabState w)
      /\ returned (createNewTab stringify now w) = false).
Proof.
  unfold createNewTab.
  destruct (currentTabIndex (tabState w) =? -1) eqn:Hidx.
  - left. rewrite switchTab_tabs. simpl. intros H. apply app_eq_nil in H as [_ H].
    discriminate.
  - pose proof (saveCurrent_tabs w) as [Ht _].
    destruct (saveCurrentTabContent w) as [w1|w1]; simpl in Ht.
    + left. rewrite switchTab_tabs. simpl. intros H. apply app_eq_nil in H as [_ H].
      discriminate.
    + right. simpl. auto.
Qed.

Lemma closeTab_nonempty index w :
  tabs (tabState w) <> [] ->
  tabs (tabState (stateOf (closeTab stringify index w))) <> [].
Proof.
  intros Hne. unfold closeTab, tabCount.
  destruct (Z.leb_spec (Z.of_nat (length (tabs (tabState w)))) 1) as [Hle|Hgt];
    [exact Hne|].
  assert (Hsp : spliceOne index (tabs (tabState w)) <> []).
  { unfold spliceOne.
    pose proof (delete_length_ge
                  (Z.to_nat (if index <? 0
                             then Z.max (Z.of_nat (length (tabs (tabState w))) + index) 0
                             else index))
                  (tabs (tabState w))) as Hlen.
    intros Hnil. rewrite Hnil in Hlen. simpl in Hlen. lia. }
  destruct (tabAt index w) as [closed|]; [|exact Hsp].
  destruct (index =? currentTabIndex (tabState w)).
  - rewrite switchTab_tabs. simpl. exact Hsp.
  - simpl. destruct (index <? currentTabIndex (tabState w)); simpl; exact Hsp.
Qed.

Lemma navigate_tabs step w :
  tabs (tabState (stateOf (navigate step w))) = tabs (tabState w).
Proof.
  unfold navigate. repeat case_match; reflexivity.
Qed.

Lemma setInnerText_tabState element text w :
  tabState (stateOf (SectionManager.setInnerText element text w)) = tabState w.
Proof. destruct element; reflexivity. Qed.

Lemma saveSectionContent_tabState w :
  tabState (SectionManager.saveSectionContent w) = tabState w.
Proof.
  unfold SectionManager.saveSectionContent. repeat case_match; reflexivity.
Qed.

Lemma pollForStatus_tabState srv j w :
  tabState (stateOf (SectionManager.pollForStatus srv j w)) = tabState w.
Proof.
  unfold SectionManager.pollForStatus, SectionManager.pollingFailed,
    SectionManager.setContent.
  destruct (SectionManager.maxRetries <=? retries j)%nat;
    [apply setInnerText_tabState|].
  destruct (Api.callSharpApi _ _ _ _ _ _) as [log [js|msg]];
    [|rewrite setInnerText_tabState; reflexivity].
  destruct (Api.data_attributes js) as [a|msg];
    [|rewrite setInnerText_tabState; reflexivity].
  destruct (_ || _).
  - destruct (Api.result a) as [r|msg];
      [|rewrite setInnerText_tabState; reflexivity].
    destruct (currentSectionElement _); simpl; [|reflexivity].
    rewrite saveSectionContent_tabState. reflexivity.
  - destruct (String.eqb _ _);
      [rewrite setInnerText_tabState; reflexivity|reflexivity].
Qed.

Lemma handleAiWrite_tabState srv sha w :
  tabState (stateOf (SectionManager.handleAiWrite srv sha w)) = tabState w.
Proof.
  unfold SectionManager.handleAiWrite.
  repeat case_match; simpl; try reflexivity;
    try (rewrite pollForStatus_tabState); frame.
Qed.

End SessionFacts.

(** Every event leaves a non-empty document list non-empty. *)
Lemma run_keeps_tabs (h : Host) (e : event) (w : World) :
  tabs (tabState w) <> [] -> tabs (tabState (stateOf (run h e w))) <> [].
Proof.
  intros Hne. destruct e; simpl.
  - destruct (createNewTab_nonempty (stringify h) now w) as [H|[H _]];
      [exact H|rewrite H; exact Hne].
  - rewrite switchTab_tabs. exact Hne.
  - apply closeTab_nonempty. exact Hne.
  - rewrite (proj1 (saveCurrent_tabs w)). exact Hne.
  - unfold TabManager.undo. rewrite navigate_tabs. exact Hne.
  - unfold TabManager.redo. rewrite navigate_tabs. exact Hne.
  - exact Hne.
  - unfold SectionManager.setInnerText, SectionManager.saveSectionContent.
    repeat case_match; simplify_eq/=; exact Hne.
  - destruct (StorageManager.flushWrites _ _); exact Hne.
  - rewrite handleAiWrite_tabState. exact Hne.
  - destruct (pollingTimeout (section w)); [|exact Hne].
    rewrite pollForStatus_tabState. exact Hne.
  - unfold SectionManager.switchSection, SectionManager.loadSectionContent,
      SectionManager.querySelector.
    simpl. repeat case_match; simplify_eq/=; exact Hne.
  - unfold SectionManager.loadSectionContent, SectionManager.querySelector.
    simpl. repeat case_match; simplify_eq/=; exact Hne.
  - destruct (String.eqb _ _); exact Hne.
Qed.

Lemma restore_frame (saved : list Tab) : forall w,
  let w' :=
    foldl (fun acc tab =>
             TabManager.setHistories
               <[id tab := TabManager.restoredHistory acc tab]> acc) w saved in
  currentTabIndex (tabState w') = currentTabIndex (tabState w)
  /\ tabs (tabState w') = tabs (tabState w).
Proof.
  induction saved as [|t saved IH]; intros w; simpl; [auto|].
  destruct (IH (TabManager.setHistories
                  <[id t := TabManager.restoredHistory w t]> w)) as [-> ->].
  auto.
Qed.

Lemma tabAt_nonempty index w : is_Some (TabManager.tabAt index w) -> tabs (tabState w) <> [].
Proof.
  unfold TabManager.tabAt. intros [t Ht] Hnil. rewrite Hnil in Ht.
  destruct (index <? 0); [discriminate|]. rewrite lookup_nil in Ht. discriminate.
Qed.

(** The constructor returns only with a document in the list. *)
Lemma constructor_tabs (h : Host) now w0 w :
  TabManager.constructor (stringify h) (parseTabs h) (parseInt h) now w0 = Returns w ->
  tabs (tabState w) <> [].
Proof.
  unfold TabManager.constructor.
  set (w1 := withTabState (fun _ => TabManager.new) w0).
  destruct (Js.truthy _).
  - destruct (parseTabs h _) as [saved|]; [|discriminate].
    pose proof (restore_frame saved (TabManager.setTabs saved w1)) as [Hidx Htabs].
    simpl in Hidx, Htabs.
    set (w2 := foldl _ _ saved) in *.
    assert (Hsw : forall index, 0 <= index ->
              TabManager.switchTab (stringify h) index w2 = Returns w ->
              tabs (tabState w) <> []).
    { intros index Hpos Hret.
      pose proof (switchTab_tabs (stringify h) index w2) as Ht.
      rewrite Hret in Ht. simpl in Ht. rewrite Ht.
      apply (tabAt_nonempty index).
      apply (switchTab_returns (stringify h) index w2 w); [lia|exact Hret]. }
    destruct (parseInt h _) as [index|]; [|apply Hsw; lia].
    destruct (Z.leb_spec 0 index); simpl; [|apply Hsw; lia].
    destruct (index <? _); apply Hsw; lia.
  - intros Hret.
    destruct (createNewTab_nonempty (stringify h) now w1) as [H|[_ H]];
      rewrite Hret in H; [exact H|discriminate].
Qed.

(** C5.  In every state of a session the document list is non-empty;
    and [closeTab], called with any index while exactly one document is
    left, returns with the whole state as it was: the document list, the
    active index and the store are unchanged, and the count stays 1. *)
Theorem last_tab_cannot_be_closed (h : Host) (w : World) :
  reachable h w ->
  tabs (tabState w) <> []
  /\ forall index,
       length (tabs (tabState w)) = 1%nat ->
       TabManager.closeTab (stringify h) index w = Returns w
       /\ length (tabs (tabState (stateOf (TabManager.closeTab (stringify h) index w))))
          = 1%nat.
Proof.
  intros Hr. split.
  - induction Hr as [now w0 w Hc|e w Hr IH].
    + exact (constructor_tabs h now w0 w Hc).
    + apply run_keeps_tabs. exact IH.
  - intros index Hone. unfold TabManager.closeTab, TabManager.tabCount.
    rewrite Hone. simpl. auto.
Qed.

Lemma read_after_other_write key key' v d s :
  key <> key' ->
  StorageManager.getFromLocalStorage key' d (StorageManager.saveToLocalStorage key v s)
  = StorageManager.getFromLocalStorage key' d s.
Proof.
  intros Hne. unfold StorageManager.getFromLocalStorage, StorageManager.mapHas. simpl.
  rewrite (mapGet_mapSet_ne key key' v _ Hne). reflexivity.
Qed.

(** C10.  A [switchTab(index)] to an index other than the active one,
    when it returns, has first stored the outgoing document; the content
    it then loads into the note element is the incoming document's history
    [current] when that is a non-empty string, and otherwise the value
    read from the store under the document's id with default [''], so an
    empty [current] gives way to the stored content.  The loaded content
    also becomes the history's [current], and the index becomes active.
    When the outgoing document has another id (or there is none), the
    history and the stored value are those from before the call. *)
Theorem switchTab_loads_history_or_store
    (stringify : list Tab -> string) (index : Z) (w w' : World) :
  currentTabIndex (tabState w) <> index ->
  TabManager.switchTab stringify index w = Returns w' ->
  exists w1 tab h,
    TabManager.saveCurrentTabContent w = Returns w1
    /\ TabManager.tabAt index w = Some tab
    /\ tabHistories (tabState w1) !! id tab = Some h
    /\ noteText w'
       = (if String.eqb (HistoryManager.current h) ""
          then Js.toString (StorageManager.getFromLocalStorage (id tab) (Js.VStr "")
                              (storage w1))
          else HistoryManager.current h)
    /\ HistoryManager.current <$> tabHistories (tabState w') !! id tab
       = Some (noteText w')
    /\ currentTabIndex (tabState w') = index
    /\ (forall out,
          TabManager.tabAt (currentTabIndex (tabState w)) w = Some out ->
          id out <> id tab ->
          tabHistories (tabState w) !! id tab = Some h
          /\ StorageManager.getFromLocalStorage (id tab) (Js.VStr "") (storage w1)
             = StorageManager.getFromLocalStorage (id tab) (Js.VStr "") (storage w))
    /\ (currentTabIndex (tabState w) = -1 -> w1 = w).
Proof.
  intros Hne. unfold TabManager.switchTab.
  destruct (Z.eqb_spec (currentTabIndex (tabState w)) index) as [|_]; [contradiction|].
  pose proof (saveCurrent_tabs w) as [Ht _].
  destruct (TabManager.saveCurrentTabContent w) as [w1|w1] eqn:Hsave;
    simpl in Ht; [|discriminate].
  rewrite (tabAt_tabs index w (TabManager.setCurrentTabIndex index w1)) by exact Ht.
  destruct (TabManager.tabAt index w) as [tab|]; [|discriminate].
  simpl.
  destruct (tabHistories (tabState w1) !! id tab) as [h|] eqn:Hh; [|discriminate].
  intros [= <-].
  exists w1, tab, h.
  split; [reflexivity|]. split; [reflexivity|]. split; [exact Hh|].
  unfold TabManager.saveTabsToStorage. simpl.
  destruct (setNoteId_frame (id tab)
              (TabManager.setHistories
                 <[id tab := HistoryManager.mk (HistoryManager.past h)
                               (HistoryManager.future h)
                               (TabManager.loadedContent (id tab) h
                                  (TabManager.setCurrentTabIndex index w1))
                               (HistoryManager.isNavigating h)]>
                 (withNoteText (TabManager.loadedContent (id tab) h
                                  (TabManager.setCurrentTabIndex index w1))
                    (TabManager.setCurrentTabIndex index w1))))
    as (Hts & Hnote & _).
  rewrite Hts, Hnote. simpl. rewrite lookup_insert_eq. simpl.
  split.
  { unfold TabManager.loadedContent, Js.or. simpl.
    destruct (String.eqb (HistoryManager.current h) ""); reflexivity. }
  split; [reflexivity|]. split; [reflexivity|]. split.
  - intros out Hout Hid. revert Hsave Hh. unfold TabManager.saveCurrentTabContent.
    destruct (currentTabIndex (tabState w) =? -1).
    + intros [= <-] Hh. auto.
    + rewrite Hout. simpl.
      destruct (tabHistories (tabState w) !! id out); [|discriminate].
      intros [= <-]. simpl. rewrite lookup_insert_ne by exact Hid.
      intros Hh. split; [exact Hh|].
      apply read_after_other_write. exact Hid.
  - intros Hidx. revert Hsave. unfold TabManager.saveCurrentTabContent.
    rewrite Hidx. simpl. intros [= <-]. reflexivity.
Qed.

(** *** What [closeTab] removes *)

Lemma mapGet_mapDelete key m :
  StorageManager.mapGet key (StorageManager.mapDelete key m) = None.
Proof.
  unfold StorageManager.mapDelete.
  induction m as [|[k v] m IH]; [reflexivity|].
  rewrite filter_cons. simpl.
  destruct (String.eqb k key) eqn:Hk; simpl; [exact IH|].
  rewrite Hk. exact IH.
Qed.

Lemma mapGet_mapDelete_none key key' m :
  StorageManager.mapGet key m = None ->
  StorageManager.mapGet key (StorageManager.mapDelete key' m) = None.
Proof.
  unfold StorageManager.mapDelete.
  induction m as [|[k v] m IH]; [reflexivity|].
  rewrite filter_cons. simpl.
  destruct (String.eqb k key) eqn:Hk; [discriminate|].
  intros Hm. destruct (String.eqb k key'); simpl; [|rewrite Hk]; apply IH; exact Hm.
Qed.

Lemma absent_removed key s :
  StorageManager.absent key (StorageManager.removeFromLocalStorage key s).
Proof.
  split; simpl; [apply mapGet_mapDelete|apply lookup_delete_eq].
Qed.

Lemma absent_remove_other key key' s :
  StorageManager.absent key s ->
  StorageManager.absent key (StorageManager.removeFromLocalStorage key' s).
Proof.
  intros [Hp Hd]. split; simpl.
  - apply mapGet_mapDelete_none. exact Hp.
  - rewrite lookup_delete. case_decide; [reflexivity|exact Hd].
Qed.

Lemma absent_save_other key key' v s :
  key' <> key ->
  StorageManager.absent key s ->
  StorageManager.absent key (StorageManager.saveToLocalStorage key' v s).
Proof.
  intros Hne [Hp Hd]. split; simpl; [|exact Hd].
  rewrite mapGet_mapSet_ne by exact Hne. exact Hp.
Qed.

(** A key that is absent reads as the default. *)
Lemma absent_reads_default key d s :
  StorageManager.absent key s -> StorageManager.getFromLocalStorage key d s = d.
Proof.
  intros [Hp Hd]. unfold StorageManager.getFromLocalStorage, StorageManager.mapHas.
  rewrite Hp, Hd. reflexivity.
Qed.

Lemma hasDash_sectionKey tabId sec : hasDash (tabId +:+ "-" +:+ sec) = true.
Proof.
  induction tabId as [|c tabId IH]; simpl; [reflexivity|].
  rewrite IH. apply orb_true_r.
Qed.

Lemma sectionKey_not_fixed tabId sec :
  "tabs" <> tabId +:+ "-" +:+ sec /\ "currentTabIndex" <> tabId +:+ "-" +:+ sec.
Proof.
  split; intros Heq; pose proof (hasDash_sectionKey tabId sec) as Hd;
    rewrite <- Heq in Hd; discriminate Hd.
Qed.

Lemma removeTabKeys_absent tabId s :
  StorageManager.absent tabId (TabManager.removeTabKeys tabId s)
  /\ forall sec, sec ∈ TabManager.closedSections ->
       StorageManager.absent (tabId +:+ "-" +:+ sec) (TabManager.removeTabKeys tabId s).
Proof.
  unfold TabManager.removeTabKeys, TabManager.closedSections. simpl. split.
  - do 5 apply absent_remove_other. apply absent_removed.
  - intros sec Hsec.
    repeat (apply elem_of_cons in Hsec as [->|Hsec];
            [repeat (apply absent_removed || apply absent_remove_other)|]).
    inversion Hsec.
Qed.

Section CloseFacts.

Variable stringify : list Tab -> string.

Lemma saveTabs_absent key w :
  keptBySession key ->
  StorageManager.absent key (storage w) ->
  StorageManager.absent key (storage (TabManager.saveTabsToStorage stringify w)).
Proof.
  intros [Ht Hc] Ha. unfold TabManager.saveTabsToStorage. simpl.
  apply absent_save_other; [exact Hc|]. apply absent_save_other; [exact Ht|exact Ha].
Qed.

Lemma switchTab_unselected_absent key index w :
  keptBySession key ->
  currentTabIndex (tabState w) = -1 ->
  StorageManager.absent key (storage w) ->
  StorageManager.absent key (storage (stateOf (TabManager.switchTab stringify index w))).
Proof.
  intros Hk Hidx Ha. unfold TabManager.switchTab, TabManager.saveCurrentTabContent.
  rewrite Hidx.
  destruct (-1 =? index); [exact Ha|].
  rewrite Z.eqb_refl.
  destruct (TabManager.tabAt index _) as [tab|]; [|exact Ha].
  destruct (tabHistories _ !! id tab) as [h|]; [|exact Ha].
  apply saveTabs_absent; [exact Hk|].
  rewrite (proj2 (proj2 (setNoteId_frame _ _))). exact Ha.
Qed.

(** After [closeTab] on a session of two or more documents, the closed
    document's content key and its key for each section name are in
    neither the pending map nor [localStorage]. *)
Lemma closeTab_removes_keys index w closed :
  1 < TabManager.tabCount w ->
  TabManager.tabAt index w = Some closed ->
  keptBySession (id closed) ->
  let s' := storage (stateOf (TabManager.closeTab stringify index w)) in
  StorageManager.absent (id closed) s'
  /\ forall sec, sec ∈ TabManager.closedSections ->
       StorageManager.absent (id closed +:+ "-" +:+ sec) s'.
Proof.
  intros Hcount Hclosed Hkept.
  assert (Hall : forall key,
            keptBySession key ->
            StorageManager.absent key (TabManager.removeTabKeys (id closed) (storage w)) ->
            StorageManager.absent key
              (storage (stateOf (TabManager.closeTab stringify index w)))).
  { intros key Hk Ha. unfold TabManager.closeTab.
    destruct (Z.leb_spec (TabManager.tabCount w) 1) as [|_]; [lia|].
    rewrite Hclosed.
    destruct (index =? currentTabIndex (tabState w)).
    - apply switchTab_unselected_absent; [exact Hk|reflexivity|].
      simpl. apply absent_save_other; [apply Hk|].
      apply absent_save_other; [apply Hk|exact Ha].
    - simpl. destruct (index <? currentTabIndex (tabState w)); simpl;
        (apply absent_save_other; [apply Hk|];
         apply absent_save_other; [apply Hk|exact Ha]). }
  destruct (removeTabKeys_absent (id closed) (storage w)) as [Hid Hsec].
  split.
  - apply Hall; [exact Hkept|exact Hid].
  - intros sec Hin. apply Hall; [apply sectionKey_not_fixed|apply Hsec; exact Hin].
Qed.

End CloseFacts.

Lemma last_tab_cannot_be_closed_witness :
  map id (tabs (tabState backToOne)) = ["note-1700000000001"]
  /\ TabManager.closeTab sampleStringify 0 backToOne = Returns backToOne.
Proof.
  assert (Hr : reachable sampleHost backToOne).
  { unfold backToOne. do 2 apply reach_event.
    apply (reach_constructor sampleHost 1700000000000 blankPage).
    vm_compute. reflexivity. }
  split; [vm_compute; reflexivity|].
  apply (proj2 (last_tab_cannot_be_closed sampleHost backToOne Hr) 0).
  vm_compute. reflexivity.
Defined.

Lemma switchTab_loads_history_or_store_witness :
  noteText (stateOf (TabManager.switchTab sampleStringify 1 onFirstTab)) = "second note"
  /\ noteText (stateOf (TabManager.switchTab sampleStringify 0 sampleWorld)) = "first note".
Proof.
  split.
  - destruct (switchTab_loads_history_or_store sampleStringify 1 onFirstTab
                (stateOf (TabManager.switchTab sampleStringify 1 onFirstTab)))
      as (w1 & tab & h & Hsave & Htab & Hh & Hnote & _).
    + vm_compute. discriminate.
    + vm_compute. reflexivity.
    + rewrite Hnote.
      assert (w1 = stateOf (TabManager.saveCurrentTabContent onFirstTab)) as ->.
      { rewrite Hsave. reflexivity. }
      assert (tab = mkTab "note-2" "Note 2") as ->.
      { vm_compute in Htab. congruence. }
      assert (h = HistoryManager.mk [] [] "" false) as ->.
      { vm_compute in Hh. congruence. }
      vm_compute. reflexivity.
  - destruct (switchTab_loads_history_or_store sampleStringify 0 sampleWorld
                (stateOf (TabManager.switchTab sampleStringify 0 sampleWorld)))
      as (w1 & tab & h & Hsave & Htab & Hh & Hnote & _).
    + vm_compute. discriminate.
    + vm_compute. reflexivity.
    + rewrite Hnote.
      assert (w1 = stateOf (TabManager.saveCurrentTabContent sampleWorld)) as ->.
      { rewrite Hsave. reflexivity. }
      assert (tab = mkTab "note-1" "Note 1") as ->.
      { vm_compute in Htab. congruence. }
      assert (h = HistoryManager.mk [] [] "first note" false) as ->.
      { vm_compute in Hh. congruence. }
      vm_compute. reflexivity.
Defined.

(** C4 fails on the code.  On the sample page (two documents, the second
    active, Spanish selected, a translation of the first document stored
    under [note-1-translation-es]), [closeTab(0)] returns with one
    document left and with the first document's content key and summary
    key gone, but the translation is still in [localStorage] under the key
    [saveSectionContent] and [loadSectionContent] use, and a read of that
    key returns it instead of the default. *)
Theorem closeTab_leaves_translation_result :
  let c := TabManager.closeTab sampleStringify 0 sampleWorld in
  returned c = true
  /\ map id (tabs (tabState (stateOf c))) = ["note-2"]
  /\ StorageManager.getFromLocalStorage "note-1" (Js.VStr "") (storage (stateOf c))
     = Js.VStr ""
  /\ StorageManager.getFromLocalStorage "note-1-summary" (Js.VStr "") (storage (stateOf c))
     = Js.VStr ""
  /\ SectionManager.sectionKey (Some "note-1") "translation" sampleWorld
     = "note-1-translation-es"
  /\ StorageManager.localStorage (storage (stateOf c)) !! "note-1-translation-es"
     = Some "una nota"
  /\ StorageManager.getFromLocalStorage "note-1-translation-es" (Js.VStr "")
       (storage (stateOf c))
     = Js.VStr "una nota".
Proof.
  repeat split; vm_compute; reflexivity.
Qed.

(** * Further properties of the code *)

(** ** HistoryManager: moving through the history *)

Lemma timeline_undo h : timeline (fst (HistoryManager.undo h)) = timeline h.
Proof.
  unfold HistoryManager.undo, timeline.
  destruct (last (HistoryManager.past h)) as [top|] eqn:Hlast; [|reflexivity].
  apply last_Some in Hlast as [p Hp]. rewrite Hp. simpl.
  rewrite removelast_last, <- app_assoc. reflexivity.
Qed.

Lemma timeline_redo h : timeline (fst (HistoryManager.redo h)) = timeline h.
Proof.
  unfold HistoryManager.redo, timeline.
  destruct (HistoryManager.future h) as [|next rest] eqn:Hf; simpl.
  - rewrite Hf. reflexivity.
  - rewrite <- app_assoc. reflexivity.
Qed.

Lemma undo_position h :
  length (HistoryManager.past (fst (HistoryManager.undo h)))
  = (length (HistoryManager.past h) - 1)%nat.
Proof.
  unfold HistoryManager.undo.
  destruct (last (HistoryManager.past h)) as [top|] eqn:Hlast.
  - apply last_Some in Hlast as [p Hp]. rewrite Hp. simpl.
    rewrite removelast_last, length_app. simpl. lia.
  - apply last_None in Hlast. simpl. rewrite Hlast. reflexivity.
Qed.

Lemma redo_position h :
  HistoryManager.future h <> [] ->
  length (HistoryManager.past (fst (HistoryManager.redo h)))
  = S (length (HistoryManager.past h)).
Proof.
  unfold HistoryManager.redo.
  destruct (HistoryManager.future h) as [|next rest]; [congruence|].
  intros _. simpl. rewrite length_app. simpl. lia.
Qed.

(** A history is fixed by its timeline and the number of entries in
    [past]. *)
Lemma timeline_position h1 h2 :
  timeline h1 = timeline h2 ->
  length (HistoryManager.past h1) = length (HistoryManager.past h2) ->
  HistoryManager.past h1 = HistoryManager.past h2
  /\ HistoryManager.current h1 = HistoryManager.current h2
  /\ HistoryManager.future h1 = HistoryManager.future h2.
Proof.
  unfold timeline. intros Ht Hlen.
  apply app_inj_1 in Ht as [Hp Hrest]; [|exact Hlen].
  inversion Hrest. auto.
Qed.

Lemma timeline_length h :
  length (timeline h)
  = S (length (HistoryManager.past h) + length (HistoryManager.future h)).
Proof. unfold timeline. rewrite length_app. simpl. lia. Qed.

Lemma undoTimes_facts n : forall h,
  (n <= length (HistoryManager.past h))%nat ->
  timeline (undoTimes n h) = timeline h
  /\ length (HistoryManager.past (undoTimes n h))
     = (length (HistoryManager.past h) - n)%nat.
Proof.
  induction n as [|n IH]; intros h Hn; simpl.
  - split; [reflexivity|lia].
  - destruct (IH h) as [Ht Hl]; [lia|].
    fold (undoTimes n h). rewrite timeline_undo, undo_position. split; [exact Ht|lia].
Qed.

Lemma redoTimes_facts n : forall h,
  (n <= length (HistoryManager.future h))%nat ->
  timeline (redoTimes n h) = timeline h
  /\ length (HistoryManager.past (redoTimes n h))
     = (length (HistoryManager.past h) + n)%nat.
Proof.
  induction n as [|n IH]; intros h Hn; simpl.
  - split; [reflexivity|lia].
  - destruct (IH h) as [Ht Hl]; [lia|].
    fold (redoTimes n h). rewrite timeline_redo. split; [exact Ht|].
    rewrite redo_position; [lia|].
    intros Hnil.
    pose proof (timeline_length (redoTimes n h)) as H1.
    pose proof (timeline_length h) as H2.
    rewrite Ht, H2, Hl, Hnil in H1. simpl in H1. lia.
Qed.

(** X1.  Any run of [undo()] and [redo()] calls, in any order and whether
    or not each has something to move, keeps the texts of the history and
    their order: [past], [current] and [future] read in a row are the same
    list before and after. *)
Theorem navigation_keeps_timeline (cs : list HistoryManager.call) (h : HistoryManager.t) :
  forallb isNavigation cs = true ->
  timeline (foldl (fun h c => HistoryManager.exec c h) h cs) = timeline h.
Proof.
  revert h. induction cs as [|c cs IH]; intros h Hnav; [reflexivity|].
  simpl in Hnav. apply andb_true_iff in Hnav as [Hc Hcs].
  simpl. rewrite IH by exact Hcs.
  destruct c; [discriminate Hc|apply timeline_undo|apply timeline_redo].
Qed.

Lemma navigation_keeps_timeline_witness :
  timeline (foldl (fun h c => HistoryManager.exec c h) editedHistory
              [HistoryManager.Undo; HistoryManager.Undo; HistoryManager.Redo;
               HistoryManager.Redo; HistoryManager.Redo])
  = ["first draft"; "second draft"; "a later draft"].
Proof.
  rewrite (navigation_keeps_timeline
             [HistoryManager.Undo; HistoryManager.Undo; HistoryManager.Redo;
              HistoryManager.Redo; HistoryManager.Redo] editedHistory eq_refl).
  reflexivity.
Defined.

(** X2.  With at least [n] entries in [past], [n] undos followed by [n]
    redos bring back [past], [current] and [future]; with at least [n]
    entries in [future], [n] redos followed by [n] undos do. *)
Theorem undos_and_redos_cancel (n : nat) (h : HistoryManager.t) :
  ((n <= length (HistoryManager.past h))%nat ->
   let h' := redoTimes n (undoTimes n h) in
   HistoryManager.past h' = HistoryManager.past h
   /\ HistoryManager.current h' = HistoryManager.current h
   /\ HistoryManager.future h' = HistoryManager.future h)
  /\ ((n <= length (HistoryManager.future h))%nat ->
      let h' := undoTimes n (redoTimes n h) in
      HistoryManager.past h' = HistoryManager.past h
      /\ HistoryManager.current h' = HistoryManager.current h
      /\ HistoryManager.future h' = HistoryManager.future h).
Proof.
  split; intros Hn; simpl.
  - destruct (undoTimes_facts n h Hn) as [Ht Hl].
    assert (Hf : (n <= length (HistoryManager.future (undoTimes n h)))%nat).
    { pose proof (timeline_length (undoTimes n h)) as H1.
      pose proof (timeline_length h) as H2. rewrite Ht, H2, Hl in H1. lia. }
    destruct (redoTimes_facts n (undoTimes n h) Hf) as [Ht' Hl'].
    apply timeline_position; [congruence|lia].
  - destruct (redoTimes_facts n h Hn) as [Ht Hl].
    assert (Hp : (n <= length (HistoryManager.past (redoTimes n h)))%nat) by lia.
    destruct (undoTimes_facts n (redoTimes n h) Hp) as [Ht' Hl'].
    apply timeline_position; [congruence|lia].
Qed.

Lemma undos_and_redos_cancel_witness :
  HistoryManager.current (redoTimes 1 (undoTimes 1 editedHistory)) = "second draft"
  /\ HistoryManager.current (undoTimes 1 (redoTimes 1 editedHistory)) = "second draft".
Proof.
  split.
  - apply (proj1 (undos_and_redos_cancel 1 editedHistory)). vm_compute. lia.
  - apply (proj2 (undos_and_redos_cancel 1 editedHistory)). vm_compute. lia.
Defined.

(** X3.  The first [pushState] after a successful [undo()] or [redo()] is
    swallowed whatever its text: [past], [current] and [future] stay as
    the navigation left them, so that text does not become [current].
    The [pushState] after that one is taken. *)
Theorem edit_after_navigation_is_dropped (h : HistoryManager.t) (a b : string) :
  let dropped h1 :=
    HistoryManager.past (HistoryManager.pushState a h1) = HistoryManager.past h1
    /\ HistoryManager.current (HistoryManager.pushState a h1) = HistoryManager.current h1
    /\ HistoryManager.future (HistoryManager.pushState a h1) = HistoryManager.future h1
    /\ HistoryManager.current
         (HistoryManager.pushState b (HistoryManager.pushState a h1)) = b
    /\ HistoryManager.future
         (HistoryManager.pushState b (HistoryManager.pushState a h1)) = [] in
  (HistoryManager.past h <> [] -> dropped (fst (HistoryManager.undo h)))
  /\ (HistoryManager.future h <> [] -> dropped (fst (HistoryManager.redo h))).
Proof.
  simpl. split.
  - intros Hne. unfold HistoryManager.undo.
    destruct (last (HistoryManager.past h)) as [top|] eqn:Hlast.
    + simpl. auto.
    + apply last_None in Hlast. contradiction.
  - intros Hne. unfold HistoryManager.redo.
    destruct (HistoryManager.future h) as [|next rest]; [contradiction|].
    simpl. auto.
Qed.

Lemma edit_after_navigation_is_dropped_witness :
  HistoryManager.current
    (HistoryManager.pushState "typed after undo"
       (fst (HistoryManager.undo editedHistory))) = "first draft"
  /\ HistoryManager.current
       (HistoryManager.pushState "typed after redo"
          (fst (HistoryManager.redo editedHistory))) = "a later draft".
Proof.
  destruct (edit_after_navigation_is_dropped editedHistory "typed after undo" "next")
    as [Hu _].
  destruct (edit_after_navigation_is_dropped editedHistory "typed after redo" "next")
    as [_ Hr].
  split.
  - refine (eq_trans (proj1 (proj2 (Hu _))) _); [vm_compute; discriminate|reflexivity].
  - refine (eq_trans (proj1 (proj2 (Hr _))) _); [vm_compute; discriminate|reflexivity].
Defined.

(** X4.  An edit made while the suppression flag is clear.  When it is
    recorded (old text non-empty, different, more than 5 longer or
    shorter), [undo()] right after it returns the text from before the
    edit and [redo()] after that returns the edit.  When it is not
    recorded, [undo()] right after it returns the top of the old [past]
    (or [null] when there is none): the text from before the edit is in
    the history no longer.  Either way [redo()] right after the edit
    returns [null]. *)
Theorem edit_then_undo (h : HistoryManager.t) (s : string) :
  HistoryManager.isNavigating h = false ->
  let h' := HistoryManager.pushState s h in
  let qualifies :=
    HistoryManager.current h <> ""
    /\ HistoryManager.current h <> s
    /\ 5 < HistoryManager.lengthDelta (HistoryManager.current h) s in
  (qualifies ->
   snd (HistoryManager.undo h') = Some (HistoryManager.current h)
   /\ snd (HistoryManager.redo (fst (HistoryManager.undo h'))) = Some s)
  /\ (~ qualifies ->
      snd (HistoryManager.undo h') = last (HistoryManager.past h)
      /\ timeline h' = HistoryManager.past h ++ [s])
  /\ HistoryManager.redo h' = (h', None).
Proof.
  intros Hnav. simpl. unfold HistoryManager.pushState. rewrite Hnav.
  split; [|split].
  - intros Hq. rewrite (proj2 (records_spec h s) Hq).
    unfold HistoryManager.undo. simpl. rewrite pushBounded_last. simpl. auto.
  - intros Hq. destruct (HistoryManager.records h s) eqn:Hrec.
    + apply records_spec in Hrec. contradiction.
    + unfold HistoryManager.undo, timeline. simpl.
      destruct (last (HistoryManager.past h)); auto.
  - reflexivity.
Qed.

Lemma edit_then_undo_witness :
  snd (HistoryManager.undo
         (HistoryManager.pushState "second draft, with much more text" editedHistory))
  = Some "second draft"
  /\ snd (HistoryManager.undo (HistoryManager.pushState "second drafts" editedHistory))
     = Some "first draft".
Proof.
  split.
  - apply (proj1 (edit_then_undo editedHistory "second draft, with much more text"
                    eq_refl)).
    vm_compute. repeat split; discriminate || reflexivity.
  - refine (eq_trans (proj1 (proj1 (proj2 (edit_then_undo editedHistory "second drafts"
                                             eq_refl)) _)) _); [|reflexivity].
    vm_compute. intros (_ & _ & H). discriminate H.
Defined.

Lemma removelast_timeline h :
  removelast (timeline h)
  = HistoryManager.past h
    ++ removelast (HistoryManager.current h :: HistoryManager.future h).
Proof. unfold timeline. apply removelast_app. discriminate. Qed.

Lemma empty_only_last h :
  HistoryManager.reachable h -> Forall (fun s => s <> "") (removelast (timeline h)).
Proof.
  induction 1 as [|c h Hr IH]; [constructor|].
  destruct c as [s| |]; simpl.
  - unfold HistoryManager.pushState.
    destruct (HistoryManager.isNavigating h); [exact IH|].
    rewrite removelast_timeline in *. simpl. rewrite app_nil_r.
    apply Forall_app in IH as [Hpast _].
    destruct (HistoryManager.records h s) eqn:Hrec; [|exact Hpast].
    apply records_spec in Hrec as [Hcur _].
    unfold HistoryManager.pushBounded.
    assert (Hall : Forall (fun s => s <> "")
                     (HistoryManager.past h ++ [HistoryManager.current h])).
    { apply Forall_app. split; [exact Hpast|]. constructor; [exact Hcur|constructor]. }
    destruct (_ <? _)%nat; [|exact Hall].
    destruct (HistoryManager.past h ++ [HistoryManager.current h]); [constructor|].
    simpl. inversion Hall. assumption.
  - rewrite timeline_undo. exact IH.
  - rewrite timeline_redo. exact IH.
Qed.

(** X5.  In a history reached from a fresh one by [pushState], [undo]
    and [redo] calls, no entry of [past] is the empty string, so [undo()]
    never hands back an empty text. *)
Theorem undo_never_returns_empty_text (h : HistoryManager.t) :
  HistoryManager.reachable h ->
  Forall (fun s => s <> "") (HistoryManager.past h)
  /\ snd (HistoryManager.undo h) <> Some "".
Proof.
  intros Hr. pose proof (empty_only_last h Hr) as Hinv.
  rewrite removelast_timeline in Hinv. apply Forall_app in Hinv as [Hpast _].
  split; [exact Hpast|].
  unfold HistoryManager.undo.
  destruct (last (HistoryManager.past h)) as [top|] eqn:Hlast; simpl; [|discriminate].
  apply last_Some in Hlast as [p Hp]. rewrite Hp in Hpast.
  apply Forall_app in Hpast as [_ Htop]. inversion Htop. congruence.
Qed.

Lemma undo_never_returns_empty_text_witness :
  snd (HistoryManager.undo fullHistory) <> Some "".
Proof.
  exact (proj2 (undo_never_returns_empty_text fullHistory
                  (reachable_calls (alternatingEdits 51)))).
Defined.

(** ** StorageManager: queued writes *)

Lemma read_own_write key v d s :
  StorageManager.getFromLocalStorage key d (StorageManager.saveToLocalStorage key v s) = v.
Proof.
  unfold StorageManager.getFromLocalStorage, StorageManager.mapHas. simpl.
  rewrite mapGet_mapSet. reflexivity.
Qed.

(** X6.  After a burst of [saveToLocalStorage] calls and before any
    flush, [getFromLocalStorage(key, d)] returns the value of the latest
    call for [key], whatever that value is; when the burst has no call for
    [key], it returns what it returned before the burst. *)
Theorem reads_see_latest_write
    (ws : list (string * Js.value)) (s : StorageManager.t) (key : string) (d : Js.value) :
  StorageManager.getFromLocalStorage key d (saveAll ws s)
  = match lastWrite key ws with
    | Some v => v
    | None => StorageManager.getFromLocalStorage key d s
    end.
Proof.
  unfold saveAll, lastWrite.
  induction ws as [|[k v] ws IH] using rev_ind; [reflexivity|].
  rewrite foldl_app, rev_app_distr. simpl.
  destruct (String.eqb_spec k key) as [->|Hne].
  - apply read_own_write.
  - rewrite read_after_other_write by exact Hne. exact IH.
Qed.

Lemma mapSet_keys key v m :
  map fst (StorageManager.mapSet key v m)
  = if StorageManager.mapHas key m then map fst m else map fst m ++ [key].
Proof.
  unfold StorageManager.mapHas.
  induction m as [|[k w] m IH]; simpl; [reflexivity|].
  destruct (String.eqb k key) eqn:Hk; simpl; [reflexivity|].
  rewrite IH. destruct (StorageManager.mapGet key m); reflexivity.
Qed.

Lemma mapGet_none_keys key m :
  StorageManager.mapGet key m = None <-> key ∉ map fst m.
Proof.
  induction m as [|[k w] m IH]; simpl.
  - split; [intros _ H; inversion H|reflexivity].
  - destruct (String.eqb_spec k key) as [->|Hne].
    + split; [discriminate|]. intros H. exfalso. apply H. left.
    + rewrite IH. rewrite not_elem_of_cons. split; [auto|tauto].
Qed.

Lemma mapSet_NoDup key v m :
  NoDup (map fst m) -> NoDup (map fst (StorageManager.mapSet key v m)).
Proof.
  intros Hnd. rewrite mapSet_keys. unfold StorageManager.mapHas.
  destruct (StorageManager.mapGet key m) eqn:Hg; [exact Hnd|].
  apply NoDup_app. split; [exact Hnd|]. split.
  - intros x Hx Hin. apply list_elem_of_singleton in Hin. subst x.
    apply mapGet_none_keys in Hg. contradiction.
  - apply NoDup_singleton.
Qed.

Lemma mapDelete_NoDup key m :
  NoDup (map fst m) -> NoDup (map fst (StorageManager.mapDelete key m)).
Proof.
  unfold StorageManager.mapDelete. induction m as [|[k w] m IH]; [auto|].
  simpl. intros Hnd. apply NoDup_cons in Hnd as [Hk Hnd].
  rewrite filter_cons. simpl. destruct (String.eqb k key); simpl; [auto|].
  apply NoDup_cons. split; [|auto].
  intros Hin. apply Hk. apply list_elem_of_fmap in Hin as [[k' w'] [-> Hin]].
  apply list_elem_of_filter in Hin as [_ Hin].
  apply list_elem_of_fmap. exists (k', w'). auto.
Qed.

(** X7.  However the storage manager is driven from its initial state -
    writes, removals, flushes that succeed or throw - the pending map holds
    each key at most once, so a flush makes at most one [setItem] call
    per key. *)
Theorem pending_map_has_one_entry_per_key
    (accepts : gmap string string -> string -> string -> bool)
    (calls : list storageCall) :
  NoDup (pendingKeys (foldl (storageStep accepts) StorageManager.empty calls)).
Proof.
  unfold pendingKeys.
  induction calls as [|c calls IH] using rev_ind; [constructor|].
  rewrite foldl_app. simpl.
  destruct c as [key value|key|]; simpl.
  - apply mapSet_NoDup. exact IH.
  - apply mapDelete_NoDup. exact IH.
  - unfold StorageManager.flushWrites.
    destruct (StorageManager.setItems _ _ _); simpl; [constructor|exact IH].
Qed.

Lemma setItems_lookup accepts ws : forall ls ls',
  StorageManager.setItems accepts ls ws = Returns ls' ->
  NoDup (map fst ws) ->
  forall key,
    ls' !! key = match StorageManager.mapGet key ws with
                 | Some v => Some (Js.toString v)
                 | None => ls !! key
                 end.
Proof.
  induction ws as [|[k v] ws IH]; intros ls ls' Hset Hnd key; simpl in *.
  - injection Hset as <-. reflexivity.
  - destruct (accepts ls k (Js.toString v)); [|discriminate].
    apply NoDup_cons in Hnd as [Hk Hnd].
    rewrite (IH _ _ Hset Hnd key).
    destruct (String.eqb_spec k key) as [->|Hne].
    + apply mapGet_none_keys in Hk. rewrite Hk. apply lookup_insert_eq.
    + destruct (StorageManager.mapGet key ws); [reflexivity|].
      apply lookup_insert_ne. exact Hne.
Qed.

Lemma setItems_other accepts key ws : forall ls,
  StorageManager.mapGet key ws = None ->
  stateOf (StorageManager.setItems accepts ls ws) !! key = ls !! key.
Proof.
  induction ws as [|[k v] ws IH]; intros ls Hg; simpl in *; [reflexivity|].
  destruct (String.eqb_spec k key) as [->|Hne]; [discriminate|].
  destruct (accepts ls k (Js.toString v)); [|reflexivity].
  rewrite IH by exact Hg. apply lookup_insert_ne. exact Hne.
Qed.

(** X8.  A flush that returns has written every pending value, as a
    string, under its key and has left the other keys of [localStorage]
    alone.  A read after the flush therefore gives [String(v) || default]
    for a key that held the pending value [v] (the same as before the flush
    for a non-empty string, but the default for an empty string and a
    string for a number), and what it gave before for any other key. *)
Theorem flush_publishes_pending
    (accepts : gmap string string -> string -> string -> bool)
    (s : StorageManager.t) :
  NoDup (pendingKeys s) ->
  returned (StorageManager.flushWrites accepts s) = true ->
  let s' := stateOf (StorageManager.flushWrites accepts s) in
  forall key,
    StorageManager.localStorage s' !! key
    = match StorageManager.mapGet key (StorageManager.pendingWrites s) with
      | Some v => Some (Js.toString v)
      | None => StorageManager.localStorage s !! key
      end
    /\ forall d,
         StorageManager.getFromLocalStorage key d s'
         = match StorageManager.mapGet key (StorageManager.pendingWrites s) with
           | Some v => Js.or (Js.VStr (Js.toString v)) d
           | None => StorageManager.getFromLocalStorage key d s
           end.
Proof.
  unfold pendingKeys, StorageManager.flushWrites. intros Hnd.
  destruct (StorageManager.setItems accepts (StorageManager.localStorage s)
              (StorageManager.pendingWrites s)) as [ls|ls] eqn:Hset;
    [|discriminate].
  intros _ key. simpl.
  pose proof (setItems_lookup accepts _ _ _ Hset Hnd key) as Hl.
  split; [exact Hl|].
  intros d. unfold StorageManager.getFromLocalStorage, StorageManager.mapHas. simpl.
  rewrite Hl.
  destruct (StorageManager.mapGet key (StorageManager.pendingWrites s)); reflexivity.
Qed.

Lemma flush_publishes_pending_witness :
  StorageManager.localStorage
    (stateOf (StorageManager.flushWrites smallQuota shortWrites)) !! "currentTabIndex"
  = Some "0"
  /\ StorageManager.getFromLocalStorage "fontSize" (Js.VStr "16px")
       (stateOf (StorageManager.flushWrites smallQuota shortWrites))
     = Js.VStr "14px".
Proof.
  assert (Hnd : NoDup (pendingKeys shortWrites)).
  { unfold pendingKeys. simpl. apply NoDup_cons. split; [|apply NoDup_singleton].
    intros Hin. apply list_elem_of_singleton in Hin. discriminate Hin. }
  assert (Hret : returned (StorageManager.flushWrites smallQuota shortWrites) = true).
  { vm_compute. reflexivity. }
  split.
  - exact (proj1 (flush_publishes_pending smallQuota shortWrites Hnd Hret
                    "currentTabIndex")).
  - exact (proj2 (flush_publishes_pending smallQuota shortWrites Hnd Hret "fontSize")
                 (Js.VStr "16px")).
Defined.

Lemma saveAll_absent key ws : forall s,
  Forall (fun kv => fst kv <> key) ws ->
  StorageManager.absent key s ->
  StorageManager.absent key (saveAll ws s).
Proof.
  unfold saveAll. induction ws as [|[k v] ws IH]; intros s Hws Ha; [exact Ha|].
  apply Forall_cons in Hws as [Hk Hws]. simpl.
  apply IH; [exact Hws|]. apply absent_save_other; [exact Hk|exact Ha].
Qed.

Lemma flush_absent accepts key s :
  StorageManager.absent key s ->
  StorageManager.absent key (stateOf (StorageManager.flushWrites accepts s)).
Proof.
  intros [Hp Hd]. unfold StorageManager.flushWrites.
  pose proof (setItems_other accepts key (StorageManager.pendingWrites s)
                (StorageManager.localStorage s) Hp) as Hl.
  destruct (StorageManager.setItems _ _ _) as [ls|ls]; simpl in *;
    (split; simpl; [|rewrite Hl; exact Hd]); [reflexivity|exact Hp].
Qed.

(** X9.  [removeFromLocalStorage(key)] is not undone by a write that was
    pending for [key]: after it, and after any further writes to other
    keys, a read of [key] gives the default; and a flush, whether it
    returns or throws, leaves [key] out of [localStorage] and the read at
    the default. *)
Theorem removed_key_stays_removed
    (accepts : gmap string string -> string -> string -> bool)
    (key : string) (ws : list (string * Js.value)) (s : StorageManager.t)
    (d : Js.value) :
  Forall (fun kv => fst kv <> key) ws ->
  let s1 := saveAll ws (StorageManager.removeFromLocalStorage key s) in
  let s2 := stateOf (StorageManager.flushWrites accepts s1) in
  StorageManager.getFromLocalStorage key d s1 = d
  /\ StorageManager.localStorage s2 !! key = None
  /\ StorageManager.getFromLocalStorage key d s2 = d.
Proof.
  intros Hws. simpl.
  assert (Ha : StorageManager.absent key
                 (saveAll ws (StorageManager.removeFromLocalStorage key s))).
  { apply saveAll_absent; [exact Hws|apply absent_removed]. }
  pose proof (flush_absent accepts key _ Ha) as Hb.
  split; [apply absent_reads_default; exact Ha|].
  split; [apply Hb|apply absent_reads_default; exact Hb].
Qed.

Lemma removed_key_stays_removed_witness :
  StorageManager.getFromLocalStorage "note-1" (Js.VStr "")
    (stateOf (StorageManager.flushWrites smallQuota
       (saveAll [("fontSize", Js.VStr "12px")]
          (StorageManager.removeFromLocalStorage "note-1" sampleStorage))))
  = Js.VStr "".
Proof.
  apply (removed_key_stays_removed smallQuota "note-1" [("fontSize", Js.VStr "12px")]
           sampleStorage (Js.VStr "")).
  repeat constructor. simpl. discriminate.
Defined.

(** ** SectionManager: polling against any service *)

Lemma setInnerText_frame element text w :
  let w' := stateOf (SectionManager.setInnerText element text w) in
  requests w' = requests w /\ section w' = section w /\ storage w' = storage w.
Proof. destruct element; simpl; auto. Qed.

Lemma saveSectionContent_frame w :
  let w' := SectionManager.saveSectionContent w in
  requests w' = requests w /\ section w' = section w /\ panels w' = panels w.
Proof.
  unfold SectionManager.saveSectionContent. simpl. repeat case_match; simpl; auto.
Qed.

(** What one [pollForStatus] call does to the request log and to the
    scheduled poll. *)
Lemma poll_step srv j w :
  let w' := stateOf (SectionManager.pollForStatus srv j w) in
  (requests w' = requests w
   /\ (SectionManager.maxRetries <= retries j)%nat
   /\ pollingTimeout (section w') = pollingTimeout (section w))
  \/ ((retries j < SectionManager.maxRetries)%nat
      /\ requests w' = requests w ++ [statusRead j]
      /\ (pollingTimeout (section w') = pollingTimeout (section w)
          \/ (pollingTimeout (section w') = Some (retry j)
              /\ SectionManager.pollForStatus srv j w = Returns w'
              /\ exists reply a,
                   srv (requests w) (statusRead j) = Api.Returned reply
                   /\ Api.data_attributes (Api.payload reply) = Api.Returned a
                   /\ Api.status a <> "completed"
                   /\ Api.status a <> "success"
                   /\ Api.status a <> "failed"))).
Proof.
  simpl. unfold SectionManager.pollForStatus, SectionManager.pollingFailed,
    SectionManager.setContent, SectionManager.setInnerText.
  destruct (Nat.leb_spec SectionManager.maxRetries (retries j)) as [Hle|Hlt].
  { left. simpl; destruct (currentSectionElement (section w)); simpl; auto. }
  right. split; [exact Hlt|].
  unfold Api.callSharpApi. fold (statusRead j).
  destruct (srv (requests w) (statusRead j)) as [reply|msg] eqn:Hsrv;
    [|simpl; destruct (currentSectionElement (section w)); simpl; auto].
  destruct (negb (Api.ok reply) && negb (Api.httpStatus reply =? 202));
    [simpl; destruct (currentSectionElement (section w)); simpl; auto|].
  destruct (Api.data_attributes (Api.payload reply)) as [a|msg] eqn:Ha;
    [|simpl; destruct (currentSectionElement (section w)); simpl; auto].
  assert (Hdone : forall r,
            let c :=
              match
                match currentSectionElement
                        (section (withRequests (requests w ++ [statusRead j]) w)) with
                | Some e =>
                    Returns
                      (withPanels
                         <[e := SectionManager.finalResult r
                                  (withRequests (requests w ++ [statusRead j]) w)]>
                         (withRequests (requests w ++ [statusRead j]) w))
                | None => Throws (withRequests (requests w ++ [statusRead j]) w)
                end
              with
              | Returns w2 =>
                  Returns
                    (SectionManager.saveSectionContent
                       (SectionManager.setApiCache (jobCacheKey j)
                          (SectionManager.finalResult r
                             (withRequests (requests w ++ [statusRead j]) w)) w2))
              | Throws w2 => Throws w2
              end in
            requests (stateOf c) = requests w ++ [statusRead j]
            /\ pollingTimeout (section (stateOf c)) = pollingTimeout (section w)).
  { intros r. simpl. destruct (currentSectionElement (section w)); simpl; [|auto].
    rewrite (proj1 (saveSectionContent_frame _)),
      (proj1 (proj2 (saveSectionContent_frame _))). simpl. auto. }
  destruct (String.eqb_spec (Api.status a) "completed") as [Hc|Hc].
  { simpl orb. cbv iota. destruct (Api.result a) as [r|msg];
      [destruct (Hdone r) as [H1 H2]; split; [exact H1|left; exact H2]
      |simpl; destruct (currentSectionElement (section w)); simpl; auto]. }
  destruct (String.eqb_spec (Api.status a) "success") as [Hs|Hs].
  { simpl orb. cbv iota. destruct (Api.result a) as [r|msg];
      [destruct (Hdone r) as [H1 H2]; split; [exact H1|left; exact H2]
      |simpl; destruct (currentSectionElement (section w)); simpl; auto]. }
  destruct (String.eqb_spec (Api.status a) "failed") as [Hf|Hf];
    [simpl; destruct (currentSectionElement (section w)); simpl; auto|].
  simpl. split; [reflexivity|]. right.
  split; [reflexivity|]. split; [reflexivity|]. eauto 10.
Qed.

Lemma awaitPolling_bound srv (n : nat) : forall w,
  (SectionManager.pollsLeft w <= n)%nat ->
  let c := SectionManager.awaitPolling srv w in
  (length (requests (stateOf c))
   <= length (requests w) + (SectionManager.pollsLeft w - 1))%nat
  /\ (returned c = true -> pollingTimeout (section (stateOf c)) = None).
Proof.
  induction n as [|n IH]; intros w Hn; simpl;
    rewrite awaitPolling_unfold; unfold SectionManager.pollsLeft in *;
    destruct (pollingTimeout (section w)) as [j|] eqn:Hw; simpl;
    try (split; [lia|auto]; fail); [lia|].
  pose proof (poll_step srv j (SectionManager.setPollingTimeout None w)) as Hstep.
  simpl in Hstep.
  destruct (SectionManager.pollForStatus srv j (SectionManager.setPollingTimeout None w))
    as [w'|w'] eqn:Hpoll; simpl in *.
  - assert (Hleft : (SectionManager.pollsLeft w' <= n)%nat
                    /\ (length (requests w') + (SectionManager.pollsLeft w' - 1)
                        <= length (requests w)
                           + (SectionManager.maxRetries - retries j))%nat).
    { unfold SectionManager.pollsLeft.
      destruct Hstep as [(Hr & Hle & Hp)|(Hlt & Hr & [Hp|(Hp & _)])];
        rewrite Hp, Hr, ?length_app; simpl; lia. }
    destruct Hleft as [Hn' Hlen].
    destruct (IH w' Hn') as [Hb Hnone]. split; [|exact Hnone].
    etransitivity; [exact Hb|]. rewrite Nat.sub_0_r. exact Hlen.
  - split; [|discriminate].
    destruct Hstep as [(Hr & Hle & Hp)|(Hlt & Hr & _)];
      rewrite Hr, ?length_app; simpl; lia.
Qed.

(** X10.  Whatever the service answers, the polling that starts with a
    [pollForStatus] call at retry count [r] ends after at most [10 - r]
    status reads, so at most 10 from a fresh job; and when it ends by
    returning, no poll is left scheduled. *)
Theorem polling_reads_are_bounded (srv : Api.server) (j : Job) (w : World) :
  let c := SectionManager.pollToEnd srv j w in
  (length (requests (stateOf c))
   <= length (requests w) + (SectionManager.maxRetries - retries j))%nat
  /\ (length (requests (stateOf c)) <= length (requests w) + 10)%nat
  /\ (returned c = true -> pollingTimeout (section (stateOf c)) = None).
Proof.
  simpl. unfold SectionManager.pollToEnd.
  destruct (awaitPolling_bound srv _ (SectionManager.setPollingTimeout (Some j) w)
              (Nat.le_refl _)) as [Hb Hnone].
  unfold SectionManager.pollsLeft in Hb. simpl in Hb.
  rewrite Nat.sub_0_r in Hb.
  split; [exact Hb|]. split; [|exact Hnone].
  unfold SectionManager.maxRetries in Hb. lia.
Qed.

(** X11.  A [pollForStatus] call made while no poll is scheduled leaves
    one scheduled only when the retry count was below 10 and the service
    answered the status read with a status other than [completed],
    [success] and [failed]; the scheduled poll then carries the same
    status URL, key and cache key and the retry count plus one.  A
    completed or failed job, an error of the call and a used-up retry
    count all end the polling. *)
Theorem poll_reschedules_only_when_pending
    (srv : Api.server) (j j' : Job) (w : World) :
  pollingTimeout (section w) = None ->
  pollingTimeout (section (stateOf (SectionManager.pollForStatus srv j w))) = Some j' ->
  j' = mkJob (statusUrl j) (jobApiKey j) (jobCacheKey j) (retries j + 1)
  /\ (retries j < 10)%nat
  /\ exists reply a,
       srv (requests w)
           (Api.mkRequest Api.GET (Api.endpoint (statusUrl j)) (jobApiKey j) None)
       = Api.Returned reply
       /\ Api.data_attributes (Api.payload reply) = Api.Returned a
       /\ Api.status a <> "completed"
       /\ Api.status a <> "success"
       /\ Api.status a <> "failed".
Proof.
  intros Hnone Hsome.
  destruct (poll_step srv j w) as [(_ & _ & Hp)|(Hlt & _ & [Hp|(Hp & _ & Hsrv)])];
    simpl in Hp; rewrite Hp in Hsome; try congruence.
  injection Hsome as <-. unfold SectionManager.maxRetries in Hlt. auto.
Qed.

Lemma poll_reschedules_only_when_pending_witness :
  exists reply a,
    stalledService (requests sampleWorld)
      (Api.mkRequest Api.GET
         (Api.endpoint "https://sharpapi.com/api/v1/job/status/7") "secret" None)
    = Api.Returned reply
    /\ Api.data_attributes (Api.payload reply) = Api.Returned a
    /\ Api.status a <> "completed"
    /\ Api.status a <> "success"
    /\ Api.status a <> "failed".
Proof.
  apply (poll_reschedules_only_when_pending stalledService
           (mkJob "https://sharpapi.com/api/v1/job/status/7" "secret" "key" 3)
           (mkJob "https://sharpapi.com/api/v1/job/status/7" "secret" "key" 4)
           sampleWorld).
  - reflexivity.
  - vm_compute. reflexivity.
Defined.

(** X12.  A poll below the retry bound that does not find the job
    completed reports the reason in the panel and changes neither the
    cache nor the store, and schedules nothing.  When the status is
    [failed] the panel reads [Job failed: ] and the message, or
    [Unknown error] when there is none; when the call itself throws, it
    reads [Polling failed: ] and the error's message. *)
Theorem failed_poll_reports_and_keeps_results
    (srv : Api.server) (j : Job) (w : World) (element : string) :
  (retries j < 10)%nat ->
  currentSectionElement (section w) = Some element ->
  let read := Api.mkRequest Api.GET (Api.endpoint (statusUrl j)) (jobApiKey j) None in
  let kept w' :=
    apiCache (section w') = apiCache (section w)
    /\ storage w' = storage w
    /\ pollingTimeout (section w') = pollingTimeout (section w)
    /\ requests w' = requests w ++ [read] in
  (forall reply a,
      srv (requests w) read = Api.Returned reply ->
      Api.ok reply = true ->
      Api.data_attributes (Api.payload reply) = Api.Returned a ->
      Api.status a = "failed" ->
      exists w',
        SectionManager.pollForStatus srv j w = Returns w'
        /\ panels w' !! element
           = Some ("Job failed: " +:+
                   (if String.eqb (Api.message a) "" then "Unknown error"
                    else Api.message a))
        /\ kept w')
  /\ (forall msg,
        srv (requests w) read = Api.Threw msg ->
        exists w',
          SectionManager.pollForStatus srv j w = Returns w'
          /\ panels w' !! element = Some ("Polling failed: " +:+ msg)
          /\ kept w').
Proof.
  intros Hlt He. simpl.
  unfold SectionManager.pollForStatus, SectionManager.pollingFailed,
    SectionManager.setInnerText, Api.callSharpApi.
  destruct (Nat.leb_spec SectionManager.maxRetries (retries j)) as [Hle|_];
    [unfold SectionManager.maxRetries in Hle; lia|].
  split.
  - intros reply a Hsrv Hok Ha Hst. rewrite Hsrv, Hok. simpl. rewrite Ha, Hst. simpl.
    rewrite He. eexists. split; [reflexivity|]. simpl.
    rewrite lookup_insert_eq. auto.
  - intros msg Hsrv. rewrite Hsrv. simpl. rewrite He.
    eexists. split; [reflexivity|]. simpl. rewrite lookup_insert_eq. auto.
Qed.

Lemma failed_poll_reports_and_keeps_results_witness :
  panels (stateOf (SectionManager.pollForStatus failingService
                     (mkJob "https://sharpapi.com/api/v1/job/status/7" "secret" "key" 2)
                     sampleWorld)) !! "summary"
  = Some "Job failed: Unknown error"
  /\ panels (stateOf (SectionManager.pollForStatus offlineService
                        (mkJob "https://sharpapi.com/api/v1/job/status/7" "secret" "key" 2)
                        sampleWorld)) !! "summary"
     = Some "Polling failed: Failed to fetch".
Proof.
  split.
  - destruct (proj1 (failed_poll_reports_and_keeps_results failingService
                       (mkJob "https://sharpapi.com/api/v1/job/status/7" "secret" "key" 2)
                       sampleWorld "summary" ltac:(simpl; lia) eq_refl)
                    _ _ eq_refl eq_refl eq_refl eq_refl)
      as (w' & Hpoll & Hpanel & _).
    rewrite Hpoll. exact Hpanel.
  - destruct (proj2 (failed_poll_reports_and_keeps_results offlineService
                       (mkJob "https://sharpapi.com/api/v1/job/status/7" "secret" "key" 2)
                       sampleWorld "summary" ltac:(simpl; lia) eq_refl)
                    _ eq_refl)
      as (w' & Hpoll & Hpanel & _).
    rewrite Hpoll. exact Hpanel.
Defined.

(** X13.  [handleAiWrite] with nothing to do.  With no active section it
    returns with the state untouched.  With a section active but no API
    key stored, or with a note that is empty or only white space (what
    [trim] strips: tabs, line breaks, spaces and no-break spaces), it
    returns without a request and without touching panel, cache or store;
    the only change is that a poll still scheduled is cancelled. *)
Theorem handleAiWrite_rejects_missing_input
    (srv : Api.server) (sha256Hex : string -> string) (w : World) :
  (activeSection (section w) = None ->
   SectionManager.handleAiWrite srv sha256Hex w = Returns w)
  /\ (activeSection (section w) <> None ->
      Js.truthy (StorageManager.getFromLocalStorage "apiKey" (Js.VStr "") (storage w))
      = false
      \/ trim (noteText w) = "" ->
      SectionManager.handleAiWrite srv sha256Hex w
      = Returns (SectionManager.setPollingTimeout None w)).
Proof.
  unfold SectionManager.handleAiWrite. split.
  - intros ->. reflexivity.
  - intros Hsec Hbad. destruct (activeSection (section w)); [|congruence]. simpl.
    destruct (Js.truthy _); simpl; [|reflexivity].
    destruct Hbad as [Hbad|Hbad]; [discriminate|]. rewrite Hbad. reflexivity.
Qed.

Lemma handleAiWrite_rejects_missing_input_witness :
  SectionManager.handleAiWrite stalledService sampleDigest
    (withNoteText "   " sampleWorld)
  = Returns (SectionManager.setPollingTimeout None (withNoteText "   " sampleWorld))
  /\ SectionManager.handleAiWrite stalledService sampleDigest
       (withNoteText blankNote sampleWorld)
     = Returns (SectionManager.setPollingTimeout None
                  (withNoteText blankNote sampleWorld)).
Proof.
  split.
  - apply (proj2 (handleAiWrite_rejects_missing_input stalledService sampleDigest
                    (withNoteText "   " sampleWorld))).
    + discriminate.
    + right. reflexivity.
  - apply (proj2 (handleAiWrite_rejects_missing_input stalledService sampleDigest
                    (withNoteText blankNote sampleWorld))).
    + discriminate.
    + right. reflexivity.
Defined.


(** ** SectionManager: stored results *)

Lemma append_inj_r (p a b : string) : p +:+ a = p +:+ b -> a = b.
Proof.
  induction p as [|c p IH]; simpl; [auto|]. intros [= H]. auto.
Qed.

Lemma sectionKey_ext noteId sec w w' :
  translationManager (section w) = translationManager (section w') ->
  SectionManager.sectionKey noteId sec w = SectionManager.sectionKey noteId sec w'.
Proof. unfold SectionManager.sectionKey. intros ->. reflexivity. Qed.

Lemma saveSectionContent_eq w element sec doc :
  currentSectionElement (section w) = Some element ->
  activeSection (section w) = Some sec ->
  sec <> "" ->
  currentNoteId (section w) = Some doc ->
  doc <> "" ->
  SectionManager.saveSectionContent w
  = withStorage
      (StorageManager.saveToLocalStorage (SectionManager.sectionKey (Some doc) sec w)
         (Js.VStr (SectionManager.innerText element w))) w.
Proof.
  intros He Hsec Hsec' Hdoc Hdoc'. apply eqb_false_iff in Hsec', Hdoc'.
  unfold SectionManager.saveSectionContent. rewrite He, Hsec, Hdoc. simpl.
  rewrite Hsec', Hdoc'. reflexivity.
Qed.

Lemma loadSectionContent_frame sec w :
  let w' := SectionManager.loadSectionContent sec w in
  storage w' = storage w /\ section w' = section w /\ requests w' = requests w
  /\ tabState w' = tabState w /\ noteText w' = noteText w.
Proof.
  unfold SectionManager.loadSectionContent, SectionManager.querySelector. simpl.
  repeat case_match; simpl; auto 10.
Qed.

Lemma loadSectionContent_eq w sec doc :
  currentNoteId (section w) = Some doc ->
  doc <> "" ->
  sec <> "" ->
  is_Some (panels w !! sec) ->
  panels (SectionManager.loadSectionContent (Some sec) w)
  = <[sec := Js.toString
               (StorageManager.getFromLocalStorage
                  (SectionManager.sectionKey (Some doc) sec w) (Js.VStr "")
                  (storage w))]> (panels w).
Proof.
  intros Hdoc Hdoc' Hsec' [t Ht]. apply eqb_false_iff in Hsec', Hdoc'.
  unfold SectionManager.loadSectionContent, SectionManager.querySelector.
  rewrite Hdoc. simpl. rewrite Hdoc', Hsec', Ht. reflexivity.
Qed.

Lemma loadSectionContent_panel sec sec' w :
  is_Some (panels w !! sec') ->
  is_Some (panels (SectionManager.loadSectionContent sec w) !! sec').
Proof.
  intros Hp. unfold SectionManager.loadSectionContent, SectionManager.querySelector.
  repeat case_match; simplify_eq/=; try exact Hp.
  rewrite lookup_insert. case_decide; [eauto|exact Hp].
Qed.

(** [setNoteId], field by field. *)
Lemma setNoteId_facts noteId w :
  let w' := SectionManager.setNoteId noteId w in
  storage w' = storage w
  /\ currentNoteId (section w') = Some noteId
  /\ activeSection (section w') = activeSection (section w)
  /\ currentSectionElement (section w') = currentSectionElement (section w)
  /\ translationManager (section w') = translationManager (section w)
  /\ (forall sec, is_Some (panels w !! sec) -> is_Some (panels w' !! sec))
  /\ (forall sec,
        activeSection (section w) = Some sec -> sec <> "" -> noteId <> "" ->
        is_Some (panels w !! sec) ->
        panels w' !! sec
        = Some (Js.toString
                  (StorageManager.getFromLocalStorage
                     (SectionManager.sectionKey (Some noteId) sec w) (Js.VStr "")
                     (storage w)))).
Proof.
  simpl. unfold SectionManager.setNoteId.
  set (w0 := withSection _ w).
  pose proof (loadSectionContent_frame (activeSection (section w0)) w0) as Hf.
  cbv zeta in Hf. destruct Hf as (Hst & Hsec & _).
  rewrite Hst, Hsec. simpl.
  repeat split; try reflexivity.
  - intros sec Hp. apply loadSectionContent_panel. exact Hp.
  - intros sec Hact Hsec' Hid Hp. rewrite Hact.
    rewrite (loadSectionContent_eq w0 sec noteId); try assumption; try reflexivity.
    rewrite lookup_insert_eq. reflexivity.
Qed.

(** X15.  A section result survives a document switch.  With a panel
    showing [text] for document [doc]: after [saveSectionContent], a
    [setNoteId] to any other document and a [setNoteId] back to [doc], the
    panel shows [text] again; while the other document is active the panel
    shows what the store holds under that document's key for the section,
    or nothing. *)
Theorem section_result_survives_document_switch
    (w : World) (sec doc other text : string) :
  currentSectionElement (section w) = Some sec ->
  activeSection (section w) = Some sec ->
  sec <> "" ->
  currentNoteId (section w) = Some doc ->
  doc <> "" ->
  panels w !! sec = Some text ->
  let w1 := SectionManager.saveSectionContent w in
  let w2 := SectionManager.setNoteId other w1 in
  let w3 := SectionManager.setNoteId doc w2 in
  panels w3 !! sec = Some text
  /\ (other <> "" ->
      panels w2 !! sec
      = Some (Js.toString
                (StorageManager.getFromLocalStorage
                   (SectionManager.sectionKey (Some other) sec w) (Js.VStr "")
                   (storage w1)))).
Proof.
  intros He Hsec Hsec' Hdoc Hdoc' Hpanel. simpl.
  rewrite (saveSectionContent_eq w sec sec doc He Hsec Hsec' Hdoc Hdoc').
  unfold SectionManager.innerText. rewrite Hpanel. simpl.
  set (w1 := withStorage _ w).
  destruct (setNoteId_facts other w1) as (Hst2 & _ & Hact2 & _ & Htm2 & Hp2 & Hload2).
  destruct (setNoteId_facts doc (SectionManager.setNoteId other w1))
    as (_ & _ & _ & _ & _ & _ & Hload3).
  split.
  - rewrite (Hload3 sec); try assumption.
    + rewrite Hst2.
      rewrite (sectionKey_ext (Some doc) sec _ w) by (rewrite Htm2; reflexivity).
      subst w1. simpl. rewrite read_own_write. reflexivity.
    + rewrite Hact2. exact Hsec.
    + apply Hp2. subst w1. simpl. eauto.
  - intros Hother. rewrite (Hload2 sec); try assumption.
    + reflexivity.
    + subst w1. simpl. eauto.
Qed.

Lemma section_result_survives_document_switch_witness :
  panels (SectionManager.setNoteId "note-2"
            (SectionManager.setNoteId "note-1"
               (SectionManager.saveSectionContent translating))) !! "translation"
  = Some "alguna nota"
  /\ panels (SectionManager.setNoteId "note-1"
               (SectionManager.saveSectionContent translating)) !! "translation"
     = Some "una nota".
Proof.
  assert (He : currentSectionElement (section translating) = Some "translation")
    by (vm_compute; reflexivity).
  assert (Hsec : activeSection (section translating) = Some "translation")
    by (vm_compute; reflexivity).
  assert (Hdoc : currentNoteId (section translating) = Some "note-2")
    by (vm_compute; reflexivity).
  assert (Hpanel : panels translating !! "translation" = Some "alguna nota")
    by (vm_compute; reflexivity).
  destruct (section_result_survives_document_switch translating "translation" "note-2"
              "note-1" "alguna nota" He Hsec ltac:(discriminate) Hdoc
              ltac:(discriminate) Hpanel) as [Hback Hother].
  split; [exact Hback|].
  rewrite Hother by discriminate. vm_compute. reflexivity.
Defined.

Lemma sectionKey_hasDash noteId sec w :
  hasDash (SectionManager.sectionKey noteId sec w) = true.
Proof.
  unfold SectionManager.sectionKey.
  destruct (translationManager (section w)); [destruct (String.eqb sec _)|];
    apply hasDash_sectionKey.
Qed.

Lemma sectionKey_not_language noteId sec w :
  "translationLanguage" <> SectionManager.sectionKey noteId sec w.
Proof.
  intros Heq. pose proof (sectionKey_hasDash noteId sec w) as Hd.
  rewrite <- Heq in Hd. discriminate Hd.
Qed.

Lemma selectLanguage_eq h lang w doc :
  currentNoteId (section w) = Some doc ->
  doc <> "" ->
  is_Some (panels w !! "translation") ->
  let w' := stateOf (run h (SelectLanguage lang) w) in
  storage w'
  = StorageManager.saveToLocalStorage "translationLanguage" (Js.VStr lang) (storage w)
  /\ translationManager (section w') = Some lang
  /\ currentNoteId (section w') = Some doc
  /\ panels w' !! "translation"
     = Some (Js.toString
               (StorageManager.getFromLocalStorage
                  (doc +:+ "-translation-" +:+ lang) (Js.VStr "") (storage w))).
Proof.
  intros Hdoc Hdoc' Hp. cbv [run stateOf].
  set (w0 := withStorage _ (SectionManager.setTranslationManager lang w)).
  pose proof (loadSectionContent_frame (Some "translation") w0) as Hf.
  cbv zeta in Hf. destruct Hf as (Hst & Hsec & _). rewrite Hst, Hsec.
  split; [reflexivity|]. split; [reflexivity|]. split; [exact Hdoc|].
  rewrite (loadSectionContent_eq w0 "translation" doc);
    [|exact Hdoc|exact Hdoc'|discriminate|exact Hp].
  rewrite lookup_insert_eq. f_equal. f_equal.
  subst w0. simpl.
  rewrite read_after_other_write by apply sectionKey_not_language.
  reflexivity.
Qed.

(** X16.  Translations are kept per language.  With the translation
    panel showing [text] under language [a]: after [saveSectionContent],
    choosing language [b] and then [a] again shows [text] again.  For
    [b] other than [a], while [b] is chosen the panel shows what the store
    held under the key for [b] before, or nothing: the text saved under
    [a] is not shown. *)
Theorem translation_is_kept_per_language
    (h : Host) (w : World) (doc a b text : string) :
  currentSectionElement (section w) = Some "translation" ->
  activeSection (section w) = Some "translation" ->
  currentNoteId (section w) = Some doc ->
  doc <> "" ->
  translationManager (section w) = Some a ->
  panels w !! "translation" = Some text ->
  let w1 := SectionManager.saveSectionContent w in
  let w2 := stateOf (run h (SelectLanguage b) w1) in
  let w3 := stateOf (run h (SelectLanguage a) w2) in
  panels w3 !! "translation" = Some text
  /\ (a <> b ->
      panels w2 !! "translation"
      = Some (Js.toString
                (StorageManager.getFromLocalStorage
                   (doc +:+ "-translation-" +:+ b) (Js.VStr "") (storage w)))).
Proof.
  intros He Hsec Hdoc Hdoc' Hlang Hpanel. cbv zeta.
  rewrite (saveSectionContent_eq w "translation" "translation" doc He Hsec
             ltac:(discriminate) Hdoc Hdoc').
  unfold SectionManager.innerText. rewrite Hpanel. simpl default.
  assert (Hkey : SectionManager.sectionKey (Some doc) "translation" w
                 = doc +:+ "-translation-" +:+ a).
  { unfold SectionManager.sectionKey. rewrite Hlang. reflexivity. }
  rewrite Hkey.
  set (w1 := withStorage _ w).
  destruct (selectLanguage_eq h b w1 doc Hdoc Hdoc') as (Hst2 & _ & Hdoc2 & Hp2).
  { subst w1. simpl. eauto. }
  destruct (selectLanguage_eq h a (stateOf (run h (SelectLanguage b) w1)) doc
              Hdoc2 Hdoc') as (_ & _ & _ & Hp3).
  { rewrite Hp2. eauto. }
  split.
  - rewrite Hp3, Hst2. subst w1. simpl storage.
    rewrite read_after_other_write.
    + rewrite read_own_write. reflexivity.
    + rewrite <- Hkey. apply sectionKey_not_language.
  - intros Hab. rewrite Hp2. subst w1. simpl storage.
    rewrite read_after_other_write; [reflexivity|].
    intros Heq. apply Hab. apply (append_inj_r "-translation-").
    apply (append_inj_r doc). exact Heq.
Qed.

Lemma translation_is_kept_per_language_witness :
  panels (stateOf (run sampleHost (SelectLanguage "es")
            (stateOf (run sampleHost (SelectLanguage "fr")
               (SectionManager.saveSectionContent translating))))) !! "translation"
  = Some "alguna nota"
  /\ panels (stateOf (run sampleHost (SelectLanguage "fr")
               (SectionManager.saveSectionContent translating))) !! "translation"
     = Some "".
Proof.
  assert (He : currentSectionElement (section translating) = Some "translation")
    by (vm_compute; reflexivity).
  assert (Hsec : activeSection (section translating) = Some "translation")
    by (vm_compute; reflexivity).
  assert (Hdoc : currentNoteId (section translating) = Some "note-2")
    by (vm_compute; reflexivity).
  assert (Hlang : translationManager (section translating) = Some "es")
    by (vm_compute; reflexivity).
  assert (Hpanel : panels translating !! "translation" = Some "alguna nota")
    by (vm_compute; reflexivity).
  destruct (translation_is_kept_per_language sampleHost translating "note-2" "es" "fr"
              "alguna nota" He Hsec Hdoc ltac:(discriminate) Hlang Hpanel)
    as [Hback Hother].
  split; [exact Hback|].
  rewrite Hother by discriminate. vm_compute. reflexivity.
Defined.

(** ** TabManager: sessions in good order *)

Section TabFacts.

Variable stringify : list Tab -> string.

Lemma tabAt_lookup index w :
  0 <= index ->
  TabManager.tabAt index w = tabs (tabState w) !! Z.to_nat index.
Proof.
  intros Hpos. unfold TabManager.tabAt.
  destruct (Z.ltb_spec index 0); [lia|reflexivity].
Qed.

Lemma tabAt_valid index w :
  0 <= index < TabManager.tabCount w -> is_Some (TabManager.tabAt index w).
Proof.
  intros [Hpos Hlt]. rewrite tabAt_lookup by exact Hpos.
  apply lookup_lt_is_Some. unfold TabManager.tabCount in Hlt. lia.
Qed.

Lemma tabAt_elem index w tab :
  TabManager.tabAt index w = Some tab -> tab ∈ tabs (tabState w).
Proof.
  unfold TabManager.tabAt. destruct (index <? 0); [discriminate|].
  apply list_elem_of_lookup_2.
Qed.

Lemma tabAt_range index w tab :
  TabManager.tabAt index w = Some tab -> 0 <= index < TabManager.tabCount w.
Proof.
  unfold TabManager.tabAt, TabManager.tabCount.
  destruct (Z.ltb_spec index 0); [discriminate|].
  intros Hl. apply lookup_lt_Some in Hl. lia.
Qed.

(** With different ids, two indices that give the same id are equal. *)
Lemma tabAt_inj i j w a b :
  NoDup (map id (tabs (tabState w))) ->
  TabManager.tabAt i w = Some a -> TabManager.tabAt j w = Some b ->
  id a = id b -> i = j.
Proof.
  intros Hnd Ha Hb Hid.
  pose proof (tabAt_range _ _ _ Ha) as [Hi _].
  pose proof (tabAt_range _ _ _ Hb) as [Hj _].
  rewrite tabAt_lookup in Ha, Hb by assumption.
  assert (Z.to_nat i = Z.to_nat j); [|lia].
  apply (NoDup_lookup (map id (tabs (tabState w))) _ _ (id a)); [exact Hnd| |].
  - rewrite list_lookup_fmap, Ha. reflexivity.
  - rewrite list_lookup_fmap, Hb, Hid. reflexivity.
Qed.

(** [saveCurrentTabContent] on an active document that has a history. *)
Lemma saveCurrent_eq w tab h :
  currentTabIndex (tabState w) <> -1 ->
  activeTab w = Some tab ->
  tabHistories (tabState w) !! id tab = Some h ->
  TabManager.saveCurrentTabContent w
  = Returns (TabManager.setHistories
               <[id tab := HistoryManager.pushState (noteText w) h]>
               (withStorage
                  (StorageManager.saveToLocalStorage (id tab) (Js.VStr (noteText w)))
                  w)).
Proof.
  unfold activeTab, TabManager.saveCurrentTabContent. intros Hidx Htab Hh.
  destruct (Z.eqb_spec (currentTabIndex (tabState w)) (-1)); [contradiction|].
  rewrite Htab. simpl. rewrite Hh. reflexivity.
Qed.

Lemma switchTab_eq index w w1 tab h :
  currentTabIndex (tabState w) <> index ->
  TabManager.saveCurrentTabContent w = Returns w1 ->
  TabManager.tabAt index w = Some tab ->
  tabHistories (tabState w1) !! id tab = Some h ->
  TabManager.switchTab stringify index w = Returns (switched stringify index tab h w1).
Proof.
  intros Hne Hsave Htab Hh. unfold TabManager.switchTab.
  destruct (Z.eqb_spec (currentTabIndex (tabState w)) index); [contradiction|].
  rewrite Hsave.
  pose proof (saveCurrent_tabs w) as [Ht _]. rewrite Hsave in Ht. simpl in Ht.
  rewrite (tabAt_tabs index w (TabManager.setCurrentTabIndex index w1)) by exact Ht.
  rewrite Htab. simpl. rewrite Hh. reflexivity.
Qed.

Lemma switched_facts index tab h w1 :
  let w' := switched stringify index tab h w1 in
  tabs (tabState w') = tabs (tabState w1)
  /\ currentTabIndex (tabState w') = index
  /\ noteText w' = TabManager.loadedContent (id tab) h w1
  /\ tabHistories (tabState w')
     = <[id tab := HistoryManager.mk (HistoryManager.past h) (HistoryManager.future h)
                     (TabManager.loadedContent (id tab) h w1)
                     (HistoryManager.isNavigating h)]> (tabHistories (tabState w1))
  /\ storage w'
     = StorageManager.saveToLocalStorage "currentTabIndex" (Js.VNum index)
         (StorageManager.saveToLocalStorage "tabs"
            (Js.VStr (stringify (tabs (tabState w1)))) (storage w1)).
Proof.
  unfold switched. cbv zeta.
  set (w4 := TabManager.setHistories _ _).
  destruct (setNoteId_frame (id tab) w4) as (Hts & Hnote & Hst).
  unfold TabManager.saveTabsToStorage. simpl.
  rewrite Hts, Hnote, Hst. subst w4. simpl. auto.
Qed.

End TabFacts.

Section TabSteps.

Variable stringify : list Tab -> string.

Lemma wellFormed_active w :
  wellFormed w ->
  exists tab h,
    activeTab w = Some tab
    /\ tabHistories (tabState w) !! id tab = Some h
    /\ currentTabIndex (tabState w) <> -1.
Proof.
  intros (_ & Hh & Hidx).
  destruct (tabAt_valid _ w Hidx) as [tab Htab].
  destruct (proj2 (Hh tab (tabAt_elem _ _ _ Htab))) as [h Hhist].
  exists tab, h. unfold activeTab. split; [exact Htab|]. split; [exact Hhist|lia].
Qed.

(** A state with the same documents, a valid index and no history lost is
    in good order too. *)
Lemma wellFormed_frame w w' :
  wellFormed w ->
  tabs (tabState w') = tabs (tabState w) ->
  0 <= currentTabIndex (tabState w') < TabManager.tabCount w ->
  (forall key, is_Some (tabHistories (tabState w) !! key) ->
               is_Some (tabHistories (tabState w') !! key)) ->
  wellFormed w'.
Proof.
  intros (Hnd & Hh & _) Ht Hidx Hkeep. unfold wellFormed, TabManager.tabCount.
  rewrite Ht. split; [exact Hnd|]. split; [|exact Hidx].
  intros tab Hin. destruct (Hh tab Hin) as [Hk Hs]. split; [exact Hk|].
  apply Hkeep. exact Hs.
Qed.

Lemma saveCurrent_wellFormed w :
  wellFormed w ->
  exists w1,
    TabManager.saveCurrentTabContent w = Returns w1 /\ wellFormed w1.
Proof.
  intros Hwf. destruct (wellFormed_active w Hwf) as (tab & h & Htab & Hh & Hidx).
  rewrite (saveCurrent_eq w tab h Hidx Htab Hh).
  eexists. split; [reflexivity|].
  apply (wellFormed_frame w); [exact Hwf|reflexivity|apply Hwf|].
  intros key Hs. simpl. rewrite lookup_insert_is_Some. 
  destruct (decide (id tab = key)); auto.
Qed.

(** [switchTab] from a state where every document has a history and the
    outgoing document, if there is one, can be stored. *)
Lemma switchTab_returns_switched index w w1 :
  TabManager.saveCurrentTabContent w = Returns w1 ->
  currentTabIndex (tabState w) <> index ->
  0 <= index < TabManager.tabCount w ->
  (forall tab, tab ∈ tabs (tabState w) ->
               is_Some (tabHistories (tabState w1) !! id tab)) ->
  exists tab h,
    TabManager.tabAt index w = Some tab
    /\ tabHistories (tabState w1) !! id tab = Some h
    /\ TabManager.switchTab stringify index w
       = Returns (switched stringify index tab h w1).
Proof.
  intros Hsave Hne Hidx Hh.
  destruct (tabAt_valid _ w Hidx) as [tab Htab].
  destruct (Hh tab (tabAt_elem _ _ _ Htab)) as [h Hhist].
  exists tab, h. split; [exact Htab|]. split; [exact Hhist|].
  apply switchTab_eq; assumption.
Qed.

Lemma switchTab_wellFormed index w :
  wellFormed w ->
  0 <= index < TabManager.tabCount w ->
  exists w',
    TabManager.switchTab stringify index w = Returns w'
    /\ wellFormed w'
    /\ tabs (tabState w') = tabs (tabState w)
    /\ currentTabIndex (tabState w') = index.
Proof.
  intros Hwf Hidx.
  destruct (Z.eq_dec (currentTabIndex (tabState w)) index) as [Heq|Hne].
  { exists w. unfold TabManager.switchTab. rewrite Heq, Z.eqb_refl. auto. }
  destruct (saveCurrent_wellFormed w Hwf) as (w1 & Hsave & Hwf1).
  pose proof (saveCurrent_tabs w) as [Ht _]. rewrite Hsave in Ht. simpl in Ht.
  destruct (switchTab_returns_switched index w w1 Hsave Hne Hidx)
    as (tab & h & Htab & Hh & Hsw).
  { intros tab Hin. apply Hwf1. rewrite Ht. exact Hin. }
  rewrite Hsw.
  destruct (switched_facts stringify index tab h w1) as (Hts & Hi & _ & Hhs & _).
  eexists. split; [reflexivity|]. split; [|split; [congruence|exact Hi]].
  apply (wellFormed_frame w1); [exact Hwf1|exact Hts| |].
  - rewrite Hi. unfold TabManager.tabCount in *. rewrite Ht. exact Hidx.
  - intros key Hs. rewrite Hhs, lookup_insert_is_Some.
    destruct (decide (id tab = key)); auto.
Qed.

Lemma navigate_wellFormed step w :
  wellFormed w ->
  exists w',
    TabManager.navigate step w = Returns w' /\ wellFormed w'.
Proof.
  intros Hwf. destruct (wellFormed_active w Hwf) as (tab & h & Htab & Hh & Hidx).
  unfold TabManager.navigate, activeTab in *.
  destruct (Z.eqb_spec (currentTabIndex (tabState w)) (-1)); [contradiction|].
  rewrite Htab, Hh. destruct (step h) as [h' state].
  eexists. split; [reflexivity|].
  apply (wellFormed_frame w); [exact Hwf| | |].
  - destruct state; reflexivity.
  - destruct state; apply Hwf.
  - intros key Hs.
    assert (is_Some (<[id tab := h']> (tabHistories (tabState w)) !! key)) as Hs'.
    { rewrite lookup_insert_is_Some. destruct (decide (id tab = key)); auto. }
    destruct state; exact Hs'.
Qed.

End TabSteps.

Section CloseSteps.

Variable stringify : list Tab -> string.

Lemma tabCount_afterRemoval index closed w :
  TabManager.tabAt index w = Some closed ->
  TabManager.tabCount (afterRemoval index closed w) = TabManager.tabCount w - 1.
Proof.
  intros Htab. pose proof (tabAt_range _ _ _ Htab) as [Hpos Hlt].
  unfold TabManager.tabCount in *. simpl.
  rewrite length_delete; [lia|].
  rewrite <- tabAt_lookup by exact Hpos. eauto.
Qed.

Lemma closeTab_inactive_eq index closed w :
  1 < TabManager.tabCount w ->
  TabManager.tabAt index w = Some closed ->
  index <> currentTabIndex (tabState w) ->
  TabManager.closeTab stringify index w
  = Returns (TabManager.saveTabsToStorage stringify
               (TabManager.setCurrentTabIndex (indexAfterClosing index w)
                  (afterRemoval index closed w))).
Proof.
  intros Hcount Htab Hne. pose proof (tabAt_range _ _ _ Htab) as [Hpos Hlt].
  unfold TabManager.closeTab.
  destruct (Z.leb_spec (TabManager.tabCount w) 1); [lia|].
  rewrite Htab.
  destruct (Z.eqb_spec index (currentTabIndex (tabState w))); [contradiction|].
  unfold TabManager.spliceOne.
  destruct (Z.ltb_spec index 0); [lia|].
  unfold indexAfterClosing, afterRemoval. simpl.
  destruct (index <? currentTabIndex (tabState w)); [reflexivity|].
  destruct w as [st nt pn rq sc [tb hs ix]]. reflexivity.
Qed.

Lemma closeTab_active_eq closed w :
  1 < TabManager.tabCount w ->
  activeTab w = Some closed ->
  let index := currentTabIndex (tabState w) in
  TabManager.closeTab stringify index w
  = TabManager.switchTab stringify (successorIndex index w)
      (TabManager.setCurrentTabIndex (-1)
         (TabManager.saveTabsToStorage stringify
            (TabManager.setCurrentTabIndex (successorIndex index w)
               (afterRemoval index closed w)))).
Proof.
  intros Hcount Htab. cbv zeta. unfold activeTab in Htab.
  pose proof (tabAt_range _ _ _ Htab) as [Hpos Hlt].
  pose proof (tabCount_afterRemoval _ _ _ Htab) as Hc.
  unfold TabManager.closeTab.
  destruct (Z.leb_spec (TabManager.tabCount w) 1); [lia|].
  rewrite Htab, Z.eqb_refl.
  unfold TabManager.spliceOne.
  destruct (Z.ltb_spec (currentTabIndex (tabState w)) 0); [lia|].
  fold (afterRemoval (currentTabIndex (tabState w)) closed w).
  assert (Hsucc : (if TabManager.tabCount
                        (afterRemoval (currentTabIndex (tabState w)) closed w)
                      <=? currentTabIndex (tabState w)
                   then TabManager.tabCount
                          (afterRemoval (currentTabIndex (tabState w)) closed w) - 1
                   else currentTabIndex (tabState w))
                  = successorIndex (currentTabIndex (tabState w)) w).
  { unfold successorIndex. rewrite Hc.
    destruct (Z.leb_spec (TabManager.tabCount w - 1) (currentTabIndex (tabState w)));
      [lia|reflexivity]. }
  rewrite Hsucc.
  replace (TabManager.tabCount
             (TabManager.saveTabsToStorage stringify
                (TabManager.setCurrentTabIndex
                   (successorIndex (currentTabIndex (tabState w)) w)
                   (afterRemoval (currentTabIndex (tabState w)) closed w))))
    with (TabManager.tabCount (afterRemoval (currentTabIndex (tabState w)) closed w))
    by reflexivity.
  rewrite Hsucc. reflexivity.
Qed.

(** The documents left after a removal are in good order, whatever valid
    index is then made active. *)
Lemma afterRemoval_wellFormed index closed w w' :
  wellFormed w ->
  TabManager.tabAt index w = Some closed ->
  tabs (tabState w') = tabs (tabState (afterRemoval index closed w)) ->
  tabHistories (tabState w') = tabHistories (tabState (afterRemoval index closed w)) ->
  0 <= currentTabIndex (tabState w') < TabManager.tabCount w - 1 ->
  wellFormed w'.
Proof.
  intros (Hnd & Hh & _) Htab Ht Hhs Hidx.
  pose proof (tabAt_range _ _ _ Htab) as [Hpos Hlt].
  pose proof (tabCount_afterRemoval _ _ _ Htab) as Hc.
  unfold wellFormed, TabManager.tabCount in *. rewrite Ht, Hhs. simpl in *.
  split; [|split].
  - rewrite list_fmap_delete.
    apply (sublist_NoDup _ (map id (tabs (tabState w)))); [exact Hnd|].
    apply sublist_delete.
  - intros tab Hin.
    pose proof (list_elem_of_delete_inv _ _ _ Hin) as Hin'.
    destruct (Hh tab Hin') as [Hk Hs]. split; [exact Hk|].
    rewrite lookup_delete_is_Some. split; [|exact Hs].
    intros Hid.
    apply list_elem_of_lookup in Hin as [k Hk'].
    rewrite list_lookup_delete in Hk'.
    rewrite tabAt_lookup in Htab by exact Hpos.
    assert (Heq : (if decide (k < Z.to_nat index)%nat then k else S k) = Z.to_nat index).
    { apply (NoDup_lookup (map id (tabs (tabState w))) _ _ (id tab)); [exact Hnd| |].
      - rewrite list_lookup_fmap.
        destruct (decide (k < Z.to_nat index)%nat); rewrite Hk'; reflexivity.
      - rewrite list_lookup_fmap, Htab. simpl. congruence. }
    destruct (decide (k < Z.to_nat index)%nat); lia.
  - simpl in Hc. lia.
Qed.

End CloseSteps.

Section SessionOrder.

Variable stringify : list Tab -> string.

Lemma closeTab_wellFormed index w :
  wellFormed w ->
  1 < TabManager.tabCount w ->
  0 <= index < TabManager.tabCount w ->
  exists w',
    TabManager.closeTab stringify index w = Returns w'
    /\ wellFormed w'
    /\ tabs (tabState w') = delete (Z.to_nat index) (tabs (tabState w)).
Proof.
  intros Hwf Hcount Hidx.
  destruct (tabAt_valid _ w Hidx) as [closed Htab].
  pose proof (tabCount_afterRemoval _ _ _ Htab) as Hc.
  pose proof Hwf as (Hnd & Hh & Hcur).
  destruct (Z.eq_dec index (currentTabIndex (tabState w))) as [Heq|Hne].
  - subst index.
    pose proof (closeTab_active_eq stringify closed w Hcount Htab) as Hclose.
    cbv zeta in Hclose. rewrite Hclose. clear Hclose.
    set (target := successorIndex (currentTabIndex (tabState w)) w).
    set (x := TabManager.setCurrentTabIndex (-1) _).
    assert (Htarget : 0 <= target < TabManager.tabCount w - 1).
    { subst target. unfold successorIndex.
      destruct (Z.leb_spec (TabManager.tabCount w - 1) (currentTabIndex (tabState w)));
        lia. }
    assert (Hwfx : wellFormed (TabManager.setCurrentTabIndex target x)).
    { apply (afterRemoval_wellFormed (currentTabIndex (tabState w)) closed w);
        [exact Hwf|exact Htab|reflexivity|reflexivity|exact Htarget]. }
    assert (Hsave : TabManager.saveCurrentTabContent x = Returns x) by reflexivity.
    destruct (switchTab_returns_switched stringify target x x Hsave)
      as (tab & h & Htab' & Hh' & Hsw).
    + subst x. simpl. lia.
    + unfold TabManager.tabCount in *. subst x. simpl in *. lia.
    + intros tab Hin. apply Hwfx. exact Hin.
    + rewrite Hsw.
      destruct (switched_facts stringify target tab h x) as (Hts & Hi & _ & Hhs & _).
      eexists. split; [reflexivity|]. split; [|rewrite Hts; reflexivity].
      apply (wellFormed_frame (TabManager.setCurrentTabIndex target x));
        [exact Hwfx|exact Hts| |].
      * rewrite Hi. unfold TabManager.tabCount in *. subst x. simpl in *. lia.
      * intros key Hs. rewrite Hhs, lookup_insert_is_Some.
        destruct (decide (id tab = key)); auto.
  - rewrite (closeTab_inactive_eq stringify index closed w Hcount Htab Hne).
    eexists. split; [reflexivity|]. split; [|reflexivity].
    apply (afterRemoval_wellFormed index closed w);
      [exact Hwf|exact Htab|reflexivity|reflexivity|].
    simpl. unfold indexAfterClosing.
    destruct (Z.ltb_spec index (currentTabIndex (tabState w))); lia.
Qed.

Lemma createNewTab_wellFormed now w :
  wellFormed w ->
  ("note-" +:+ pretty now) ∉ map id (tabs (tabState w)) ->
  exists w',
    TabManager.createNewTab stringify now w = Returns w'
    /\ wellFormed w'
    /\ tabs (tabState w')
       = tabs (tabState w)
         ++ [mkTab ("note-" +:+ pretty now)
                   ("Note " +:+ pretty (TabManager.tabCount w + 1))]
    /\ currentTabIndex (tabState w') = TabManager.tabCount w.
Proof.
  intros Hwf Hfresh.
  destruct (saveCurrent_wellFormed w Hwf) as (w1 & Hsave & Hwf1).
  pose proof (saveCurrent_tabs w) as (Ht & Hi & _).
  rewrite Hsave in Ht, Hi. simpl in Ht, Hi.
  unfold TabManager.createNewTab.
  destruct (Z.eqb_spec (currentTabIndex (tabState w)) (-1)) as [Hm|_];
    [destruct Hwf as (_ & _ & Hcur); lia|].
  rewrite Hsave.
  assert (Hcount : TabManager.tabCount w1 = TabManager.tabCount w).
  { unfold TabManager.tabCount. rewrite Ht. reflexivity. }
  rewrite Hcount.
  set (tab := mkTab _ _).
  set (w3 := TabManager.setHistories _ _).
  assert (Hc3 : TabManager.tabCount w3 = TabManager.tabCount w + 1).
  { unfold TabManager.tabCount. subst w3. simpl. rewrite length_app, Ht. simpl. lia. }
  assert (Hwf3 : wellFormed w3).
  { destruct Hwf1 as (Hnd & Hh & Hcur). unfold wellFormed. subst w3. simpl.
    split; [|split].
    - rewrite fmap_app. apply NoDup_app. split; [exact Hnd|]. split.
      + intros x Hx Hin. apply list_elem_of_singleton in Hin. subst x.
        apply Hfresh. rewrite <- Ht. exact Hx.
      + apply NoDup_singleton.
    - intros t Hin. rewrite lookup_insert_is_Some.
      apply elem_of_app in Hin as [Hin|Hin].
      + destruct (Hh t Hin) as [Hk Hs]. split; [exact Hk|].
        destruct (decide ("note-" +:+ pretty now = id t)); auto.
      + apply list_elem_of_singleton in Hin. subst t. simpl.
        split; [split; discriminate|auto].
    - unfold TabManager.tabCount in *. simpl. rewrite length_app. simpl. lia. }
  destruct (switchTab_wellFormed stringify (TabManager.tabCount w3 - 1) w3 Hwf3)
    as (w' & Hsw & Hwf' & Ht' & Hi'); [destruct Hwf as (_ & _ & Hcur); lia|].
  exists w'. split; [exact Hsw|]. split; [exact Hwf'|]. split.
  - rewrite Ht'. subst w3. simpl. rewrite Ht. reflexivity.
  - rewrite Hi'. lia.
Qed.

End SessionOrder.

Lemma closing_last_tab_keeps_state stringify index w :
  TabManager.tabCount w <= 1 -> TabManager.closeTab stringify index w = Returns w.
Proof.
  intros Hle. unfold TabManager.closeTab.
  destruct (Z.leb_spec (TabManager.tabCount w) 1); [reflexivity|lia].
Qed.

(** X17.  A session in good order (different document ids, a history for
    each document, a valid active index) stays in good order, and no call
    throws, under the calls the page makes on the tab manager: creating a
    tab whose id is not in use, switching to or closing any rendered tab,
    storing the note, undo, redo, and typing. *)
Theorem valid_tab_events_keep_session_in_order (h : Host) (e : event) (w : World) :
  wellFormed w ->
  validTabEvent w e ->
  exists w', run h e w = Returns w' /\ wellFormed w'.
Proof.
  intros Hwf Hvalid. destruct e; simpl in Hvalid; try contradiction; simpl.
  - destruct (createNewTab_wellFormed (stringify h) now w Hwf Hvalid)
      as (w' & Hret & Hwf' & _). eauto.
  - destruct (switchTab_wellFormed (stringify h) index w Hwf Hvalid)
      as (w' & Hret & Hwf' & _). eauto.
  - destruct (Z.le_gt_cases (TabManager.tabCount w) 1) as [Hle|Hgt].
    + rewrite closing_last_tab_keeps_state by exact Hle. eauto.
    + destruct (closeTab_wellFormed (stringify h) index w Hwf) as (w' & Hret & Hwf' & _);
        [lia|exact Hvalid|eauto].
  - destruct (saveCurrent_wellFormed w Hwf) as (w' & Hret & Hwf'). eauto.
  - apply navigate_wellFormed. exact Hwf.
  - apply navigate_wellFormed. exact Hwf.
  - eexists. split; [reflexivity|]. exact Hwf.
Qed.

Section SwitchFacts.

Variable stringify : list Tab -> string.

Lemma loadedContent_ext tabId h w w' d :
  StorageManager.getFromLocalStorage tabId d (storage w')
  = StorageManager.getFromLocalStorage tabId d (storage w) ->
  d = Js.VStr "" ->
  TabManager.loadedContent tabId h w' = TabManager.loadedContent tabId h w.
Proof. unfold TabManager.loadedContent. intros Hget ->. rewrite Hget. reflexivity. Qed.

(** [switchTab] to another document of a session in good order, spelled
    out: what is stored, what is loaded, and what each history holds
    afterwards. *)
Lemma switchTab_other index w :
  wellFormed w ->
  0 <= index < TabManager.tabCount w ->
  currentTabIndex (tabState w) <> index ->
  exists cur hc tab h w',
    activeTab w = Some cur
    /\ tabHistories (tabState w) !! id cur = Some hc
    /\ TabManager.tabAt index w = Some tab
    /\ id tab <> id cur
    /\ tabHistories (tabState w) !! id tab = Some h
    /\ TabManager.switchTab stringify index w = Returns w'
    /\ tabs (tabState w') = tabs (tabState w)
    /\ currentTabIndex (tabState w') = index
    /\ noteText w' = TabManager.loadedContent (id tab) h w
    /\ tabHistories (tabState w')
       = <[id tab := HistoryManager.mk (HistoryManager.past h) (HistoryManager.future h)
                       (TabManager.loadedContent (id tab) h w)
                       (HistoryManager.isNavigating h)]>
           (<[id cur := HistoryManager.pushState (noteText w) hc]>
              (tabHistories (tabState w)))
    /\ storage w'
       = StorageManager.saveToLocalStorage "currentTabIndex" (Js.VNum index)
           (StorageManager.saveToLocalStorage "tabs"
              (Js.VStr (stringify (tabs (tabState w))))
              (StorageManager.saveToLocalStorage (id cur) (Js.VStr (noteText w))
                 (storage w))).
Proof.
  intros Hwf Hidx Hne.
  destruct (wellFormed_active w Hwf) as (cur & hc & Hcur & Hhc & Hm).
  destruct (tabAt_valid _ w Hidx) as [tab Htab].
  pose proof Hwf as (Hnd & Hh & _).
  destruct (proj2 (Hh tab (tabAt_elem _ _ _ Htab))) as [h Hhist].
  assert (Hid : id tab <> id cur).
  { intros Heq. apply Hne. symmetry.
    apply (tabAt_inj _ _ w tab cur Hnd Htab Hcur Heq). }
  pose proof (saveCurrent_eq w cur hc Hm Hcur Hhc) as Hsave.
  set (w1 := TabManager.setHistories _ _) in Hsave.
  assert (Hh1 : tabHistories (tabState w1) !! id tab = Some h).
  { subst w1. simpl. rewrite lookup_insert_ne by congruence. exact Hhist. }
  pose proof (switchTab_eq stringify index w w1 tab h Hne Hsave Htab Hh1) as Hsw.
  destruct (switched_facts stringify index tab h w1) as (Hts & Hi & Hnote & Hhs & Hst).
  assert (Hload : TabManager.loadedContent (id tab) h w1
                  = TabManager.loadedContent (id tab) h w).
  { apply (loadedContent_ext _ _ _ _ (Js.VStr "")); [|reflexivity].
    subst w1. simpl. apply read_after_other_write. congruence. }
  exists cur, hc, tab, h, (switched stringify index tab h w1).
  rewrite Hload in Hnote, Hhs.
  split; [exact Hcur|]. split; [exact Hhc|]. split; [exact Htab|].
  split; [exact Hid|]. split; [exact Hhist|]. split; [exact Hsw|].
  split; [exact Hts|]. split; [exact Hi|]. split; [exact Hnote|].
  split; [exact Hhs|exact Hst].
Qed.

End SwitchFacts.

Lemma sampleWorld_wellFormed : wellFormed sampleWorld.
Proof.
  unfold wellFormed. simpl. split; [|split].
  - apply NoDup_cons. split; [|apply NoDup_singleton].
    intros Hin. apply list_elem_of_singleton in Hin. discriminate Hin.
  - intros tab Hin.
    apply elem_of_cons in Hin as [->|Hin];
      [|apply list_elem_of_singleton in Hin; subst tab];
      (split; [split; discriminate|vm_compute; eauto]).
  - unfold TabManager.tabCount. simpl. lia.
Qed.

Lemma valid_tab_events_keep_session_in_order_witness :
  exists w', run sampleHost (CloseTab 0) sampleWorld = Returns w' /\ wellFormed w'.
Proof.
  apply (valid_tab_events_keep_session_in_order sampleHost (CloseTab 0) sampleWorld).
  - exact sampleWorld_wellFormed.
  - change (0 <= 0 < 2). lia.
Defined.

(** X18.  Switching to another document and back brings the text back.
    In a session in good order whose active history has the suppression
    flag clear, [switchTab(j)] for another tab [j] followed by
    [switchTab] to the tab that was active both return, and the note
    element then holds the text it held before, empty or not. *)
Theorem switching_away_and_back_restores_text
    (stringify : list Tab -> string) (j : Z) (w : World) :
  wellFormed w ->
  0 <= j < TabManager.tabCount w ->
  currentTabIndex (tabState w) <> j ->
  (forall tab h, activeTab w = Some tab ->
                 tabHistories (tabState w) !! id tab = Some h ->
                 HistoryManager.isNavigating h = false) ->
  exists w1 w2,
    TabManager.switchTab stringify j w = Returns w1
    /\ TabManager.switchTab stringify (currentTabIndex (tabState w)) w1 = Returns w2
    /\ noteText w2 = noteText w
    /\ currentTabIndex (tabState w2) = currentTabIndex (tabState w)
    /\ tabs (tabState w2) = tabs (tabState w).
Proof.
  intros Hwf Hj Hne Hflag.
  destruct (switchTab_other stringify j w Hwf Hj Hne)
    as (cur & hc & tab & h & w1 & Hcur & Hhc & Htab & Hid & Hh & Hsw1
        & Ht1 & Hi1 & Hn1 & Hhs1 & Hst1).
  pose proof (Hflag cur hc Hcur Hhc) as Hnav.
  assert (Hwf1 : wellFormed w1).
  { destruct (switchTab_wellFormed stringify j w Hwf Hj) as (w1' & Hsw & Hwf1 & _).
    congruence. }
  pose proof Hwf as (_ & Hkept & Hrange).
  destruct (switchTab_other stringify (currentTabIndex (tabState w)) w1 Hwf1)
    as (cur' & hc' & tab' & h' & w2 & Hcur' & Hhc' & Htab' & Hid' & Hh' & Hsw2
        & Ht2 & Hi2 & Hn2 & _ & _).
  { unfold TabManager.tabCount in *. rewrite Ht1. exact Hrange. }
  { rewrite Hi1. congruence. }
  assert (cur' = tab).
  { unfold activeTab in Hcur'. rewrite Hi1 in Hcur'.
    rewrite (tabAt_tabs j w w1 Ht1) in Hcur'. congruence. }
  assert (tab' = cur).
  { rewrite (tabAt_tabs _ w w1 Ht1) in Htab'. unfold activeTab in Hcur. congruence. }
  subst cur' tab'.
  exists w1, w2. split; [exact Hsw1|]. split; [exact Hsw2|].
  split; [|split; [exact Hi2|congruence]].
  rewrite Hn2. rewrite Hhs1 in Hh'.
  rewrite lookup_insert_ne, lookup_insert_eq in Hh' by exact Hid.
  injection Hh' as <-.
  unfold TabManager.loadedContent, HistoryManager.pushState. rewrite Hnav. simpl.
  rewrite Hst1.
  destruct (Hkept cur (tabAt_elem _ _ _ Hcur)) as [[Hk1 Hk2] _].
  rewrite read_after_other_write by exact Hk2.
  rewrite read_after_other_write by exact Hk1.
  rewrite read_own_write.
  unfold Js.or. destruct (Js.truthy _); reflexivity.
Qed.

Lemma switching_away_and_back_restores_text_witness :
  exists w1 w2,
    TabManager.switchTab sampleStringify 0 sampleWorld = Returns w1
    /\ TabManager.switchTab sampleStringify 1 w1 = Returns w2
    /\ noteText w2 = "  some text to enrich ".
Proof.
  destruct (switching_away_and_back_restores_text sampleStringify 0 sampleWorld
              sampleWorld_wellFormed) as (w1 & w2 & H1 & H2 & H3 & _).
  - change (0 <= 0 < 2). lia.
  - discriminate.
  - intros tab h Htab Hh. vm_compute in Htab. injection Htab as <-.
    vm_compute in Hh. injection Hh as <-. reflexivity.
  - exists w1, w2. auto.
Defined.

(** X19.  Closing a tab that is not the active one, in a session in good
    order: the call returns, exactly that document leaves the list and
    the others keep their order, the same document is active afterwards
    (its index moves down by one when the closed tab was before it), the
    note element keeps its text, and only the closed document's history is
    dropped. *)
Theorem closing_an_inactive_tab_keeps_the_active_document
    (stringify : list Tab -> string) (index : Z) (w : World) :
  wellFormed w ->
  0 <= index < TabManager.tabCount w ->
  index <> currentTabIndex (tabState w) ->
  exists closed w',
    TabManager.tabAt index w = Some closed
    /\ TabManager.closeTab stringify index w = Returns w'
    /\ tabs (tabState w') = delete (Z.to_nat index) (tabs (tabState w))
    /\ activeTab w' = activeTab w
    /\ noteText w' = noteText w
    /\ tabHistories (tabState w') = delete (id closed) (tabHistories (tabState w))
    /\ wellFormed w'.
Proof.
  intros Hwf Hidx Hne. pose proof Hwf as (_ & _ & Hcur).
  destruct (tabAt_valid _ w Hidx) as [closed Htab].
  assert (Hcount : 1 < TabManager.tabCount w) by lia.
  exists closed. eexists. split; [exact Htab|].
  split; [apply (closeTab_inactive_eq stringify index closed w Hcount Htab Hne)|].
  split; [reflexivity|]. split; [|split; [reflexivity|split; [reflexivity|]]].
  - unfold activeTab. rewrite !tabAt_lookup; simpl; unfold indexAfterClosing;
      [|lia|destruct (Z.ltb_spec index (currentTabIndex (tabState w))); lia].
    destruct (Z.ltb_spec index (currentTabIndex (tabState w))).
    + rewrite list_lookup_delete_ge by lia. f_equal. lia.
    + rewrite list_lookup_delete_lt by lia. reflexivity.
  - apply (afterRemoval_wellFormed index closed w);
      [exact Hwf|exact Htab|reflexivity|reflexivity|].
    simpl. unfold indexAfterClosing.
    destruct (Z.ltb_spec index (currentTabIndex (tabState w))); lia.
Qed.

Lemma closing_an_inactive_tab_keeps_the_active_document_witness :
  exists closed w',
    TabManager.tabAt 0 sampleWorld = Some closed
    /\ TabManager.closeTab sampleStringify 0 sampleWorld = Returns w'
    /\ activeTab w' = activeTab sampleWorld.
Proof.
  destruct (closing_an_inactive_tab_keeps_the_active_document sampleStringify 0
              sampleWorld sampleWorld_wellFormed)
    as (closed & w' & H1 & H2 & _ & H3 & _).
  - change (0 <= 0 < 2). lia.
  - discriminate.
  - exists closed, w'. auto.
Defined.

(** X20.  Closing the active tab of a session of two or more documents
    in good order: the call returns, the document leaves the list, and the
    document that followed it becomes active, or the one before it when it
    was the last.  The note element is loaded with that document's
    history [current] when that is non-empty and with its stored content
    otherwise; the text the note element held for the closed document is
    not stored. *)
Theorem closing_the_active_tab_activates_its_neighbour
    (stringify : list Tab -> string) (w : World) :
  wellFormed w ->
  1 < TabManager.tabCount w ->
  let index := currentTabIndex (tabState w) in
  let neighbour := if index <? TabManager.tabCount w - 1 then index + 1 else index - 1 in
  exists closed next h w',
    activeTab w = Some closed
    /\ TabManager.tabAt neighbour w = Some next
    /\ tabHistories (tabState w) !! id next = Some h
    /\ TabManager.closeTab stringify index w = Returns w'
    /\ tabs (tabState w') = delete (Z.to_nat index) (tabs (tabState w))
    /\ activeTab w' = Some next
    /\ noteText w'
       = TabManager.loadedContent (id next) h (afterRemoval index closed w)
    /\ StorageManager.absent (id closed) (storage w')
    /\ wellFormed w'.
Proof.
  intros Hwf Hcount. cbv zeta.
  pose proof Hwf as (Hnd & Hkept & Hcur).
  destruct (wellFormed_active w Hwf) as (closed & hc & Hclosed & _ & _).
  pose proof Hclosed as Htab. unfold activeTab in Htab.
  pose proof (closeTab_active_eq stringify closed w Hcount Hclosed) as Hclose.
  cbv zeta in Hclose.
  destruct (closeTab_wellFormed stringify (currentTabIndex (tabState w)) w Hwf Hcount
              Hcur) as (w' & Hret & Hwf' & Ht').
  set (index := currentTabIndex (tabState w)) in *.
  set (target := successorIndex index w) in *.
  set (x := TabManager.setCurrentTabIndex (-1) _) in Hclose.
  assert (Htarget : 0 <= target < TabManager.tabCount w - 1).
  { subst target. unfold successorIndex.
    destruct (Z.leb_spec (TabManager.tabCount w - 1) index); lia. }
  assert (Hwfx : wellFormed (TabManager.setCurrentTabIndex target x)).
  { apply (afterRemoval_wellFormed index closed w);
      [exact Hwf|exact Htab|reflexivity|reflexivity|exact Htarget]. }
  assert (Hsave : TabManager.saveCurrentTabContent x = Returns x) by reflexivity.
  destruct (switchTab_returns_switched stringify target x x Hsave)
    as (next & h & Hnext & Hh & Hsw).
  { subst x. simpl. lia. }
  { unfold TabManager.tabCount in *. subst x. simpl in *.
    rewrite length_delete; [lia|].
    rewrite <- tabAt_lookup by lia. eauto. }
  { intros tab Hin. apply Hwfx. exact Hin. }
  rewrite Hclose, Hsw in Hret. injection Hret as <-.
  destruct (switched_facts stringify target next h x) as (Hts & Hi & Hnote & _ & Hst).
  assert (Hnext' : TabManager.tabAt
                     (if index <? TabManager.tabCount w - 1 then index + 1 else index - 1)
                     w = Some next).
  { rewrite tabAt_lookup in Hnext by lia. subst x. simpl in Hnext.
    subst target. unfold successorIndex in Hnext.
    destruct (Z.ltb_spec index (TabManager.tabCount w - 1));
      destruct (Z.leb_spec (TabManager.tabCount w - 1) index); try lia;
      rewrite tabAt_lookup by lia.
    - rewrite list_lookup_delete_ge in Hnext by lia. rewrite <- Hnext. f_equal. lia.
    - rewrite list_lookup_delete_lt in Hnext by lia. rewrite <- Hnext. f_equal. lia. }
  assert (Hid : id closed <> id next).
  { intros Heq.
    pose proof (tabAt_inj _ _ w closed next Hnd Htab Hnext' Heq) as Hij.
    destruct (index <? TabManager.tabCount w - 1); lia. }
  destruct (Hkept next (tabAt_elem _ _ _ Hnext')) as [[Hk1 Hk2] _].
  exists closed, next, h, (switched stringify target next h x).
  split; [exact Hclosed|]. split; [exact Hnext'|]. split.
  { subst x. simpl in Hh. rewrite lookup_delete_ne in Hh by exact Hid. exact Hh. }
  split; [rewrite Hclose; exact Hsw|]. split; [exact Ht'|]. split.
  { unfold activeTab. rewrite Hi.
    rewrite (tabAt_tabs target x (switched stringify target next h x) Hts).
    exact Hnext. }
  split.
  { rewrite Hnote.
    apply (loadedContent_ext _ _ _ _ (Js.VStr "")); [|reflexivity].
    subst x. simpl.
    rewrite read_after_other_write by exact Hk2.
    rewrite read_after_other_write by exact Hk1. reflexivity. }
  split; [|exact Hwf'].
  destruct (Hkept closed (tabAt_elem _ _ _ Htab)) as [Hkc _].
  pose proof (closeTab_removes_keys stringify index w closed Hcount Htab Hkc) as Hrem.
  cbv zeta in Hrem. rewrite Hclose, Hsw in Hrem. apply Hrem.
Qed.

Lemma closing_the_active_tab_activates_its_neighbour_witness :
  exists closed next h w',
    activeTab sampleWorld = Some closed
    /\ TabManager.tabAt 0 sampleWorld = Some next
    /\ tabHistories (tabState sampleWorld) !! id next = Some h
    /\ TabManager.closeTab sampleStringify 1 sampleWorld = Returns w'
    /\ activeTab w' = Some next.
Proof.
  destruct (closing_the_active_tab_activates_its_neighbour sampleStringify sampleWorld
              sampleWorld_wellFormed)
    as (closed & next & h & w' & H1 & H2 & H3 & H4 & _ & H5 & _).
  - change (1 < 2). lia.
  - exists closed, next, h, w'. auto.
Defined.

Section CreateFacts.

Variable stringify : list Tab -> string.

Lemma createNewTab_steps now w cur hc :
  wellFormed w ->
  ("note-" +:+ pretty now) ∉ map id (tabs (tabState w)) ->
  activeTab w = Some cur ->
  tabHistories (tabState w) !! id cur = Some hc ->
  let tab := mkTab ("note-" +:+ pretty now)
                   ("Note " +:+ pretty (TabManager.tabCount w + 1)) in
  let w1 :=
    TabManager.setHistories
      <[id cur := HistoryManager.pushState (noteText w) hc]>
      (withStorage (StorageManager.saveToLocalStorage (id cur) (Js.VStr (noteText w)))
         w) in
  let w3 :=
    TabManager.setHistories <[id tab := HistoryManager.new]>
      (TabManager.setTabs (tabs (tabState w) ++ [tab]) w1) in
  TabManager.createNewTab stringify now w
  = TabManager.switchTab stringify (TabManager.tabCount w) w3
  /\ wellFormed w3
  /\ TabManager.tabAt (TabManager.tabCount w) w3 = Some tab
  /\ activeTab w3 = Some cur.
Proof.
  intros Hwf Hfresh Hcur Hhc. cbv zeta.
  pose proof Hwf as (Hnd & Hkept & Hrange).
  assert (Hm : currentTabIndex (tabState w) <> -1) by lia.
  split; [|split; [|split]].
  - unfold TabManager.createNewTab.
    destruct (Z.eqb_spec (currentTabIndex (tabState w)) (-1)) as [|_]; [contradiction|].
    rewrite (saveCurrent_eq w cur hc Hm Hcur Hhc). cbv zeta.
    set (w3 := TabManager.setHistories _ (TabManager.setTabs _ _)).
    assert (Hc3 : TabManager.tabCount w3 - 1 = TabManager.tabCount w).
    { unfold TabManager.tabCount. subst w3. simpl. rewrite length_app. simpl. lia. }
    rewrite Hc3. reflexivity.
  - unfold wellFormed. simpl. split; [|split].
    + rewrite fmap_app. apply NoDup_app. split; [exact Hnd|]. split.
      * intros x Hx Hin. apply list_elem_of_singleton in Hin. subst x.
        apply Hfresh. exact Hx.
      * apply NoDup_singleton.
    + intros t Hin. rewrite !lookup_insert_is_Some.
      apply elem_of_app in Hin as [Hin|Hin].
      * destruct (Hkept t Hin) as [Hk Hs]. split; [exact Hk|].
        destruct (decide ("note-" +:+ pretty now = id t)); [auto|].
        right. split; [assumption|].
        destruct (decide (id cur = id t)); auto.
      * apply list_elem_of_singleton in Hin. subst t. simpl.
        split; [split; discriminate|auto].
    + unfold TabManager.tabCount in *. simpl. rewrite length_app. simpl. lia.
  - rewrite tabAt_lookup by (unfold TabManager.tabCount; lia). simpl.
    unfold TabManager.tabCount. rewrite Nat2Z.id.
    rewrite lookup_app_r by lia. rewrite Nat.sub_diag. reflexivity.
  - unfold activeTab in *. rewrite tabAt_lookup in Hcur by lia.
    rewrite tabAt_lookup by (simpl; lia). simpl.
    rewrite lookup_app_l; [exact Hcur|]. unfold TabManager.tabCount in Hrange. lia.
Qed.

End CreateFacts.

(** X21.  Creating a tab in a session in good order, with a time stamp
    whose id is not in use: the call returns, the new document is added
    at the end with the title "Note n+1" and becomes the active one with
    a fresh history, and the text the note element held is stored under
    the id of the document that was active.  The note element is loaded
    with whatever the store holds under the new id, which is the empty
    text when it holds nothing. *)
Theorem new_tab_is_appended_and_activated
    (stringify : list Tab -> string) (now : Z) (w : World) :
  wellFormed w ->
  let tab := mkTab ("note-" +:+ pretty now)
                   ("Note " +:+ pretty (TabManager.tabCount w + 1)) in
  id tab ∉ map id (tabs (tabState w)) ->
  exists cur w',
    activeTab w = Some cur
    /\ TabManager.createNewTab stringify now w = Returns w'
    /\ tabs (tabState w') = tabs (tabState w) ++ [tab]
    /\ activeTab w' = Some tab
    /\ tabHistories (tabState w') !! id tab
       = Some (HistoryManager.mk [] [] (noteText w') false)
    /\ noteText w'
       = Js.toString
           (StorageManager.getFromLocalStorage (id tab) (Js.VStr "") (storage w))
    /\ (StorageManager.absent (id tab) (storage w) -> noteText w' = "")
    /\ StorageManager.getFromLocalStorage (id cur) Js.VNull (storage w')
       = Js.VStr (noteText w).
Proof.
  intros Hwf tab Hfresh.
  destruct (wellFormed_active w Hwf) as (cur & hc & Hcur & Hhc & Hm).
  destruct (createNewTab_steps stringify now w cur hc Hwf Hfresh Hcur Hhc)
    as (Hcreate & Hwf3 & Htab3 & Hcur3).
  cbv zeta in Hcreate, Hwf3, Htab3, Hcur3. fold tab in Hcreate, Hwf3, Htab3, Hcur3.
  set (w3 := TabManager.setHistories _ (TabManager.setTabs _ _)) in *.
  pose proof Hwf as (_ & Hkept & Hrange).
  assert (Hc3 : TabManager.tabCount w3 = TabManager.tabCount w + 1).
  { unfold TabManager.tabCount. subst w3. simpl. rewrite length_app. simpl. lia. }
  destruct (switchTab_other stringify (TabManager.tabCount w) w3 Hwf3)
    as (cur' & hc' & tab' & h' & w' & Hcur' & Hhc' & Htab' & Hne & Hh' & Hsw & Hts
        & Hi & Hnote & Hhist & Hst); [lia|subst w3; simpl; lia|].
  rewrite Hcur3 in Hcur'. injection Hcur' as <-.
  rewrite Htab3 in Htab'. injection Htab' as <-.
  assert (Hnew : h' = HistoryManager.new).
  { subst w3. simpl in Hh'. rewrite lookup_insert_eq in Hh'. congruence. }
  subst h'.
  destruct (Hkept cur (tabAt_elem _ _ _ Hcur)) as [[Hk1 Hk2] _].
  assert (Hload : TabManager.loadedContent (id tab) HistoryManager.new w3
                  = Js.toString
                      (StorageManager.getFromLocalStorage (id tab) (Js.VStr "")
                         (storage w))).
  { unfold TabManager.loadedContent. subst w3. simpl Js.or.
    rewrite read_after_other_write by (intros Heq; apply Hne; symmetry; exact Heq).
    reflexivity. }
  exists cur, w'. split; [exact Hcur|]. split; [rewrite Hcreate; exact Hsw|].
  split; [rewrite Hts; reflexivity|]. split.
  { unfold activeTab. rewrite Hi, (tabAt_tabs _ w3 w' Hts). exact Htab3. }
  split; [rewrite Hhist, lookup_insert_eq, Hnote; reflexivity|].
  split; [rewrite Hnote; exact Hload|]. split.
  { intros Habs. rewrite Hnote, Hload, absent_reads_default by exact Habs. reflexivity. }
  rewrite Hst.
  rewrite read_after_other_write by exact Hk2.
  rewrite read_after_other_write by exact Hk1.
  rewrite read_own_write. reflexivity.
Qed.

Lemma new_tab_is_appended_and_activated_witness :
  exists w',
    TabManager.createNewTab sampleStringify 3 sampleWorld = Returns w'
    /\ activeTab w' = Some (mkTab "note-3" "Note 3")
    /\ noteText w' = "".
Proof.
  assert (Hfresh : "note-3" ∉ map id (tabs (tabState sampleWorld))).
  { intros Hin. vm_compute in Hin.
    repeat (apply elem_of_cons in Hin as [Hin|Hin]; [discriminate Hin|]).
    inversion Hin. }
  assert (Habs : StorageManager.absent "note-3" (storage sampleWorld))
    by (split; vm_compute; reflexivity).
  destruct (new_tab_is_appended_and_activated sampleStringify 3 sampleWorld
              sampleWorld_wellFormed Hfresh)
    as (cur & w' & _ & H1 & _ & H2 & _ & _ & H3 & _).
  exists w'. split; [exact H1|]. split; [exact H2|]. exact (H3 Habs).
Defined.

(** X22.  Undo and redo on the note element.  When the active document's
    history is ready to record and the text in the note element differs
    from its [current] enough to be recorded, storing the note and then
    calling [undo()] puts the earlier text back into the note element,
    and [redo()] after that puts the stored text back. *)
Theorem stored_edit_is_undone_in_the_note
    (h : Host) (w : World) (cur : Tab) (hc : HistoryManager.t) :
  wellFormed w ->
  activeTab w = Some cur ->
  tabHistories (tabState w) !! id cur = Some hc ->
  HistoryManager.isNavigating hc = false ->
  HistoryManager.records hc (noteText w) = true ->
  exists w1 w2 w3,
    run h SaveCurrentTabContent w = Returns w1
    /\ run h Undo w1 = Returns w2
    /\ noteText w2 = HistoryManager.current hc
    /\ run h Redo w2 = Returns w3
    /\ noteText w3 = noteText w.
Proof.
  intros Hwf Hcur Hhc Hnav Hrec.
  pose proof Hwf as (_ & _ & Hrange).
  assert (Hm : currentTabIndex (tabState w) <> -1) by lia.
  assert (Hmb : (currentTabIndex (tabState w) =? -1) = false)
    by (apply Z.eqb_neq; exact Hm).
  pose proof (saveCurrent_eq w cur hc Hm Hcur Hhc) as Hsave.
  set (w1 := TabManager.setHistories _ _) in Hsave.
  assert (Hpush : HistoryManager.pushState (noteText w) hc
                  = HistoryManager.mk
                      (HistoryManager.pushBounded (HistoryManager.past hc)
                         (HistoryManager.current hc))
                      [] (noteText w) false).
  { unfold HistoryManager.pushState. rewrite Hnav, Hrec. reflexivity. }
  assert (Hundo : TabManager.undo w1
                  = Returns (withNoteText (HistoryManager.current hc)
                               (TabManager.setHistories
                                  <[id cur :=
                                      fst (HistoryManager.undo
                                             (HistoryManager.pushState (noteText w) hc))]>
                                  w1))).
  { unfold TabManager.undo, TabManager.navigate.
    change (currentTabIndex (tabState w1)) with (currentTabIndex (tabState w)).
    rewrite Hmb.
    change (TabManager.tabAt (currentTabIndex (tabState w)) w1) with (activeTab w).
    rewrite Hcur. subst w1. simpl tabHistories. rewrite lookup_insert_eq.
    rewrite Hpush. unfold HistoryManager.undo. simpl HistoryManager.past.
    rewrite pushBounded_last. reflexivity. }
  set (w2 := withNoteText _ _) in Hundo.
  exists w1, w2. eexists. split; [exact Hsave|]. split; [exact Hundo|].
  split; [reflexivity|]. split.
  - cbv [run]. unfold TabManager.redo, TabManager.navigate.
    change (currentTabIndex (tabState w2)) with (currentTabIndex (tabState w)).
    rewrite Hmb.
    change (TabManager.tabAt (currentTabIndex (tabState w)) w2) with (activeTab w).
    rewrite Hcur. subst w2. simpl tabHistories. rewrite lookup_insert_eq.
    rewrite undo_redo.
    + reflexivity.
    + rewrite Hpush. simpl. intros Hnil.
      pose proof (pushBounded_last (HistoryManager.past hc) (HistoryManager.current hc))
        as Hlast.
      rewrite Hnil in Hlast. discriminate Hlast.
  - rewrite Hpush. reflexivity.
Qed.

Lemma stored_edit_is_undone_in_the_note_witness :
  exists w1 w2 w3,
    run sampleHost SaveCurrentTabContent draftWorld = Returns w1
    /\ run sampleHost Undo w1 = Returns w2
    /\ noteText w2 = "first note"
    /\ run sampleHost Redo w2 = Returns w3
    /\ noteText w3 = "first note, with more words".
Proof.
  assert (Hwf : wellFormed draftWorld).
  { destruct sampleWorld_wellFormed as (Hnd & Hkept & _).
    split; [exact Hnd|]. split; [exact Hkept|]. change (0 <= 0 < 2). lia. }
  exact (stored_edit_is_undone_in_the_note sampleHost draftWorld
           (mkTab "note-1" "Note 1") (HistoryManager.mk [] [] "first note" false)
           Hwf eq_refl eq_refl eq_refl eq_refl).
Defined.

Section RestoreFacts.

Variable stringify : list Tab -> string.
Variable parseTabs : string -> option (list Tab).
Variable parseInt : string -> option Z.

Lemma restore_histories (saved : list Tab) : forall w,
  let w' :=
    foldl (fun acc tab =>
             TabManager.setHistories
               <[id tab := TabManager.restoredHistory acc tab]> acc) w saved in
  storage w' = storage w
  /\ noteText w' = noteText w
  /\ forall key,
       tabHistories (tabState w') !! key
       = if decide (key ∈ map id saved)
         then Some (HistoryManager.mk [] [] (storedText key (storage w)) false)
         else tabHistories (tabState w) !! key.
Proof.
  induction saved as [|t saved IH]; intros w; simpl.
  - split; [reflexivity|]. split; [reflexivity|]. intros key.
    destruct (decide (key ∈ [])) as [Hin|_]; [inversion Hin|reflexivity].
  - destruct (IH (TabManager.setHistories
                    <[id t := TabManager.restoredHistory w t]> w)) as (Hs & Hn & Hh).
    split; [rewrite Hs; reflexivity|]. split; [rewrite Hn; reflexivity|].
    intros key. rewrite Hh. simpl.
    destruct (decide (key ∈ map id saved)) as [Hin|Hin].
    + rewrite decide_True by (right; exact Hin). reflexivity.
    + destruct (decide (key = id t)) as [->|Hne].
      * rewrite decide_True by left. rewrite lookup_insert_eq. reflexivity.
      * rewrite decide_False by (intros Hc; apply elem_of_cons in Hc as [?|?]; auto).
        apply lookup_insert_ne. auto.
Qed.

Lemma loaded_restored tabId w :
  TabManager.loadedContent tabId
    (HistoryManager.mk [] [] (storedText tabId (storage w)) false) w
  = storedText tabId (storage w).
Proof.
  unfold TabManager.loadedContent, storedText, Js.or. simpl.
  destruct (negb _); reflexivity.
Qed.

Lemma first_switch index w tab h :
  currentTabIndex (tabState w) = -1 ->
  0 <= index ->
  TabManager.tabAt index w = Some tab ->
  tabHistories (tabState w) !! id tab = Some h ->
  TabManager.switchTab stringify index w = Returns (switched stringify index tab h w).
Proof.
  intros Hm Hpos Htab Hh.
  apply switchTab_eq; [lia| |exact Htab|exact Hh].
  unfold TabManager.saveCurrentTabContent. rewrite Hm. reflexivity.
Qed.

Lemma constructor_restore now w0 saved :
  let s := storage w0 in
  let savedTabs := StorageManager.getFromLocalStorage "tabs" Js.VNull s in
  Js.truthy savedTabs = true ->
  parseTabs (Js.toString savedTabs) = Some saved ->
  saved <> [] ->
  let index := restoredIndex parseInt (Z.of_nat (length saved)) s in
  exists tab w',
    saved !! Z.to_nat index = Some tab
    /\ TabManager.constructor stringify parseTabs parseInt now w0 = Returns w'
    /\ tabs (tabState w') = saved
    /\ currentTabIndex (tabState w') = index
    /\ noteText w' = storedText (id tab) s
    /\ (forall key,
          tabHistories (tabState w') !! key
          = if decide (key ∈ map id saved)
            then Some (HistoryManager.mk [] [] (storedText key s) false)
            else None)
    /\ storage w'
       = StorageManager.saveToLocalStorage "currentTabIndex" (Js.VNum index)
           (StorageManager.saveToLocalStorage "tabs" (Js.VStr (stringify saved)) s).
Proof.
  intros s savedTabs Htruthy Hparse Hne index.
  set (w := withTabState (fun _ => TabManager.new) w0).
  set (w2 := foldl (fun acc tab =>
                      TabManager.setHistories
                        <[id tab := TabManager.restoredHistory acc tab]> acc)
                   (TabManager.setTabs saved w) saved).
  pose proof (restore_frame saved (TabManager.setTabs saved w)) as [Hidx Htabs].
  pose proof (restore_histories saved (TabManager.setTabs saved w)) as (Hst & Hnote & Hh).
  cbv zeta in Hidx, Htabs, Hst, Hnote, Hh. fold w2 in Hidx, Htabs, Hst, Hnote, Hh.
  simpl in Hidx, Htabs, Hst, Hnote.
  assert (Hcount : TabManager.tabCount w2 = Z.of_nat (length saved)).
  { unfold TabManager.tabCount. rewrite Htabs. reflexivity. }
  assert (Hctor : TabManager.constructor stringify parseTabs parseInt now w0
                  = TabManager.switchTab stringify index w2).
  { unfold TabManager.constructor. fold w. change (storage w) with s. fold savedTabs.
    rewrite Htruthy, Hparse. cbv zeta. fold w2. rewrite Hcount.
    subst index. unfold restoredIndex.
    destruct (parseInt _) as [i|]; [|reflexivity].
    destruct ((0 <=? i) && (i <? Z.of_nat (length saved))); reflexivity. }
  assert (Hrange : 0 <= index < Z.of_nat (length saved)).
  { assert (0 < length saved)%nat by (destruct saved; [contradiction|simpl; lia]).
    subst index. unfold restoredIndex.
    destruct (parseInt _) as [i|]; [|lia].
    destruct (Z.leb_spec 0 i); simpl; [|lia].
    destruct (Z.ltb_spec i (Z.of_nat (length saved))); lia. }
  destruct (tabAt_valid index w2) as [tab Htab]; [rewrite Hcount; exact Hrange|].
  assert (Hlook : saved !! Z.to_nat index = Some tab).
  { rewrite tabAt_lookup in Htab by lia. rewrite Htabs in Htab. exact Htab. }
  assert (Hin : id tab ∈ map id saved).
  { apply list_elem_of_fmap. exists tab. split; [reflexivity|].
    apply (list_elem_of_lookup_2 _ _ _ Hlook). }
  assert (Hhtab : tabHistories (tabState w2) !! id tab
                  = Some (HistoryManager.mk [] [] (storedText (id tab) s) false)).
  { rewrite Hh. rewrite decide_True by exact Hin. reflexivity. }
  pose proof (first_switch index w2 tab _ Hidx (proj1 Hrange) Htab Hhtab) as Hsw.
  destruct (switched_facts stringify index tab
              (HistoryManager.mk [] [] (storedText (id tab) s) false) w2)
    as (Hts & Hi & Hn & Hhs & Hss).
  assert (Hload : TabManager.loadedContent (id tab)
                    (HistoryManager.mk [] [] (storedText (id tab) s) false) w2
                  = storedText (id tab) s).
  { unfold s. rewrite <- Hst. apply loaded_restored. }
  exists tab. eexists. split; [exact Hlook|]. split; [rewrite Hctor; exact Hsw|].
  split; [rewrite Hts; exact Htabs|]. split; [exact Hi|].
  split; [rewrite Hn; exact Hload|]. split.
  - intros key. rewrite Hhs, Hload. simpl.
    destruct (decide (key = id tab)) as [->|Hk].
    + rewrite lookup_insert_eq, decide_True by exact Hin. reflexivity.
    + rewrite lookup_insert_ne by auto. rewrite Hh. simpl.
      destruct (decide (key ∈ map id saved)); [reflexivity|apply lookup_empty].
  - rewrite Hss, Htabs, Hst. reflexivity.
Qed.

Lemma restored_wellFormed w saved :
  tabs (tabState w) = saved ->
  0 <= currentTabIndex (tabState w) < Z.of_nat (length saved) ->
  (forall key,
     key ∈ map id saved -> is_Some (tabHistories (tabState w) !! key)) ->
  NoDup (map id saved) ->
  (forall tab, tab ∈ saved -> keptBySession (id tab)) ->
  wellFormed w.
Proof.
  intros Ht Hi Hh Hnd Hk. unfold wellFormed, TabManager.tabCount. rewrite Ht.
  split; [exact Hnd|]. split; [|exact Hi].
  intros tab Hin. split; [apply Hk; exact Hin|].
  apply Hh. apply list_elem_of_fmap. exists tab. auto.
Qed.

End RestoreFacts.

(** X23.  The constructor on a store that holds a saved document list
    (a truthy value under "tabs" that [JSON.parse] reads as a non-empty
    list): it returns with that list, activates the saved index when
    [parseInt] reads it as an index into the list and the first document
    otherwise, gives every document a history with empty stacks whose
    [current] is the document's stored text, shows the active document's
    stored text in the note element, and queues the list and the index
    for writing again.  When the saved ids differ from each other and
    from the two session keys, the session is in good order. *)
Theorem saved_session_is_restored
    (stringify : list Tab -> string) (parseTabs : string -> option (list Tab))
    (parseInt : string -> option Z) (now : Z) (w0 : World) (saved : list Tab) :
  let s := storage w0 in
  let savedTabs := StorageManager.getFromLocalStorage "tabs" Js.VNull s in
  Js.truthy savedTabs = true ->
  parseTabs (Js.toString savedTabs) = Some saved ->
  saved <> [] ->
  let index := restoredIndex parseInt (Z.of_nat (length saved)) s in
  exists tab w',
    saved !! Z.to_nat index = Some tab
    /\ TabManager.constructor stringify parseTabs parseInt now w0 = Returns w'
    /\ tabs (tabState w') = saved
    /\ currentTabIndex (tabState w') = index
    /\ noteText w' = storedText (id tab) s
    /\ (forall t, t ∈ saved ->
          tabHistories (tabState w') !! id t
          = Some (HistoryManager.mk [] [] (storedText (id t) s) false))
    /\ storage w'
       = StorageManager.saveToLocalStorage "currentTabIndex" (Js.VNum index)
           (StorageManager.saveToLocalStorage "tabs" (Js.VStr (stringify saved)) s)
    /\ (NoDup (map id saved) ->
        (forall t, t ∈ saved -> keptBySession (id t)) ->
        wellFormed w').
Proof.
  intros s savedTabs Htruthy Hparse Hne index.
  destruct (constructor_restore stringify parseTabs parseInt now w0 saved
              Htruthy Hparse Hne)
    as (tab & w' & Hlook & Hret & Hts & Hi & Hn & Hh & Hst).
  fold s in Hlook, Hi, Hn, Hh, Hst. fold index in Hlook, Hi, Hst.
  assert (Hin : forall t, t ∈ saved -> id t ∈ map id saved).
  { intros t Ht. apply list_elem_of_fmap. exists t. auto. }
  exists tab, w'. repeat (split; [assumption|]).
  split; [|split; [exact Hst|]].
  - intros t Ht. rewrite Hh, decide_True by (apply Hin; exact Ht). reflexivity.
  - intros Hnd Hk. apply (restored_wellFormed w' saved Hts); [|intros key Hkey|exact Hnd|exact Hk].
    + rewrite Hi. apply lookup_lt_Some in Hlook.
      assert (0 <= index); [|lia].
      subst index. unfold restoredIndex.
      destruct (parseInt _) as [i|]; [|lia].
      destruct (Z.leb_spec 0 i); simpl; [|lia].
      destruct (i <? _); lia.
    + rewrite Hh, decide_True by exact Hkey. eauto.
Qed.

Lemma saved_session_is_restored_witness :
  exists w',
    TabManager.constructor sampleStringify sampleParseTabs sampleParseInt 5 reloadedPage
    = Returns w'
    /\ currentTabIndex (tabState w') = 1
    /\ noteText w' = "second note".
Proof.
  assert (Htruthy : Js.truthy (StorageManager.getFromLocalStorage "tabs" Js.VNull
                                 (storage reloadedPage)) = true)
    by (vm_compute; reflexivity).
  assert (Hparse : sampleParseTabs
                     (Js.toString (StorageManager.getFromLocalStorage "tabs" Js.VNull
                                     (storage reloadedPage)))
                   = Some [mkTab "note-1" "Note 1"; mkTab "note-2" "Note 2"])
    by (vm_compute; reflexivity).
  assert (Hindex : restoredIndex sampleParseInt 2 (storage reloadedPage) = 1)
    by (vm_compute; reflexivity).
  assert (Htext : storedText "note-2" (storage reloadedPage) = "second note")
    by (vm_compute; reflexivity).
  destruct (saved_session_is_restored sampleStringify sampleParseTabs sampleParseInt 5
              reloadedPage _ Htruthy Hparse)
    as (tab & w' & Hlook & Hret & _ & Hi & Hn & _); [discriminate|].
  change (Z.of_nat (length [mkTab "note-1" "Note 1"; mkTab "note-2" "Note 2"]))
    with 2 in Hlook, Hi.
  rewrite Hindex in Hlook, Hi. injection Hlook as <-.
  exists w'. split; [exact Hret|]. split; [exact Hi|].
  rewrite Hn. exact Htext.
Defined.

(** X24.  The constructor on a store without a saved document list (no
    value, or a falsy one, under "tabs"): it returns with exactly one
    document, titled "Note 1" and named after the time stamp, active at
    index 0 with a history of empty stacks, and the session is in good
    order.  The note element shows what the store holds under the new
    id, the empty text when it holds nothing. *)
Theorem first_load_opens_one_document
    (stringify : list Tab -> string) (parseTabs : string -> option (list Tab))
    (parseInt : string -> option Z) (now : Z) (w0 : World) :
  Js.truthy (StorageManager.getFromLocalStorage "tabs" Js.VNull (storage w0)) = false ->
  let tab := mkTab ("note-" +:+ pretty now) "Note 1" in
  exists w',
    TabManager.constructor stringify parseTabs parseInt now w0 = Returns w'
    /\ tabs (tabState w') = [tab]
    /\ currentTabIndex (tabState w') = 0
    /\ noteText w' = storedText (id tab) (storage w0)
    /\ (StorageManager.absent (id tab) (storage w0) -> noteText w' = "")
    /\ tabHistories (tabState w') = {[ id tab := HistoryManager.mk [] [] (noteText w') false ]}
    /\ wellFormed w'.
Proof.
  intros Hfalsy tab.
  set (w := withTabState (fun _ => TabManager.new) w0).
  set (w3 := TabManager.setHistories <[id tab := HistoryManager.new]>
               (TabManager.setTabs [tab] w)).
  assert (Hctor : TabManager.constructor stringify parseTabs parseInt now w0
                  = TabManager.switchTab stringify 0 w3).
  { unfold TabManager.constructor. fold w. change (storage w) with (storage w0).
    rewrite Hfalsy. reflexivity. }
  assert (Hsw : TabManager.switchTab stringify 0 w3
                = Returns (switched stringify 0 tab HistoryManager.new w3)).
  { apply first_switch; [reflexivity|lia|reflexivity|].
    subst w3. simpl. apply lookup_insert_eq. }
  destruct (switched_facts stringify 0 tab HistoryManager.new w3)
    as (Hts & Hi & Hn & Hhs & Hss).
  assert (Hload : TabManager.loadedContent (id tab) HistoryManager.new w3
                  = storedText (id tab) (storage w0)) by reflexivity.
  eexists. split; [rewrite Hctor; exact Hsw|].
  split; [exact Hts|]. split; [exact Hi|]. split; [rewrite Hn; exact Hload|].
  split; [|split].
  - intros Habs. rewrite Hn, Hload. unfold storedText.
    rewrite absent_reads_default by exact Habs. reflexivity.
  - rewrite Hhs, Hn. subst w3. simpl. rewrite insert_insert_eq. reflexivity.
  - unfold wellFormed, TabManager.tabCount. rewrite Hts, Hi, Hhs. subst w3. simpl.
    split; [apply NoDup_singleton|]. split; [|lia].
    intros t Hin. apply list_elem_of_singleton in Hin. subst t.
    split; [split; discriminate|]. rewrite lookup_insert_eq. eauto.
Qed.

Lemma first_load_opens_one_document_witness :
  exists w',
    TabManager.constructor sampleStringify sampleParseTabs sampleParseInt 7 blankPage
    = Returns w'
    /\ tabs (tabState w') = [mkTab "note-7" "Note 1"]
    /\ noteText w' = "".
Proof.
  destruct (first_load_opens_one_document sampleStringify sampleParseTabs sampleParseInt
              7 blankPage eq_refl)
    as (w' & Hret & Hts & _ & _ & Hn & _).
  exists w'. split; [exact Hret|]. split; [exact Hts|].
  apply Hn. split; reflexivity.
Defined.

Lemma pretty_N_go_length (x : N) : forall s,
  (String.length s <= String.length (pretty_N_go x s))%nat.
Proof.
  induction (N.lt_wf_0 x) as [x _ IH]. intros s.
  destruct (N.eq_dec x 0%N) as [->|Hne]; [rewrite pretty_N_go_0; lia|].
  rewrite pretty_N_go_step by lia.
  etransitivity; [|apply IH; apply N.div_lt; lia]. simpl. lia.
Qed.

Lemma pretty_N_nonempty (x : N) : pretty x <> "".
Proof.
  unfold pretty, pretty_N. destruct (decide (x = 0%N)) as [|Hne]; [discriminate|].
  rewrite pretty_N_go_step by lia. intros Hnil.
  pose proof (pretty_N_go_length (x `div` 10)%N
                (String (pretty_N_char (x `mod` 10)%N) "")) as Hlen.
  rewrite Hnil in Hlen. simpl in Hlen. lia.
Qed.

Lemma pretty_Z_nonempty (z : Z) : pretty z <> "".
Proof.
  destruct z as [|p|p]; [discriminate|apply pretty_N_nonempty|discriminate].
Qed.

Lemma or_string_nonempty s d : s <> "" -> Js.or (Js.VStr s) d = Js.VStr s.
Proof.
  intros Hne. unfold Js.or. simpl.
  destruct (String.eqb_spec s ""); [contradiction|reflexivity].
Qed.

Lemma text_of_or_string v :
  Js.toString (Js.or (Js.VStr (Js.toString v)) (Js.VStr "")) = Js.toString v.
Proof.
  unfold Js.or. simpl. destruct (String.eqb_spec (Js.toString v) "") as [->|]; reflexivity.
Qed.

(** The stored text of a key is the same on a reloaded page as it was
    before the flush. *)
Lemma storedText_reloaded accepts s s' key :
  NoDup (pendingKeys s) ->
  StorageManager.flushWrites accepts s = Returns s' ->
  storedText key (StorageManager.mk [] false (StorageManager.localStorage s'))
  = storedText key s.
Proof.
  unfold pendingKeys, StorageManager.flushWrites. intros Hnd.
  destruct (StorageManager.setItems accepts (StorageManager.localStorage s)
              (StorageManager.pendingWrites s)) as [ls|ls] eqn:Hset;
    [|discriminate].
  intros [= <-]. simpl.
  pose proof (setItems_lookup accepts _ _ _ Hset Hnd key) as Hl.
  unfold storedText, StorageManager.getFromLocalStorage, StorageManager.mapHas. simpl.
  rewrite Hl.
  destruct (StorageManager.mapGet key (StorageManager.pendingWrites s)) as [v|];
    [apply text_of_or_string|reflexivity].
Qed.

(** X25.  Reloading the page.  Take a session in good order whose
    document list and active index have been queued by
    [saveTabsToStorage()], let the flush of the queue return, and run the
    constructor on a page whose pending map is empty and whose
    [localStorage] is what the flush left.  With a [JSON.parse] that reads
    back the list [JSON.stringify] wrote (a non-empty string) and a
    [parseInt] that reads back the index, the constructor returns the same
    document list with the same document active; every history starts
    over with empty stacks, and the note element shows the text last
    stored for the active document, not the text it held. *)
Theorem flushed_session_is_restored_on_reload
    (h : Host) (now : Z) (w w0 : World) (s' : StorageManager.t) :
  wellFormed w ->
  NoDup (pendingKeys (storage w)) ->
  stringify h (tabs (tabState w)) <> "" ->
  parseTabs h (stringify h (tabs (tabState w))) = Some (tabs (tabState w)) ->
  parseInt h (pretty (currentTabIndex (tabState w)))
  = Some (currentTabIndex (tabState w)) ->
  StorageManager.flushWrites (accepts h)
    (storage (TabManager.saveTabsToStorage (stringify h) w)) = Returns s' ->
  storage w0 = StorageManager.mk [] false (StorageManager.localStorage s') ->
  exists cur w',
    activeTab w = Some cur
    /\ TabManager.constructor (stringify h) (parseTabs h) (parseInt h) now w0
       = Returns w'
    /\ tabs (tabState w') = tabs (tabState w)
    /\ currentTabIndex (tabState w') = currentTabIndex (tabState w)
    /\ noteText w' = storedText (id cur) (storage w)
    /\ (forall t, t ∈ tabs (tabState w) ->
          tabHistories (tabState w') !! id t
          = Some (HistoryManager.mk [] [] (storedText (id t) (storage w)) false))
    /\ wellFormed w'.
Proof.
  intros Hwf Hnd Hjs Hparse Hint Hflush Hw0.
  pose proof Hwf as (Hndt & Hkept & Hrange).
  destruct (wellFormed_active w Hwf) as (cur & hc & Hcur & _ & _).
  set (sv := storage (TabManager.saveTabsToStorage (stringify h) w)) in *.
  assert (Hndv : NoDup (pendingKeys sv)).
  { unfold pendingKeys. subst sv. simpl. do 2 apply mapSet_NoDup. exact Hnd. }
  pose proof Hflush as Hfl. unfold StorageManager.flushWrites in Hfl.
  destruct (StorageManager.setItems (accepts h) (StorageManager.localStorage sv)
              (StorageManager.pendingWrites sv)) as [ls|ls] eqn:Hset;
    [|discriminate]. injection Hfl as <-. simpl in Hw0.
  pose proof (setItems_lookup (accepts h) _ _ _ Hset Hndv) as Hl.
  assert (Htabs : StorageManager.getFromLocalStorage "tabs" Js.VNull (storage w0)
                  = Js.VStr (stringify h (tabs (tabState w)))).
  { rewrite Hw0. unfold StorageManager.getFromLocalStorage, StorageManager.mapHas.
    simpl. rewrite Hl. subst sv. simpl.
    rewrite mapGet_mapSet_ne by discriminate. rewrite mapGet_mapSet. simpl.
    apply or_string_nonempty. exact Hjs. }
  assert (Hidx : StorageManager.getFromLocalStorage "currentTabIndex" (Js.VNum (-1))
                   (storage w0)
                 = Js.VStr (pretty (currentTabIndex (tabState w)))).
  { rewrite Hw0. unfold StorageManager.getFromLocalStorage, StorageManager.mapHas.
    simpl. rewrite Hl. subst sv. simpl. rewrite mapGet_mapSet. simpl.
    apply or_string_nonempty. apply pretty_Z_nonempty. }
  assert (Htext : forall key, keptBySession key ->
                    storedText key (storage w0) = storedText key (storage w)).
  { intros key [Hk1 Hk2]. rewrite Hw0.
    change ls with (StorageManager.localStorage (StorageManager.mk [] false ls)).
    rewrite (storedText_reloaded (accepts h) sv _ key Hndv Hflush).
    unfold storedText. subst sv. simpl.
    rewrite read_after_other_write by exact Hk2.
    rewrite read_after_other_write by exact Hk1. reflexivity. }
  assert (Hne : tabs (tabState w) <> []).
  { apply (tabAt_nonempty (currentTabIndex (tabState w))). exists cur. exact Hcur. }
  destruct (constructor_restore (stringify h) (parseTabs h) (parseInt h) now w0
              (tabs (tabState w)))
    as (tab & w' & Hlook & Hret & Hts & Hi & Hn & Hh & _);
    [rewrite Htabs; simpl; destruct (String.eqb_spec (stringify h (tabs (tabState w))) "");
       [contradiction|reflexivity]
    |rewrite Htabs; exact Hparse|exact Hne|].
  assert (Hri : restoredIndex (parseInt h) (Z.of_nat (length (tabs (tabState w))))
                  (storage w0) = currentTabIndex (tabState w)).
  { unfold restoredIndex. rewrite Hidx. simpl Js.toString. rewrite Hint.
    unfold TabManager.tabCount in Hrange.
    destruct (Z.leb_spec 0 (currentTabIndex (tabState w))); [|lia].
    destruct (Z.ltb_spec (currentTabIndex (tabState w))
                (Z.of_nat (length (tabs (tabState w))))); [reflexivity|lia]. }
  rewrite Hri in Hlook, Hi.
  assert (tab = cur) as ->.
  { unfold activeTab in Hcur. rewrite tabAt_lookup in Hcur by lia. congruence. }
  assert (Hin : forall t, t ∈ tabs (tabState w) -> id t ∈ map id (tabs (tabState w))).
  { intros t Ht. apply list_elem_of_fmap. exists t. auto. }
  exists cur, w'. split; [exact Hcur|]. split; [exact Hret|]. split; [exact Hts|].
  split; [exact Hi|]. split; [|split].
  - rewrite Hn. apply Htext. apply (Hkept cur). apply (tabAt_elem _ _ _ Hcur).
  - intros t Ht. rewrite Hh, decide_True by (apply Hin; exact Ht).
    rewrite Htext by (apply (Hkept t Ht)). reflexivity.
  - apply (restored_wellFormed w' _ Hts).
    + rewrite Hi. exact Hrange.
    + intros key Hkey. rewrite Hh, decide_True by exact Hkey. eauto.
    + exact Hndt.
    + intros t Ht. apply (Hkept t Ht).
Qed.

Lemma flushed_session_is_restored_on_reload_witness :
  exists w',
    TabManager.constructor sampleStringify sampleParseTabs sampleParseInt 5 reloadedPage
    = Returns w'
    /\ tabs (tabState w') = tabs (tabState sampleWorld)
    /\ currentTabIndex (tabState w') = 1
    /\ noteText w' = "second note".
Proof.
  assert (Hnd : NoDup (pendingKeys (storage sampleWorld))) by apply NoDup_nil_2.
  assert (Hjs : stringify roomyHost (tabs (tabState sampleWorld)) <> "")
    by (vm_compute; discriminate).
  destruct (flushed_session_is_restored_on_reload roomyHost 5 sampleWorld reloadedPage _
              sampleWorld_wellFormed Hnd Hjs eq_refl eq_refl eq_refl eq_refl)
    as (cur & w' & Hcur & Hret & Hts & Hi & Hn & _).
  injection Hcur as <-.
  exists w'. split; [exact Hret|]. split; [exact Hts|]. split; [exact Hi|].
  rewrite Hn. vm_compute. reflexivity.
Defined.

Section EnrichmentFrame.

Variable stringify : list Tab -> string.

Lemma loadSectionContent_enrichment sec w :
  enrichmentState (SectionManager.loadSectionContent sec w) = enrichmentState w.
Proof.
  destruct (loadSectionContent_frame sec w) as (_ & Hs & Hr & _).
  unfold enrichmentState. rewrite Hs, Hr. reflexivity.
Qed.

Lemma setNoteId_enrichment noteId w :
  enrichmentState (SectionManager.setNoteId noteId w) = enrichmentState w.
Proof.
  unfold SectionManager.setNoteId. rewrite loadSectionContent_enrichment. reflexivity.
Qed.

Lemma saveSectionContent_enrichment w :
  enrichmentState (SectionManager.saveSectionContent w) = enrichmentState w.
Proof.
  destruct (saveSectionContent_frame w) as (Hr & Hs & _).
  unfold enrichmentState. rewrite Hs, Hr. reflexivity.
Qed.

Lemma saveCurrent_enrichment w :
  enrichmentState (stateOf (TabManager.saveCurrentTabContent w)) = enrichmentState w.
Proof.
  unfold TabManager.saveCurrentTabContent. repeat case_match; reflexivity.
Qed.

Lemma switchTab_enrichment index w :
  enrichmentState (stateOf (TabManager.switchTab stringify index w)) = enrichmentState w.
Proof.
  unfold TabManager.switchTab.
  destruct (currentTabIndex (tabState w) =? index); [reflexivity|].
  pose proof (saveCurrent_enrichment w) as Hs.
  destruct (TabManager.saveCurrentTabContent w) as [w1|w1]; simpl in Hs; [|exact Hs].
  cbv zeta. destruct (TabManager.tabAt index _) as [tab|]; [|exact Hs].
  destruct (tabHistories _ !! id tab) as [hm|]; [|exact Hs].
  cbv [stateOf]. unfold TabManager.saveTabsToStorage.
  change (enrichmentState (withStorage ?f ?x)) with (enrichmentState x).
  rewrite setNoteId_enrichment. exact Hs.
Qed.

Lemma createNewTab_enrichment now w :
  enrichmentState (stateOf (TabManager.createNewTab stringify now w))
  = enrichmentState w.
Proof.
  unfold TabManager.createNewTab.
  pose proof (saveCurrent_enrichment w) as Hs.
  destruct (currentTabIndex (tabState w) =? -1).
  - rewrite switchTab_enrichment. reflexivity.
  - destruct (TabManager.saveCurrentTabContent w) as [w1|w1]; simpl in Hs; [|exact Hs].
    rewrite switchTab_enrichment. exact Hs.
Qed.

Lemma closeTab_enrichment index w :
  enrichmentState (stateOf (TabManager.closeTab stringify index w)) = enrichmentState w.
Proof.
  unfold TabManager.closeTab.
  destruct (TabManager.tabCount w <=? 1); [reflexivity|]. cbv zeta.
  destruct (TabManager.tabAt index w) as [closed|]; [|reflexivity].
  destruct (index =? currentTabIndex (tabState w)).
  - rewrite switchTab_enrichment. reflexivity.
  - simpl. destruct (index <? currentTabIndex (tabState w)); reflexivity.
Qed.

Lemma navigate_enrichment step w :
  enrichmentState (stateOf (TabManager.navigate step w)) = enrichmentState w.
Proof.
  unfold TabManager.navigate. repeat case_match; reflexivity.
Qed.

Lemma switched_section index tab h w1 :
  let w' := switched stringify index tab h w1 in
  enrichmentState w' = enrichmentState w1
  /\ currentNoteId (section w') = Some (id tab)
  /\ activeSection (section w') = activeSection (section w1)
  /\ currentSectionElement (section w') = currentSectionElement (section w1)
  /\ translationManager (section w') = translationManager (section w1)
  /\ (forall sec, is_Some (panels w1 !! sec) -> is_Some (panels w' !! sec)).
Proof.
  cbv zeta. unfold switched, TabManager.saveTabsToStorage.
  set (x := TabManager.setHistories _ _).
  destruct (setNoteId_facts (id tab) x) as (_ & Hid & Hact & Hel & Htm & Hp & _).
  split; [|split; [exact Hid|split; [exact Hact|split; [exact Hel|split; [exact Htm|]]]]].
  - change (enrichmentState (withStorage ?f ?y)) with (enrichmentState y).
    rewrite setNoteId_enrichment. reflexivity.
  - intros sec Hsec. apply Hp. exact Hsec.
Qed.

End EnrichmentFrame.

(** X26.  Only the enrichment itself talks to the service.  Every event
    other than the enrichment button and the poll timer leaves the log of
    requests, the result cache and the scheduled poll as they were: in
    particular, switching, creating or closing a document, switching the
    section and choosing a language neither send a request nor cancel a
    poll that is scheduled. *)
Theorem other_events_leave_enrichment_alone (h : Host) (e : event) (w : World) :
  isEnrichment e = false ->
  enrichmentState (stateOf (run h e w)) = enrichmentState w.
Proof.
  intros He. destruct e; try discriminate He; cbv [run].
  - apply createNewTab_enrichment.
  - apply switchTab_enrichment.
  - apply closeTab_enrichment.
  - apply saveCurrent_enrichment.
  - apply navigate_enrichment.
  - apply navigate_enrichment.
  - reflexivity.
  - destruct (currentSectionElement (section w)) as [element|]; [|reflexivity].
    cbv [SectionManager.setInnerText stateOf].
    rewrite saveSectionContent_enrichment. reflexivity.
  - destruct (StorageManager.flushWrites _ _); reflexivity.
  - cbv [stateOf]. unfold SectionManager.switchSection. cbv zeta.
    destruct (SectionManager.querySelector _ _); [|reflexivity].
    rewrite loadSectionContent_enrichment. reflexivity.
  - cbv [stateOf]. rewrite loadSectionContent_enrichment. reflexivity.
  - cbv [stateOf]. destruct (String.eqb _ _); reflexivity.
Qed.

Lemma other_events_leave_enrichment_alone_witness :
  enrichmentState (stateOf (run sampleHost (SwitchTab 0) pollScheduled))
  = enrichmentState pollScheduled.
Proof.
  apply (other_events_leave_enrichment_alone sampleHost (SwitchTab 0) pollScheduled).
  reflexivity.
Defined.

Lemma string_length_app (a b : string) :
  String.length (a +:+ b) = (String.length a + String.length b)%nat.
Proof. induction a as [|c a IH]; simpl; [reflexivity|rewrite IH; reflexivity]. Qed.

Lemma append_inj_l (s : string) : forall a b : string, a +:+ s = b +:+ s -> a = b.
Proof.
  intros a. induction a as [|c a IH]; intros [|d b] Heq.
  - reflexivity.
  - apply (f_equal String.length) in Heq.
    rewrite !string_length_app in Heq. simpl in Heq. lia.
  - apply (f_equal String.length) in Heq.
    rewrite !string_length_app in Heq. simpl in Heq. lia.
  - simpl in Heq. injection Heq as -> Heq. f_equal. apply IH. exact Heq.
Qed.

Lemma append_longer (a b : string) : b <> "" -> a <> a +:+ b.
Proof.
  intros Hb Heq. apply (f_equal String.length) in Heq.
  rewrite string_length_app in Heq. destruct b; [contradiction|simpl in Heq; lia].
Qed.

(** The key of a section result names its document: it differs from the
    document's own key and from the key of any other document. *)
Lemma sectionKey_names_document doc other sec w :
  doc <> SectionManager.sectionKey (Some doc) sec w
  /\ (other <> doc ->
      SectionManager.sectionKey (Some other) sec w
      <> SectionManager.sectionKey (Some doc) sec w).
Proof.
  unfold SectionManager.sectionKey. simpl.
  destruct (translationManager (section w)) as [lang|];
    [destruct (String.eqb sec "translation")|];
    (split; [apply append_longer; discriminate
            |intros Hne Heq; apply Hne; exact (append_inj_l _ _ _ Heq)]).
Qed.

Lemma completed_poll_eq srv j w reply a r element :
  (retries j < SectionManager.maxRetries)%nat ->
  srv (requests w) (statusRead j) = Api.Returned reply ->
  Api.ok reply = true ->
  Api.data_attributes (Api.payload reply) = Api.Returned a ->
  Api.status a = "completed" \/ Api.status a = "success" ->
  Api.result a = Api.Returned r ->
  currentSectionElement (section w) = Some element ->
  SectionManager.pollForStatus srv j w
  = Returns (SectionManager.saveSectionContent
               (SectionManager.setApiCache (jobCacheKey j)
                  (SectionManager.finalResult r w)
                  (withPanels <[element := SectionManager.finalResult r w]>
                     (withRequests (requests w ++ [statusRead j]) w)))).
Proof.
  intros Hlt Hsrv Hok Ha Hst Hr He.
  unfold SectionManager.pollForStatus.
  destruct (Nat.leb_spec SectionManager.maxRetries (retries j)) as [Hle|_]; [lia|].
  unfold Api.callSharpApi. unfold statusRead in Hsrv. rewrite Hsrv, Hok. simpl.
  rewrite Ha.
  assert (String.eqb (Api.status a) "completed" || String.eqb (Api.status a) "success"
          = true) as ->.
  { destruct Hst as [-> | ->]; reflexivity. }
  rewrite Hr. simpl. rewrite He. reflexivity.
Qed.

(** X27.  A result that arrives after a document switch goes to the
    document then active.  With a poll scheduled for a job and the
    service ready to report it completed: after a switch to another
    document and the timer firing, the result is shown in the panel,
    cached under the job's key, and stored under the section key of the
    document switched to; the key of the document that was active when
    the job was scheduled reads as it did before. *)
Theorem late_result_goes_to_the_active_document
    (h : Host) (index : Z) (w : World) (tab : Tab) (j : Job)
    (reply : Api.reply) (a : Api.attributes) (r : Api.parsed)
    (element sec : string) :
  wellFormed w ->
  currentTabIndex (tabState w) <> index ->
  TabManager.tabAt index w = Some tab ->
  id tab <> "" ->
  pollingTimeout (section w) = Some j ->
  (retries j < SectionManager.maxRetries)%nat ->
  srv h (requests w) (statusRead j) = Api.Returned reply ->
  Api.ok reply = true ->
  Api.data_attributes (Api.payload reply) = Api.Returned a ->
  Api.status a = "completed" \/ Api.status a = "success" ->
  Api.result a = Api.Returned r ->
  currentSectionElement (section w) = Some element ->
  activeSection (section w) = Some sec ->
  sec <> "" ->
  let final := SectionManager.finalResult r w in
  exists cur w1 w2,
    activeTab w = Some cur
    /\ run h (SwitchTab index) w = Returns w1
    /\ run h PollTimer w1 = Returns w2
    /\ activeTab w2 = Some tab
    /\ panels w2 !! element = Some final
    /\ apiCache (section w2) !! jobCacheKey j = Some final
    /\ StorageManager.getFromLocalStorage
         (SectionManager.sectionKey (Some (id tab)) sec w) Js.VNull (storage w2)
       = Js.VStr final
    /\ forall d,
         StorageManager.getFromLocalStorage
           (SectionManager.sectionKey (Some (id cur)) sec w) d (storage w2)
         = StorageManager.getFromLocalStorage
             (SectionManager.sectionKey (Some (id cur)) sec w) d (storage w).
Proof.
  intros Hwf Hne Htab Hid Hpoll Hlt Hsrv Hok Ha Hst Hr He Hsec Hsec' final.
  pose proof Hwf as (Hnd & Hkept & Hrange).
  destruct (wellFormed_active w Hwf) as (cur & hc & Hcur & Hhc & Hm).
  pose proof (saveCurrent_eq w cur hc Hm Hcur Hhc) as Hsave.
  set (w0 := TabManager.setHistories _ _) in Hsave.
  assert (Hidx : 0 <= index < TabManager.tabCount w).
  { unfold TabManager.tabAt in Htab. destruct (Z.ltb_spec index 0); [discriminate|].
    apply lookup_lt_Some in Htab. unfold TabManager.tabCount. lia. }
  destruct (switchTab_returns_switched (stringify h) index w w0 Hsave Hne Hidx)
    as (tab' & hm & Htab' & Hhm & Hsw).
  { intros t Ht. subst w0. simpl. rewrite lookup_insert_is_Some.
    destruct (decide (id cur = id t)); [auto|right; split; [assumption|]].
    apply (Hkept t Ht). }
  rewrite Htab in Htab'. injection Htab' as <-.
  pose proof (switched_section (stringify h) index tab hm w0) as Hss.
  pose proof (switched_facts (stringify h) index tab hm w0) as Hsf.
  cbv zeta in Hss, Hsf.
  set (w1 := switched (stringify h) index tab hm w0) in *. clearbody w1.
  destruct Hss as (Hen & Hnote1 & Hact1 & Hel1 & Htm1 & _).
  destruct Hsf as (Hts1 & Hi1 & _ & _ & Hst1).
  unfold enrichmentState in Hen. injection Hen as Hreq1 Hcache1 Hpoll1.
  change (requests w0) with (requests w) in Hreq1.
  change (pollingTimeout (section w0)) with (pollingTimeout (section w)) in Hpoll1.
  change (activeSection (section w0)) with (activeSection (section w)) in Hact1.
  change (currentSectionElement (section w0))
    with (currentSectionElement (section w)) in Hel1.
  change (translationManager (section w0))
    with (translationManager (section w)) in Htm1.
  set (x := SectionManager.setPollingTimeout None w1).
  assert (Hfinal : SectionManager.finalResult r x = final).
  { subst final. unfold SectionManager.finalResult. subst x. simpl.
    rewrite Hact1, Hsec. reflexivity. }
  assert (Hsrvx : srv h (requests x) (statusRead j) = Api.Returned reply).
  { subst x. simpl. rewrite Hreq1. exact Hsrv. }
  assert (Hex : currentSectionElement (section x) = Some element).
  { subst x. simpl. rewrite Hel1. exact He. }
  pose proof (completed_poll_eq (srv h) j x reply a r element Hlt Hsrvx Hok Ha Hst Hr Hex)
    as Hpollx.
  rewrite Hfinal in Hpollx.
  set (y := SectionManager.setApiCache _ _ _) in Hpollx.
  assert (Hy : SectionManager.saveSectionContent y
               = withStorage
                   (StorageManager.saveToLocalStorage
                      (SectionManager.sectionKey (Some (id tab)) sec y)
                      (Js.VStr (SectionManager.innerText element y))) y).
  { apply saveSectionContent_eq; subst y x; simpl; try assumption;
      [rewrite Hact1; exact Hsec]. }
  assert (Hkey : forall doc, SectionManager.sectionKey (Some doc) sec y
                             = SectionManager.sectionKey (Some doc) sec w).
  { intros doc. apply sectionKey_ext. subst y x. simpl. exact Htm1. }
  assert (Hinner : SectionManager.innerText element y = final).
  { unfold SectionManager.innerText. subst y. simpl. rewrite lookup_insert_eq.
    reflexivity. }
  rewrite Hy, Hkey, Hinner in Hpollx.
  destruct (sectionKey_names_document (id cur) (id tab) sec w) as [Hown Hother].
  assert (Hids : id tab <> id cur).
  { intros Heq.
    pose proof (tabAt_inj _ _ w tab cur Hnd Htab Hcur Heq). lia. }
  eexists cur, w1, _. split; [exact Hcur|]. split; [exact Hsw|]. split.
  { cbv [run]. rewrite Hpoll1, Hpoll. exact Hpollx. }
  split.
  { unfold activeTab. simpl. subst y x. simpl.
    change (TabManager.tabAt (currentTabIndex (tabState w1)) ?z)
      with (TabManager.tabAt (currentTabIndex (tabState w1)) w1).
    rewrite Hi1, (tabAt_tabs index w0 w1 Hts1). exact Htab. }
  split; [subst y; simpl; apply lookup_insert_eq|].
  split; [subst y; simpl; apply lookup_insert_eq|].
  split; [simpl; apply read_own_write|].
  intros d. simpl.
  rewrite read_after_other_write by (apply Hother; exact Hids).
  subst y x. simpl. rewrite Hst1.
  assert (Hdash : hasDash (SectionManager.sectionKey (Some (id cur)) sec w) = true)
    by apply sectionKey_hasDash.
  rewrite read_after_other_write by (intros Heq; rewrite <- Heq in Hdash; discriminate).
  rewrite read_after_other_write by (intros Heq; rewrite <- Heq in Hdash; discriminate).
  subst w0. simpl.
  rewrite read_after_other_write by exact Hown. reflexivity.
Qed.

Lemma late_result_goes_to_the_active_document_witness :
  exists w1 w2,
    run finishedHost (SwitchTab 0) pollScheduled = Returns w1
    /\ run finishedHost PollTimer w1 = Returns w2
    /\ StorageManager.getFromLocalStorage "note-1-summary" Js.VNull (storage w2)
       = Js.VStr "A short summary.".
Proof.
  assert (Hwf : wellFormed pollScheduled) by exact sampleWorld_wellFormed.
  assert (Hne : currentTabIndex (tabState pollScheduled) <> 0) by discriminate.
  assert (Hid : id (mkTab "note-1" "Note 1") <> "") by discriminate.
  assert (Hlt : (5 < SectionManager.maxRetries)%nat) by (unfold SectionManager.maxRetries; lia).
  assert (Hsec : "summary" <> "") by discriminate.
  destruct (late_result_goes_to_the_active_document finishedHost 0 pollScheduled
              (mkTab "note-1" "Note 1")
              (mkJob "https://sharpapi.com/api/v1/job/status/3" "secret" "old-key" 5)
              _ _ _ "summary" "summary"
              Hwf Hne eq_refl Hid eq_refl Hlt eq_refl eq_refl eq_refl
              (or_introl eq_refl) eq_refl eq_refl eq_refl Hsec)
    as (cur & w1 & w2 & _ & H1 & H2 & _ & _ & _ & H3 & _).
  exists w1, w2. split; [exact H1|]. split; [exact H2|]. exact H3.
Defined.

Section SavedFacts.

Variable stringify : list Tab -> string.

Lemma saveTabs_saved w : sessionSaved stringify (TabManager.saveTabsToStorage stringify w).
Proof.
  unfold sessionSaved, TabManager.saveTabsToStorage. simpl. split.
  - rewrite read_after_other_write by discriminate. apply read_own_write.
  - apply read_own_write.
Qed.

Lemma switched_saved index tab h w1 :
  sessionSaved stringify (switched stringify index tab h w1).
Proof.
  destruct (switched_facts stringify index tab h w1) as (Hts & Hi & _ & _ & Hst).
  unfold sessionSaved. rewrite Hts, Hi, Hst. split.
  - rewrite read_after_other_write by discriminate. apply read_own_write.
  - apply read_own_write.
Qed.

Lemma switchTab_saved index w w' :
  currentTabIndex (tabState w) <> index ->
  TabManager.switchTab stringify index w = Returns w' ->
  sessionSaved stringify w'.
Proof.
  intros Hne. unfold TabManager.switchTab.
  destruct (Z.eqb_spec (currentTabIndex (tabState w)) index) as [|_]; [contradiction|].
  destruct (TabManager.saveCurrentTabContent w) as [w1|w1]; [|discriminate]. cbv zeta.
  destruct (TabManager.tabAt index _) as [tab|]; [|discriminate].
  destruct (tabHistories _ !! id tab) as [hm|]; [|discriminate].
  intros [= <-]. apply (switched_saved index tab hm w1).
Qed.

Lemma saved_frame w w' :
  sessionSaved stringify w ->
  tabs (tabState w') = tabs (tabState w) ->
  currentTabIndex (tabState w') = currentTabIndex (tabState w) ->
  (forall d, StorageManager.getFromLocalStorage "tabs" d (storage w')
             = StorageManager.getFromLocalStorage "tabs" d (storage w)) ->
  (forall d, StorageManager.getFromLocalStorage "currentTabIndex" d (storage w')
             = StorageManager.getFromLocalStorage "currentTabIndex" d (storage w)) ->
  sessionSaved stringify w'.
Proof.
  intros [H1 H2] Ht Hi Hs1 Hs2. unfold sessionSaved. rewrite Ht, Hi, Hs1, Hs2. auto.
Qed.

Lemma navigate_saved step w :
  sessionSaved stringify w ->
  sessionSaved stringify (stateOf (TabManager.navigate step w)).
Proof.
  intros Hs. unfold TabManager.navigate.
  destruct (currentTabIndex (tabState w) =? -1); [exact Hs|].
  destruct (TabManager.tabAt _ w) as [tab|]; [|exact Hs].
  destruct (tabHistories (tabState w) !! id tab) as [hm|]; [|exact Hs].
  destruct (step hm) as [h' [text|]]; exact Hs.
Qed.

End SavedFacts.

(** X28.  The saved session keeps in step with the live one.  In a
    session in good order whose document list and active index read back
    from the store as they are, they still do after any call the page
    makes on the tab manager: creating, switching to or closing a
    document, storing the note, undo, redo and typing. *)
Theorem saved_session_keeps_in_step (h : Host) (e : event) (w : World) :
  wellFormed w ->
  sessionSaved (stringify h) w ->
  validTabEvent w e ->
  sessionSaved (stringify h) (stateOf (run h e w)).
Proof.
  intros Hwf Hs Hvalid. pose proof Hwf as (Hnd & Hkept & Hrange).
  destruct (wellFormed_active w Hwf) as (cur & hc & Hcur & Hhc & Hm).
  destruct e; simpl in Hvalid; try contradiction; cbv [run].
  - destruct (createNewTab_wellFormed (stringify h) now w Hwf Hvalid)
      as (w' & Hret & _).
    destruct (createNewTab_steps (stringify h) now w cur hc Hwf Hvalid Hcur Hhc)
      as (Heq & _).
    cbv zeta in Heq. rewrite Hret. rewrite Hret in Heq. symmetry in Heq.
    apply (switchTab_saved (stringify h) _ _ w') in Heq; [exact Heq|].
    simpl. lia.
  - destruct (Z.eq_dec (currentTabIndex (tabState w)) index) as [Heq|Hne].
    + unfold TabManager.switchTab. rewrite (proj2 (Z.eqb_eq _ _) Heq). exact Hs.
    + destruct (switchTab_wellFormed (stringify h) index w Hwf Hvalid)
        as (w' & Hret & _).
      rewrite Hret. apply (switchTab_saved (stringify h) index w w' Hne Hret).
  - destruct (Z.le_gt_cases (TabManager.tabCount w) 1) as [Hle|Hgt].
    { rewrite closing_last_tab_keeps_state by exact Hle. exact Hs. }
    assert (Hcount : 1 < TabManager.tabCount w) by lia.
    destruct (Z.eq_dec index (currentTabIndex (tabState w))) as [->|Hne].
    + destruct (closeTab_wellFormed (stringify h) _ w Hwf Hcount Hrange)
        as (w' & Hret & _).
      pose proof (closeTab_active_eq (stringify h) cur w Hcount Hcur) as Heq.
      cbv zeta in Heq. rewrite Hret. rewrite Hret in Heq. symmetry in Heq.
      apply (switchTab_saved (stringify h) _ _ w') in Heq; [exact Heq|].
      simpl. unfold successorIndex.
      destruct (TabManager.tabCount w - 1 <=? _); lia.
    + destruct (tabAt_valid index w Hvalid) as [closed Hclosed].
      rewrite (closeTab_inactive_eq (stringify h) index closed w Hcount Hclosed Hne).
      apply saveTabs_saved.
  - rewrite (saveCurrent_eq w cur hc Hm Hcur Hhc).
    destruct (Hkept cur (tabAt_elem _ _ _ Hcur)) as [[Hk1 Hk2] _].
    apply (saved_frame (stringify h) w); [exact Hs|reflexivity|reflexivity| |];
      intros d; simpl; apply read_after_other_write; auto.
  - apply navigate_saved. exact Hs.
  - apply navigate_saved. exact Hs.
  - exact Hs.
Qed.

Lemma saved_session_keeps_in_step_witness :
  sessionSaved sampleStringify
    (stateOf (run sampleHost (CloseTab 0)
                (TabManager.saveTabsToStorage sampleStringify sampleWorld))).
Proof.
  apply (saved_session_keeps_in_step sampleHost (CloseTab 0)
           (TabManager.saveTabsToStorage sampleStringify sampleWorld)).
  - exact sampleWorld_wellFormed.
  - apply saveTabs_saved.
  - change (0 <= 0 < 2). lia.
Defined.

(** X29.  Whenever the constructor returns, on first load or with a
    saved session, the store holds the session it has set up: the
    document list and the active index read back as they are. *)
Theorem constructor_saves_the_session (h : Host) (now : Z) (w0 w : World) :
  TabManager.constructor (stringify h) (parseTabs h) (parseInt h) now w0 = Returns w ->
  sessionSaved (stringify h) w.
Proof.
  unfold TabManager.constructor.
  set (w1 := withTabState (fun _ => TabManager.new) w0).
  destruct (Js.truthy _).
  - destruct (parseTabs h _) as [saved|]; [|discriminate].
    pose proof (restore_frame saved (TabManager.setTabs saved w1)) as [Hidx _].
    cbv zeta in Hidx. simpl in Hidx. cbv zeta.
    set (w2 := foldl _ _ saved) in *.
    assert (Hsw : forall index, 0 <= index ->
              TabManager.switchTab (stringify h) index w2 = Returns w ->
              sessionSaved (stringify h) w).
    { intros index Hpos. apply switchTab_saved. rewrite Hidx. lia. }
    destruct (parseInt h _) as [index|]; [|apply Hsw; lia].
    destruct (Z.leb_spec 0 index); simpl; [|apply Hsw; lia].
    destruct (index <? _); apply Hsw; lia.
  - unfold TabManager.createNewTab.
    change (currentTabIndex (tabState w1)) with (-1). rewrite Z.eqb_refl. cbv zeta.
    apply switchTab_saved. simpl.
    change (TabManager.tabCount _) with 1. lia.
Qed.

Lemma constructor_saves_the_session_witness :
  sessionSaved sampleStringify firstLoad.
Proof.
  apply (constructor_saves_the_session sampleHost 1700000000000 blankPage firstLoad).
  reflexivity.
Defined.
